(** * Journal API: manuscript lifecycle, review aggregation, payment reconciliation

    A shallow embedding of the route handlers and Mongoose schemas of the
    journal back end, and the properties of its editorial state machine.

    Conventions of the embedding.
    - A MongoDB collection is a list of documents in insertion order.
      [_id] is unique in a collection; ids are generated from a counter kept
      in the store.
    - [Date.now()] is an input of every handler ([now], epoch milliseconds).
    - A handler returns its HTTP response together with the store it leaves;
      an exception caught by the handler's [catch] yields the 500 response of
      that [catch] and whatever had been persisted before the throw.
    - [doc.save()] runs the schema validators first and the schema's
      [pre('save')] hook afterwards, as Mongoose does; paths a handler does not
      assign are taken to satisfy their validators, as they did when stored.
    - E-mail notifications are wrapped in their own [try/catch] in every
      handler and touch neither the store nor the response; they are left out.
    - Request fields carry values of the kind the handler reads them as: ids
      that cast to an ObjectId, dates that parse, strings where a string is
      used; a field may be absent. Scores are exact rationals. *)

From Stdlib Require Import String Ascii List ZArith QArith Bool Arith Lia.
From Stdlib Require Import DecimalString.
Import ListNotations.
Local Open Scope nat_scope.
Local Open Scope string_scope.

Definition ObjectId := nat.
Definition Date := Z.

(** [n * 24 * 60 * 60 * 1000] *)
Definition days (n : Z) : Z := (n * 24 * 60 * 60 * 1000)%Z.

(** ** JavaScript values and operators used by the handlers *)
Module Js.

(** A value read from a plain object or assigned to a String path:
    [undefined], a string, or something that is neither (a function or
    object inherited from [Object.prototype]). *)
Inductive value :=
| undefined
| str (s : string)
| foreign.

(** Truthiness of an optional string: [undefined] and [''] are falsy. *)
Definition truthy (v : option string) : bool :=
  match v with
  | Some s => negb (s =? "")
  | None => false
  end.

(** [a || b] on optional strings. *)
Definition or_else (v : option string) (d : string) : string :=
  match v with
  | Some s => if s =? "" then d else s
  | None => d
  end.

(** [String.prototype.includes] *)
Fixpoint includes (s sub : string) : bool :=
  match s with
  | EmptyString => String.prefix sub EmptyString
  | String _ rest => String.prefix sub s || includes rest sub
  end.

(** [Array.prototype.includes] on an array of strings (also [$in]). *)
Definition elem (s : string) (l : list string) : bool :=
  existsb (String.eqb s) l.

(** [v === s] *)
Definition equals (v : value) (s : string) : bool :=
  match v with
  | str t => t =? s
  | _ => false
  end.

(** [a === b] on optional strings. *)
Definition opt_eqb (a b : option string) : bool :=
  match a, b with
  | Some s, Some t => s =? t
  | None, None => true
  | _, _ => false
  end.

(** Own properties are looked up first, then the ones every object literal
    inherits from [Object.prototype]. *)
Definition object_prototype_keys : list string :=
  [ "constructor"; "__proto__"; "__defineGetter__"; "__defineSetter__";
    "__lookupGetter__"; "__lookupSetter__"; "hasOwnProperty";
    "isPrototypeOf"; "propertyIsEnumerable"; "toString"; "toLocaleString";
    "valueOf" ].

Fixpoint lookup (own : list (string * string)) (k : string) : value :=
  match own with
  | (k', v) :: rest => if k =? k' then str v else lookup rest k
  | [] => if elem k object_prototype_keys then foreign else undefined
  end.

(** Template literal [`${n}`] for a number. *)
Definition of_Z (z : Z) : string := NilZero.string_of_int (Z.to_int z).

End Js.

(** ** Identity and access *)

Record Caller := mkCaller {
  caller_id : ObjectId;          (* req.user.id *)
  caller_role : string;          (* req.user.role *)
  caller_email : option string   (* req.userProfile?.email *)
}.

(** Modelled from the spec: the [authorize] role gate of [middleware/auth],
    which is not among the sources. "A role-gate primitive: fails with
    Forbidden if caller's role is not in the required set." *)
Definition authorize (roles : list string) (c : Caller) : bool :=
  Js.elem (caller_role c) roles.

(** ** HTTP responses *)

Record Response := mkResponse {
  res_status : nat;
  res_message : string;
  res_paymentReference : option string
}.

Definition json (code : nat) (msg : string) : Response :=
  mkResponse code msg None.

(** Modelled from the spec: the response of a failed role gate. *)
Definition forbidden : Response := json 403 "Forbidden".

(** ** Collections *)
Section Collection.
Context {D : Type} (oid : D -> ObjectId).

Definition findById (i : ObjectId) (c : list D) : option D :=
  find (fun d => Nat.eqb (oid d) i) c.

Definition findOne (q : D -> bool) (c : list D) : option D := find q c.

Definition countDocuments (q : D -> bool) (c : list D) : nat :=
  length (filter q c).

(** [updateOne({_id: d._id}, d)]: the document carrying [d]'s id is
    rewritten in place. *)
Definition updateById (d : D) (c : list D) : list D :=
  map (fun d' => if Nat.eqb (oid d') (oid d) then d else d') c.

(** [insertOne] *)
Definition insert (d : D) (c : list D) : list D := c ++ [d].

(** [findByIdAndDelete] *)
Definition deleteById (i : ObjectId) (c : list D) : list D :=
  filter (fun d => negb (Nat.eqb (oid d) i)) c.

(** [findByIdAndUpdate(i, u)]; no validators and no save hooks run. *)
Definition findByIdAndUpdate (i : ObjectId) (u : D -> D) (c : list D) : list D :=
  map (fun d => if Nat.eqb (oid d) i then u d else d) c.
End Collection.

(** ** models/Manuscript (src/unnamed/part_000) *)
Module Manuscript.

Record EditorDecision := mkEditorDecision {
  decision : string;
  decidedBy : ObjectId;
  decidedAt : Date;
  notes : option string
}.

Record PublicationDetails := mkPublicationDetails {
  publishedDate : Date;
  volume : option string;
  issue : option string;
  pages : option string;
  doi : string
}.

(** [reviewAssignments[]] entry. *)
Record Assignment := mkAssignment {
  reviewer : ObjectId;
  assignedDate : Date;
  dueDate : Date;
  a_status : string
}.

(** [editorNotes[]] entry. The schema declares [note], [addedBy] and
    [addedAt] only: the [type] the handlers pass is not a path of the
    sub-document and is dropped when the entry is pushed. *)
Record Note := mkNote {
  note : string;
  addedBy : ObjectId;
  addedAt : Date
}.

Record t := mk {
  id : ObjectId;
  submittedBy : ObjectId;
  status : Js.value;
  editorDecision : option EditorDecision;
  revisionDeadline : option Date;
  publicationDetails : option PublicationDetails;
  paymentCompleted : bool;
  paymentReference : option string;
  submissionDate : option Date;
  lastModified : Date;
  reviewAssignments : list Assignment;
  reviews : list ObjectId;
  editorNotes : list Note
}.

Definition status_enum : list string :=
  [ "draft"; "submitted"; "awaiting-reviewer-assignment"; "under-review";
    "revision-requested"; "revised"; "accepted"; "rejected"; "published";
    "withdrawn" ].

Definition decision_enum : list string :=
  [ "accept"; "minor-revisions"; "major-revisions"; "reject" ].

Definition set_status (v : Js.value) (m : t) : t :=
  mk (id m) (submittedBy m) v (editorDecision m) (revisionDeadline m)
     (publicationDetails m) (paymentCompleted m) (paymentReference m)
     (submissionDate m) (lastModified m) (reviewAssignments m) (reviews m)
     (editorNotes m).

Definition set_editorDecision (d : EditorDecision) (m : t) : t :=
  mk (id m) (submittedBy m) (status m) (Some d) (revisionDeadline m)
     (publicationDetails m) (paymentCompleted m) (paymentReference m)
     (submissionDate m) (lastModified m) (reviewAssignments m) (reviews m)
     (editorNotes m).

Definition set_revisionDeadline (d : Date) (m : t) : t :=
  mk (id m) (submittedBy m) (status m) (editorDecision m) (Some d)
     (publicationDetails m) (paymentCompleted m) (paymentReference m)
     (submissionDate m) (lastModified m) (reviewAssignments m) (reviews m)
     (editorNotes m).

Definition set_publicationDetails (d : PublicationDetails) (m : t) : t :=
  mk (id m) (submittedBy m) (status m) (editorDecision m) (revisionDeadline m)
     (Some d) (paymentCompleted m) (paymentReference m)
     (submissionDate m) (lastModified m) (reviewAssignments m) (reviews m)
     (editorNotes m).

Definition set_paymentCompleted (b : bool) (m : t) : t :=
  mk (id m) (submittedBy m) (status m) (editorDecision m) (revisionDeadline m)
     (publicationDetails m) b (paymentReference m)
     (submissionDate m) (lastModified m) (reviewAssignments m) (reviews m)
     (editorNotes m).

Definition set_paymentReference (r : option string) (m : t) : t :=
  mk (id m) (submittedBy m) (status m) (editorDecision m) (revisionDeadline m)
     (publicationDetails m) (paymentCompleted m) r
     (submissionDate m) (lastModified m) (reviewAssignments m) (reviews m)
     (editorNotes m).

Definition set_submissionDate (d : Date) (m : t) : t :=
  mk (id m) (submittedBy m) (status m) (editorDecision m) (revisionDeadline m)
     (publicationDetails m) (paymentCompleted m) (paymentReference m)
     (Some d) (lastModified m) (reviewAssignments m) (reviews m)
     (editorNotes m).

Definition set_lastModified (d : Date) (m : t) : t :=
  mk (id m) (submittedBy m) (status m) (editorDecision m) (revisionDeadline m)
     (publicationDetails m) (paymentCompleted m) (paymentReference m)
     (submissionDate m) d (reviewAssignments m) (reviews m)
     (editorNotes m).

Definition set_reviewAssignments (l : list Assignment) (m : t) : t :=
  mk (id m) (submittedBy m) (status m) (editorDecision m) (revisionDeadline m)
     (publicationDetails m) (paymentCompleted m) (paymentReference m)
     (submissionDate m) (lastModified m) l (reviews m)
     (editorNotes m).

Definition set_reviews (l : list ObjectId) (m : t) : t :=
  mk (id m) (submittedBy m) (status m) (editorDecision m) (revisionDeadline m)
     (publicationDetails m) (paymentCompleted m) (paymentReference m)
     (submissionDate m) (lastModified m) (reviewAssignments m) l
     (editorNotes m).

(** [manuscript.editorNotes.push({note, addedBy, type})]; [addedAt]
    defaults to [Date.now]. *)
Definition push_note (now : Date) (text : string) (by_ : ObjectId) (m : t) : t :=
  mk (id m) (submittedBy m) (status m) (editorDecision m) (revisionDeadline m)
     (publicationDetails m) (paymentCompleted m) (paymentReference m)
     (submissionDate m) (lastModified m) (reviewAssignments m) (reviews m)
     (editorNotes m ++ [mkNote text by_ now]).

(** The enum validator of a String path accepts [undefined]; a value that
    does not cast to one of the listed strings is refused. *)
Definition enum_ok (allowed : list string) (v : Js.value) : bool :=
  match v with
  | Js.undefined => true
  | Js.str s => Js.elem s allowed
  | Js.foreign => false
  end.

Definition validate (m : t) : bool :=
  enum_ok status_enum (status m)
  && match editorDecision m with
     | Some d => Js.elem (decision d) decision_enum
     | None => true
     end.

Definition value_eqb (a b : Js.value) : bool :=
  match a, b with
  | Js.undefined, Js.undefined => true
  | Js.str s, Js.str t => s =? t
  | Js.foreign, Js.foreign => true
  | _, _ => false
  end.

(** [manuscriptSchema.pre('save')]; [orig] is the document as loaded, so
    [isModified('status')] is "differs from [orig]". *)
Definition pre_save (now : Date) (orig m : t) : t :=
  let m1 :=
    if negb (value_eqb (status orig) (status m))
       && Js.equals (status m) "submitted"
       && match submissionDate m with None => true | Some _ => false end
    then set_submissionDate now m
    else m in
  set_lastModified now m1.

End Manuscript.

(** ** models/Review (src/models/Review.js) *)
Module Review.

Record Criterion := mkCriterion {
  score : option Q;
  comment : option string
}.

Record Evaluation := mkEvaluation {
  originality : Criterion;
  significance : Criterion;
  methodology : Criterion;
  clarity : Criterion;
  literature : Criterion
}.

Definition blank : Criterion := mkCriterion None None.
Definition no_evaluation : Evaluation := mkEvaluation blank blank blank blank blank.

Record t := mk {
  id : ObjectId;
  manuscript : ObjectId;
  reviewer : ObjectId;
  assignedBy : ObjectId;
  assignedDate : Date;
  dueDate : Date;
  submittedDate : option Date;
  status : string;
  recommendation : option string;
  evaluation : Evaluation;
  overallScore : option Q;
  confidenceLevel : option Q;
  strengths : option string;
  weaknesses : option string;
  specificComments : option string;
  confidentialComments : option string;
  suggestedReviewers : list string
}.

Definition status_enum : list string :=
  [ "pending"; "in-progress"; "completed"; "overdue" ].

Definition recommendation_enum : list string :=
  [ "accept"; "minor-revision"; "major-revision"; "reject" ].

Definition set_status (s : string) (r : t) : t :=
  mk (id r) (manuscript r) (reviewer r) (assignedBy r) (assignedDate r)
     (dueDate r) (submittedDate r) s (recommendation r) (evaluation r)
     (overallScore r) (confidenceLevel r) (strengths r) (weaknesses r)
     (specificComments r) (confidentialComments r) (suggestedReviewers r).

Definition set_submittedDate (d : Date) (r : t) : t :=
  mk (id r) (manuscript r) (reviewer r) (assignedBy r) (assignedDate r)
     (dueDate r) (Some d) (status r) (recommendation r) (evaluation r)
     (overallScore r) (confidenceLevel r) (strengths r) (weaknesses r)
     (specificComments r) (confidentialComments r) (suggestedReviewers r).

Definition set_overallScore (q : Q) (r : t) : t :=
  mk (id r) (manuscript r) (reviewer r) (assignedBy r) (assignedDate r)
     (dueDate r) (submittedDate r) (status r) (recommendation r) (evaluation r)
     (Some q) (confidenceLevel r) (strengths r) (weaknesses r)
     (specificComments r) (confidentialComments r) (suggestedReviewers r).

(** [min: 1, max: 5] on an optional Number path. *)
Definition in_scale (v : option Q) : bool :=
  match v with
  | Some q => Qle_bool 1%Q q && Qle_bool q 5%Q
  | None => true
  end.

(** [maxlength] on an optional String path. *)
Definition within (n : nat) (v : option string) : bool :=
  match v with
  | Some s => Nat.leb (String.length s) n
  | None => true
  end.

Definition criteria (e : Evaluation) : list Criterion :=
  [ originality e; significance e; methodology e; clarity e; literature e ].

Definition validate (r : t) : bool :=
  Js.elem (status r) status_enum
  && match recommendation r with
     | Some s => Js.elem s recommendation_enum
     | None => true
     end
  && forallb (fun c => in_scale (score c)) (criteria (evaluation r))
  && in_scale (confidenceLevel r)
  && within 2000 (strengths r)
  && within 2000 (weaknesses r)
  && within 5000 (specificComments r)
  && within 2000 (confidentialComments r).

(** [if (this.evaluation[key].score) scores.push(...)]: an absent score
    and the number 0 are falsy. *)
Definition pushed (c : Criterion) : list Q :=
  match score c with
  | Some q => if Qeq_bool q 0%Q then [] else [q]
  | None => []
  end.

(** [Object.keys(this.evaluation).forEach(...)]: [evaluation] is a nested
    path, always there, with the five criteria of the schema as its keys. *)
Definition scores (e : Evaluation) : list Q :=
  flat_map pushed (criteria e).

(** [scores.reduce((sum, score) => sum + score, 0) / scores.length] *)
Definition average (l : list Q) : Q :=
  (fold_left Qplus l 0 / inject_Z (Z.of_nat (length l)))%Q.

(** [reviewSchema.pre('save')]; [orig] is the document as loaded (or as
    constructed), so [isModified('recommendation')] is "differs from
    [orig]". *)
Definition pre_save (now : Date) (orig r : t) : t :=
  let r1 :=
    match scores (evaluation r) with
    | [] => r
    | l => set_overallScore (average l) r
    end in
  if negb (Js.opt_eqb (recommendation orig) (recommendation r1))
     && Js.truthy (recommendation r1)
     && (status r1 =? "pending")
  then set_submittedDate now (set_status "completed" r1)
  else r1.

End Review.

(** ** models/Payment (src/models/Payment.js) *)
Module Payment.

(** Raw gateway payloads stored in [paystackData]. *)
Record InitData := mkInitData {
  reference : string;
  authorization_url : string;
  access_code : string
}.

Record VerifyData := mkVerifyData {
  gw_status : string;                   (* data.status *)
  gw_id : string;                       (* data.id *)
  gateway_response : option string      (* data.gateway_response *)
}.

Inductive PaystackData :=
| initialized (d : InitData)
| verified (d : VerifyData).

Record Metadata := mkMetadata {
  publicationFee : Z;
  platformFee : Z;
  vendorReceives : Z;
  paymentFor : string
}.

Record t := mk {
  id : ObjectId;
  manuscript : ObjectId;
  user : ObjectId;
  amount : Z;
  currency : string;
  paymentReference : option string;
  paystackReference : option string;
  status : string;
  transactionId : option string;
  authorizationUrl : option string;
  accessCode : option string;
  paystackData : option PaystackData;
  metadata : Metadata;
  paidAt : option Date;
  failureReason : option string
}.

Definition status_enum : list string :=
  [ "pending"; "processing"; "completed"; "failed"; "cancelled" ].

(** [paymentReference] is [required]; a required String path refuses
    [undefined] and the empty string. *)
Definition validate (p : t) : bool :=
  Js.truthy (paymentReference p) && Js.elem (status p) status_enum.

(** [paymentSchema.pre('save')]; [token] stands for
    [Math.random().toString(36).substr(2, 9).toUpperCase()]. *)
Definition pre_save (now : Date) (token : string) (p : t) : t :=
  if negb (Js.truthy (paymentReference p))
  then mk (id p) (manuscript p) (user p) (amount p) (currency p)
          (Some ("PAY_" ++ Js.of_Z now ++ "_" ++ token))
          (paystackReference p) (status p) (transactionId p)
          (authorizationUrl p) (accessCode p) (paystackData p) (metadata p)
          (paidAt p) (failureReason p)
  else p.

End Payment.

(** ** models/User (src/unnamed/part_001), as far as the review routes use it *)
Module User.
Record t := mk {
  id : ObjectId;
  email : string;
  role : string;
  reviewAssignments : list ObjectId
}.

Definition set_reviewAssignments (l : list ObjectId) (u : t) : t :=
  mk (id u) (email u) (role u) l.
End User.

(** ** The database *)
Record Store := mkStore {
  manuscripts : list Manuscript.t;
  reviews : list Review.t;
  payments : list Payment.t;
  users : list User.t;
  next_oid : ObjectId               (* ObjectId generator *)
}.

Definition with_manuscripts (l : list Manuscript.t) (st : Store) : Store :=
  mkStore l (reviews st) (payments st) (users st) (next_oid st).

Definition with_reviews (l : list Review.t) (st : Store) : Store :=
  mkStore (manuscripts st) l (payments st) (users st) (next_oid st).

Definition with_payments (l : list Payment.t) (st : Store) : Store :=
  mkStore (manuscripts st) (reviews st) l (users st) (next_oid st).

Definition with_users (l : list User.t) (st : Store) : Store :=
  mkStore (manuscripts st) (reviews st) (payments st) l (next_oid st).

(** [manuscript.save()] on a loaded document: [None] when validation
    rejects it (the promise rejects and nothing is written). *)
Definition save_manuscript (now : Date) (orig m : Manuscript.t) (st : Store)
  : option Store :=
  if Manuscript.validate m
  then Some (with_manuscripts
               (updateById Manuscript.id (Manuscript.pre_save now orig m)
                           (manuscripts st)) st)
  else None.

(** [review.save()] on a loaded document. *)
Definition save_review (now : Date) (orig r : Review.t) (st : Store)
  : option Store :=
  if Review.validate r
  then Some (with_reviews
               (updateById Review.id (Review.pre_save now orig r) (reviews st))
               st)
  else None.

(** [review.save()] on a document built with [new Review(...)]: it is
    given the next ObjectId and inserted. *)
Definition create_review (now : Date) (r : Review.t) (st : Store)
  : option Store :=
  if Review.validate r
  then Some (mkStore (manuscripts st)
                     (insert (Review.pre_save now r r) (reviews st))
                     (payments st) (users st) (S (next_oid st)))
  else None.

(** [payment.save()] on a loaded document. *)
Definition save_payment (now : Date) (token : string) (p : Payment.t)
  (st : Store) : option Store :=
  if Payment.validate p
  then Some (with_payments
               (updateById Payment.id (Payment.pre_save now token p)
                           (payments st)) st)
  else None.

(** [payment.save()] on a document built with [new Payment(...)]. *)
Definition create_payment (now : Date) (token : string) (p : Payment.t)
  (st : Store) : option Store :=
  if Payment.validate p
  then Some (mkStore (manuscripts st) (reviews st)
                     (insert (Payment.pre_save now token p) (payments st))
                     (users st) (S (next_oid st)))
  else None.

(** ** routes/editorial (second half of src/routes/payments.js, from line 633) *)
Module Editorial.

(** [req.body] of make-decision. A [decision] that is no string at all ends
    like an absent one, in the 500 of the handler's [catch]: it has no
    [includes] method, or, for an array, the String path
    [editorDecision.decision] cannot cast it. *)
Record DecisionBody := mkDecisionBody {
  decision : option string;
  editorNotes : option string;
  internalNotes : option string;
  revisionInstructions : option string;
  revisionDeadline : option Date     (* a date that [new Date(..)] parses *)
}.

Record PublishBody := mkPublishBody {
  publicationDate : option Date;
  volume : option string;
  issue : option string;
  pages : option string
}.

Record SubmitBackBody := mkSubmitBackBody {
  sb_editorRemarks : option string;
  sb_internalNotes : option string;
  sb_revisionInstructions : option string;
  sb_revisionDeadline : option Date
}.

Definition statusMap : list (string * string) :=
  [ ("accept", "accepted");
    ("minor-revisions", "revision-requested");
    ("major-revisions", "revision-requested");
    ("reject", "rejected") ].

(** [Review.countDocuments({manuscript, status: {$in: ['pending', 'accepted']}})] *)
Definition pendingReviews (manuscriptId : ObjectId) (st : Store) : nat :=
  countDocuments
    (fun r => Nat.eqb (Review.manuscript r) manuscriptId
              && Js.elem (Review.status r) ["pending"; "accepted"])
    (reviews st).

(** [if (text) manuscript.editorNotes.push({note: prefix + text, ...})] *)
Definition note_when (now : Date) (by_ : ObjectId) (prefix : string)
  (text : option string) (m : Manuscript.t) : Manuscript.t :=
  match text with
  | Some s => if s =? "" then m else Manuscript.push_note now (prefix ++ s) by_ m
  | None => m
  end.

(** POST /make-decision/:manuscriptId (lines 766-889) *)
Definition make_decision (now : Date) (caller : Caller)
  (manuscriptId : ObjectId) (body : DecisionBody) (st : Store)
  : Response * Store :=
  if negb (authorize ["editor"; "admin"] caller) then (forbidden, st) else
  match findById Manuscript.id manuscriptId (manuscripts st) with
  | None => (json 404 "Manuscript not found", st)
  | Some manuscript =>
    if Nat.ltb 0 (pendingReviews manuscriptId st)
    then (json 400 "Cannot make decision while reviews are still pending", st)
    else
      match decision body with
      | None =>
        (* [decision.includes] on undefined throws; outer catch *)
        (json 500 "Server error processing editorial decision", st)
      | Some decision =>
        let newStatus := Js.lookup statusMap decision in
        let by_ := caller_id caller in
        let m1 := note_when now by_ "" (editorNotes body) manuscript in
        let m2 := note_when now by_ "" (internalNotes body) m1 in
        let m3 :=
          if Js.includes decision "revisions"
          then note_when now by_ "Revision Instructions: "
                         (revisionInstructions body) m2
          else m2 in
        let m4 :=
          Manuscript.push_note now ("Editorial decision: " ++ decision) by_ m3 in
        let m5 :=
          if Js.includes decision "revisions"
          then match revisionDeadline body with
               | Some d => Manuscript.set_revisionDeadline d m4
               | None => Manuscript.set_revisionDeadline (now + days 60)%Z m4
               end
          else m4 in
        let m6 := Manuscript.set_status newStatus m5 in
        let m7 :=
          Manuscript.set_editorDecision
            (Manuscript.mkEditorDecision decision by_ now (editorNotes body))
            m6 in
        match save_manuscript now manuscript m7 st with
        | Some st' =>
          (json 200 ("Editorial decision recorded: " ++ decision), st')
        | None => (json 500 "Server error processing editorial decision", st)
        end
      end
  end.

(** POST /publish/:manuscriptId (lines 950-1018). The payment check of the
    source (972-978) is inside a comment and is not executed. *)
Definition publish (now : Date) (caller : Caller) (manuscriptId : ObjectId)
  (body : PublishBody) (st : Store) : Response * Store :=
  if negb (authorize ["editor"; "admin"] caller) then (forbidden, st) else
  match findById Manuscript.id manuscriptId (manuscripts st) with
  | None => (json 404 "Manuscript not found", st)
  | Some manuscript =>
    if negb (Js.equals (Manuscript.status manuscript) "accepted")
    then (json 400 "Only accepted manuscripts can be published", st)
    else
      let m1 := Manuscript.set_status (Js.str "published") manuscript in
      let m2 :=
        Manuscript.set_publicationDetails
          (Manuscript.mkPublicationDetails
             (match publicationDate body with Some d => d | None => now end)
             (volume body) (issue body) (pages body)
             ("10.1234/journal." ++ Js.of_Z now))
          m1 in
      match save_manuscript now manuscript m2 st with
      | Some st' => (json 200 "Manuscript published successfully", st')
      | None => (json 500 "Server error publishing manuscript", st)
      end
  end.

(** POST /submit-back/:manuscriptId (lines 1094-1182) *)
Definition submit_back (now : Date) (caller : Caller)
  (manuscriptId : ObjectId) (body : SubmitBackBody) (st : Store)
  : Response * Store :=
  if negb (authorize ["editor"; "admin"] caller) then (forbidden, st) else
  match findById Manuscript.id manuscriptId (manuscripts st) with
  | None => (json 404 "Manuscript not found", st)
  | Some manuscript =>
    let by_ := caller_id caller in
    let m1 := note_when now by_ "" (sb_editorRemarks body) manuscript in
    let m2 := note_when now by_ "" (sb_internalNotes body) m1 in
    let m3 := note_when now by_ "Revision Instructions: "
                        (sb_revisionInstructions body) m2 in
    let m4 :=
      Manuscript.push_note
        now "Manuscript submitted back to author for revisions" by_ m3 in
    let m5 := Manuscript.set_status (Js.str "submitted-back") m4 in
    let m6 :=
      match sb_revisionDeadline body with
      | Some d => Manuscript.set_revisionDeadline d m5
      | None => Manuscript.set_revisionDeadline (now + days 30)%Z m5
      end in
    match save_manuscript now manuscript m6 st with
    | Some st' =>
      (json 200 "Manuscript submitted back to author successfully", st')
    | None =>
      (json 500 "Server error submitting manuscript back to author", st)
    end
  end.

Record InitialReviewBody := mkInitialReviewBody {
  ir_decision : option string;
  ir_editorNotes : option string;
  ir_internalNotes : option string
}.

(** POST /initial-review/:manuscriptId (lines 645-761). The decision is
    compared with ['send-for-review'] and ['desk-reject']; with any other
    value neither branch runs and [newStatus] stays [undefined]. *)
Definition initial_review (now : Date) (caller : Caller)
  (manuscriptId : ObjectId) (body : InitialReviewBody) (st : Store)
  : Response * Store :=
  if negb (authorize ["editor"; "admin"] caller) then (forbidden, st) else
  match findById Manuscript.id manuscriptId (manuscripts st) with
  | None => (json 404 "Manuscript not found", st)
  | Some manuscript =>
    if negb (Js.equals (Manuscript.status manuscript) "submitted")
    then (json 400 "Manuscript must be in submitted status for initial review",
          st)
    else
      let by_ := caller_id caller in
      let unremarked :=
        negb (Js.truthy (ir_editorNotes body))
        && negb (Js.truthy (ir_internalNotes body)) in
      let '(newStatus, m3) :=
        if Js.opt_eqb (ir_decision body) (Some "send-for-review") then
          let m1 := note_when now by_ "" (ir_editorNotes body) manuscript in
          let m2 := note_when now by_ "" (ir_internalNotes body) m1 in
          (Js.str "awaiting-reviewer-assignment",
           if unremarked
           then Manuscript.push_note now
                  "Manuscript passed initial review and is ready for peer review"
                  by_ m2
           else m2)
        else if Js.opt_eqb (ir_decision body) (Some "desk-reject") then
          let m1 := note_when now by_ "" (ir_editorNotes body) manuscript in
          let m2 := note_when now by_ "" (ir_internalNotes body) m1 in
          (Js.str "rejected",
           if unremarked
           then Manuscript.push_note now
                  "Manuscript rejected during initial editorial review" by_ m2
           else m2)
        else (Js.undefined, manuscript) in
      let m4 := Manuscript.set_status newStatus m3 in
      match save_manuscript now manuscript m4 st with
      | Some st' =>
        (json 200
           (if Js.opt_eqb (ir_decision body) (Some "send-for-review")
            then "Manuscript approved for peer review"
            else "Manuscript rejected"), st')
      | None => (json 500 "Server error processing initial review", st)
      end
  end.

(** [.sort({ submissionDate: 1 })]: ascending, documents without a
    submission date first. *)
Definition date_leb (a b : option Date) : bool :=
  match a, b with
  | None, _ => true
  | Some _, None => false
  | Some x, Some y => (x <=? y)%Z
  end.

Fixpoint insert_by_date (m : Manuscript.t) (l : list Manuscript.t)
  : list Manuscript.t :=
  match l with
  | [] => [m]
  | x :: rest =>
    if date_leb (Manuscript.submissionDate m) (Manuscript.submissionDate x)
    then m :: l
    else x :: insert_by_date m rest
  end.

Definition sort_by_submissionDate (l : list Manuscript.t) : list Manuscript.t :=
  fold_right insert_by_date [] l.

Record ReviewSummary := mkReviewSummary {
  totalReviews : nat;
  completedReviews : nat;
  summary_reviews : list Review.t
}.

(** [Review.find({manuscript, status: 'completed'})] *)
Definition completed_reviews (manuscriptId : ObjectId) (st : Store)
  : list Review.t :=
  filter (fun r => Nat.eqb (Review.manuscript r) manuscriptId
                   && (Review.status r =? "completed"))
         (reviews st).

(** The body of the loop of pending-decisions: the entry a manuscript
    contributes to [readyForDecision], if any. *)
Definition ready_entry (st : Store) (manuscript : Manuscript.t)
  : list (Manuscript.t * ReviewSummary) :=
  let totalReviews_ := length (Manuscript.reviewAssignments manuscript) in
  let completedReviews_ :=
    length (completed_reviews (Manuscript.id manuscript) st) in
  if Nat.ltb 0 totalReviews_ && Nat.eqb completedReviews_ totalReviews_
  then [(manuscript,
         mkReviewSummary totalReviews_ completedReviews_
           (completed_reviews (Manuscript.id manuscript) st))]
  else [].

(** GET /pending-decisions (lines 894-945); the response carries the list
    and its length. *)
Definition pending_decisions (caller : Caller) (st : Store)
  : Response * list (Manuscript.t * ReviewSummary) :=
  if negb (authorize ["editor"; "admin"] caller) then (forbidden, []) else
  let found :=
    sort_by_submissionDate
      (filter (fun m => Js.equals (Manuscript.status m) "under-review")
              (manuscripts st)) in
  (json 200 "", flat_map (ready_entry st) found).

Record ReviewStats := mkReviewStats {
  total : nat;
  completed : nat;
  pending : nat;
  averageScore : option Q
}.

(** [r.overallScore || 0] *)
Definition score_or_zero (r : Review.t) : Q :=
  match Review.overallScore r with
  | Some q => if Qeq_bool q 0%Q then 0%Q else q
  | None => 0%Q
  end.

(** The [reviewStats] that GET /editor-manuscripts (lines 1220-1237)
    attaches to a manuscript. *)
Definition reviewStats (manuscriptId : ObjectId) (st : Store) : ReviewStats :=
  let reviews_ :=
    filter (fun r => Nat.eqb (Review.manuscript r) manuscriptId) (reviews st) in
  let completedReviews_ :=
    filter (fun r => Review.status r =? "completed") reviews_ in
  let pendingReviews_ :=
    filter (fun r => Review.status r =? "pending") reviews_ in
  mkReviewStats (length reviews_) (length completedReviews_)
    (length pendingReviews_)
    (if Nat.ltb 0 (length completedReviews_)
     then Some (fold_left (fun sum r => (sum + score_or_zero r)%Q)
                          completedReviews_ 0%Q
                / inject_Z (Z.of_nat (length completedReviews_)))%Q
     else None).

End Editorial.

(** ** routes/reviews (src/unnamed/part_003) *)
Module Reviews.

Record AssignBody := mkAssignBody {
  manuscriptId : option ObjectId;
  reviewerIds : list ObjectId;
  dueDate : option Date             (* a date that [new Date(..)] parses *)
}.

Record SubmitBody := mkSubmitBody {
  recommendation : option string;
  evaluation : option Review.Evaluation;      (* [None]: not an object *)
  confidenceLevel : option Q;
  strengths : option string;
  weaknesses : option string;
  specificComments : option string;
  confidentialComments : option string;
  suggestedReviewers : option (list string)
}.

Record EvaluationBody := mkEvaluationBody {
  e_recommendation : option string;
  e_originality : option Q;
  e_methodology : option Q;
  e_significance : option Q;
  e_clarity : option Q;
  e_comments : option string;
  e_confidentialComments : option string
}.

(** What one run of the assignment loop leaves behind. *)
Inductive outcome :=
| completed_ (st : Store) (assignedReviews : list Review.t)
| threw (st : Store).

(** [{ $push: { reviewAssignments: a } }] *)
Definition push_assignment (a : Manuscript.Assignment) (m : Manuscript.t)
  : Manuscript.t :=
  Manuscript.set_reviewAssignments (Manuscript.reviewAssignments m ++ [a]) m.

(** [{ $set: { 'reviewAssignments.$.status': s } }] for the first entry of
    reviewer [rid]. *)
Fixpoint set_first_status (rid : ObjectId) (s : string)
  (l : list Manuscript.Assignment) : list Manuscript.Assignment :=
  match l with
  | [] => []
  | a :: rest =>
    if Nat.eqb (Manuscript.reviewer a) rid
    then Manuscript.mkAssignment (Manuscript.reviewer a)
           (Manuscript.assignedDate a) (Manuscript.dueDate a) s :: rest
    else a :: set_first_status rid s rest
  end.

Definition mirror_status (rid : ObjectId) (s : string) (m : Manuscript.t)
  : Manuscript.t :=
  Manuscript.set_reviewAssignments
    (set_first_status rid s (Manuscript.reviewAssignments m)) m.

(** [{ $pull: { reviewAssignments: { reviewer: rid } } }] *)
Definition pull_assignment (rid : ObjectId) (m : Manuscript.t) : Manuscript.t :=
  Manuscript.set_reviewAssignments
    (filter (fun a => negb (Nat.eqb (Manuscript.reviewer a) rid))
            (Manuscript.reviewAssignments m)) m.

(** [{ $addToSet: { reviews: i } }] *)
Definition addToSet_review (i : ObjectId) (m : Manuscript.t) : Manuscript.t :=
  if existsb (Nat.eqb i) (Manuscript.reviews m) then m
  else Manuscript.set_reviews (Manuscript.reviews m ++ [i]) m.

Definition pair_query (mid rid : ObjectId) (r : Review.t) : bool :=
  Nat.eqb (Review.manuscript r) mid && Nat.eqb (Review.reviewer r) rid.

(** One iteration of [for (const reviewerId of reviewerIds)] (lines 54-129). *)
Definition assign_one (now : Date) (caller : Caller) (mid : ObjectId)
  (reviewDueDate : Date) (st : Store) (assigned : list Review.t)
  (reviewerId : ObjectId) : outcome :=
  match findById User.id reviewerId (users st) with
  | None => completed_ st assigned
  | Some _ =>
    match findOne (pair_query mid reviewerId) (reviews st) with
    | Some existingReview => completed_ st (assigned ++ [existingReview])
    | None =>
      let review :=
        Review.mk (next_oid st) mid reviewerId (caller_id caller) now
                  reviewDueDate None "pending" None Review.no_evaluation
                  None None None None None None [] in
      match create_review now review st with
      | None => threw st
      | Some st1 =>
        let st2 :=
          with_manuscripts
            (findByIdAndUpdate Manuscript.id mid
               (push_assignment
                  (Manuscript.mkAssignment reviewerId now reviewDueDate
                                           "pending"))
               (manuscripts st1)) st1 in
        let st3 :=
          with_users
            (findByIdAndUpdate User.id reviewerId
               (fun u => User.set_reviewAssignments
                           (User.reviewAssignments u ++ [Review.id review]) u)
               (users st2)) st2 in
        completed_ st3 (assigned ++ [Review.pre_save now review review])
      end
    end
  end.

Fixpoint assign_loop (now : Date) (caller : Caller) (mid : ObjectId)
  (reviewDueDate : Date) (st : Store) (assigned : list Review.t)
  (ids : list ObjectId) : outcome :=
  match ids with
  | [] => completed_ st assigned
  | reviewerId :: rest =>
    match assign_one now caller mid reviewDueDate st assigned reviewerId with
    | completed_ st' assigned' =>
      assign_loop now caller mid reviewDueDate st' assigned' rest
    | threw st' => threw st'
    end
  end.

Definition count_message (n : nat) : string :=
  Js.of_Z (Z.of_nat n) ++ " reviewer(s) assigned successfully".

(** POST /assign (lines 14-151), with the list [assignedReviews] it built. *)
Definition assign_run (now : Date) (caller : Caller) (body : AssignBody)
  (st : Store) : Response * Store * list Review.t :=
  if negb (authorize ["editor"; "admin"] caller) then (forbidden, st, []) else
  match manuscriptId body, reviewerIds body with
  | None, _ | _, [] => (json 400 "Validation errors", st, [])
  | Some mid, ids =>
    match findById Manuscript.id mid (manuscripts st) with
    | None => (json 404 "Manuscript not found", st, [])
    | Some _ =>
      let reviewDueDate :=
        match dueDate body with
        | Some d => d
        | None => (now + days 30)%Z
        end in
      match assign_loop now caller mid reviewDueDate st [] ids with
      | threw st' => (json 500 "Server error assigning reviewers", st', [])
      | completed_ st' assigned =>
        let st'' :=
          match assigned with
          | [] => st'
          | _ :: _ =>
            with_manuscripts
              (findByIdAndUpdate Manuscript.id mid
                 (Manuscript.set_status (Js.str "under-review"))
                 (manuscripts st')) st'
          end in
        (json 200 (count_message (length assigned)), st'', assigned)
      end
    end
  end.

Definition assign (now : Date) (caller : Caller) (body : AssignBody)
  (st : Store) : Response * Store :=
  fst (assign_run now caller body st).

(** POST /:id/accept (lines 413-464) *)
Definition accept (now : Date) (caller : Caller) (reviewId : ObjectId)
  (st : Store) : Response * Store :=
  match findById Review.id reviewId (reviews st) with
  | None => (json 404 "Review assignment not found", st)
  | Some review =>
    if negb (Nat.eqb (Review.reviewer review) (caller_id caller))
    then (json 403 "Not authorized to accept this review", st)
    else if negb (Review.status review =? "pending")
    then (json 400 "Review assignment cannot be accepted in current status", st)
    else
      match save_review now review (Review.set_status "in-progress" review) st with
      | None => (json 500 "Server error accepting review assignment", st)
      | Some st1 =>
        (json 200 "Review assignment accepted successfully",
         with_manuscripts
           (findByIdAndUpdate Manuscript.id (Review.manuscript review)
              (mirror_status (Review.reviewer review) "accepted")
              (manuscripts st1)) st1)
      end
  end.

(** POST /:id/decline (lines 469-523). The handler never reads
    [validationResult], so the declared [reason] check has no effect. *)
Definition decline (caller : Caller) (reviewId : ObjectId) (st : Store)
  : Response * Store :=
  match findById Review.id reviewId (reviews st) with
  | None => (json 404 "Review assignment not found", st)
  | Some review =>
    if negb (Nat.eqb (Review.reviewer review) (caller_id caller))
    then (json 403 "Not authorized to decline this review", st)
    else if negb (Review.status review =? "pending")
    then (json 400 "Review assignment cannot be declined in current status", st)
    else
      let st1 := with_reviews (deleteById Review.id reviewId (reviews st)) st in
      let st2 :=
        with_manuscripts
          (findByIdAndUpdate Manuscript.id (Review.manuscript review)
             (pull_assignment (Review.reviewer review)) (manuscripts st1))
          st1 in
      let st3 :=
        with_users
          (findByIdAndUpdate User.id (Review.reviewer review)
             (fun u => User.set_reviewAssignments
                         (filter (fun i => negb (Nat.eqb i (Review.id review)))
                                 (User.reviewAssignments u)) u)
             (users st2)) st2 in
      (json 200 "Review assignment declined successfully", st3)
  end.

Definition valid_recommendation (v : option string) : bool :=
  match v with
  | Some s => Js.elem s Review.recommendation_enum
  | None => false
  end.

(** PUT /:id/submit (lines 313-408) *)
Definition submit (now : Date) (caller : Caller) (reviewId : ObjectId)
  (body : SubmitBody) (st : Store) : Response * Store :=
  match evaluation body with
  | None => (json 400 "Validation errors", st)
  | Some evaluation_ =>
    if negb (valid_recommendation (recommendation body)
             && Js.truthy (strengths body)
             && Js.truthy (weaknesses body)
             && Js.truthy (specificComments body))
    then (json 400 "Validation errors", st)
    else
      match findById Review.id reviewId (reviews st) with
      | None => (json 404 "Review not found", st)
      | Some review =>
        if negb (Nat.eqb (Review.reviewer review) (caller_id caller))
        then (json 403 "Not authorized to submit this review", st)
        else if Review.status review =? "completed"
        then (json 400 "Review has already been submitted", st)
        else
          let review' :=
            Review.mk (Review.id review) (Review.manuscript review)
              (Review.reviewer review) (Review.assignedBy review)
              (Review.assignedDate review) (Review.dueDate review)
              (Some now) "completed" (recommendation body) evaluation_
              (Review.overallScore review) (confidenceLevel body)
              (strengths body) (weaknesses body) (specificComments body)
              (confidentialComments body)
              (match suggestedReviewers body with Some l => l | None => [] end)
          in
          match save_review now review review' st with
          | None => (json 500 "Server error submitting review", st)
          | Some st1 =>
            let st2 :=
              with_manuscripts
                (findByIdAndUpdate Manuscript.id (Review.manuscript review)
                   (mirror_status (Review.reviewer review) "completed")
                   (manuscripts st1)) st1 in
            let st3 :=
              with_manuscripts
                (findByIdAndUpdate Manuscript.id (Review.manuscript review)
                   (addToSet_review (Review.id review)) (manuscripts st2))
                st2 in
            (json 200 "Review submitted successfully", st3)
          end
      end
  end.

(** POST /:reviewId/submit (lines 528-622). [comments] is not a path of the Review schema
    and is dropped; the status ['reviewed'] this handler assigns is outside
    the Manuscript enum. *)
Definition submit_evaluation (now : Date) (caller : Caller)
  (reviewId : ObjectId) (body : EvaluationBody) (st : Store)
  : Response * Store :=
  if negb (valid_recommendation (e_recommendation body)
           && Js.truthy (e_comments body))
  then (json 400 "Validation errors", st)
  else
    match findById Review.id reviewId (reviews st) with
    | None => (json 404 "Review not found", st)
    | Some review =>
      if negb (Nat.eqb (Review.reviewer review) (caller_id caller))
      then (json 403 "Not authorized to submit this review", st)
      else if Review.status review =? "completed"
      then (json 400 "Review has already been submitted", st)
      else
        let evaluation_ :=
          Review.mkEvaluation
            (Review.mkCriterion (e_originality body) None)
            (Review.mkCriterion (e_significance body) None)
            (Review.mkCriterion (e_methodology body) None)
            (Review.mkCriterion (e_clarity body) None)
            Review.blank in
        let review' :=
          Review.mk (Review.id review) (Review.manuscript review)
            (Review.reviewer review) (Review.assignedBy review)
            (Review.assignedDate review) (Review.dueDate review)
            (Some now) "completed" (e_recommendation body) evaluation_
            (Review.overallScore review) (Review.confidenceLevel review)
            (Review.strengths review) (Review.weaknesses review)
            (Review.specificComments review) (e_confidentialComments body)
            (Review.suggestedReviewers review) in
        match save_review now review review' st with
        | None => (json 500 "Server error submitting review", st)
        | Some st1 =>
          match findById Manuscript.id (Review.manuscript review)
                         (manuscripts st1) with
          | None => (json 200 "Review submitted successfully", st1)
          | Some manuscript =>
            let allReviews :=
              filter (fun r => Nat.eqb (Review.manuscript r)
                                       (Review.manuscript review))
                     (reviews st1) in
            let completedReviews :=
              filter (fun r => Review.status r =? "completed") allReviews in
            if Nat.eqb (length completedReviews) (length allReviews)
            then
              match save_manuscript now manuscript
                      (Manuscript.set_status (Js.str "reviewed") manuscript)
                      st1 with
              | Some st2 => (json 200 "Review submitted successfully", st2)
              | None => (json 500 "Server error submitting review", st1)
              end
            else (json 200 "Review submitted successfully", st1)
          end
        end
    end.

End Reviews.

(** ** routes/payments (first half of src/routes/payments.js) *)
Module Payments.

(** What [POST /transaction/initialize] is sent. *)
Record InitRequest := mkInitRequest {
  req_email : string;
  req_amount : Z;
  req_currency : string;
  req_reference : option string;
  req_manuscriptId : ObjectId;
  req_userId : ObjectId
}.

(** [Math.round(amount * 0.10)] on a non-negative integer amount. *)
Definition round_tenth (amount : Z) : Z := ((amount * 10 + 50) / 100)%Z.

Definition already_paid (manuscriptId : ObjectId) (p : Payment.t) : bool :=
  Nat.eqb (Payment.manuscript p) manuscriptId
  && (Payment.status p =? "completed").

(** POST /initiate (lines 14-163). [paystack] is the gateway ([None]: the call throws);
    the third component lists the requests sent to it. *)
Definition initiate (now : Date) (token : string)
  (paystack : InitRequest -> option Payment.InitData)
  (caller : Caller) (manuscriptId : ObjectId) (st : Store)
  : Response * Store * list InitRequest :=
  match findById Manuscript.id manuscriptId (manuscripts st) with
  | None => (json 404 "Manuscript not found", st, [])
  | Some manuscript =>
    (* populate('submittedBy') *)
    match findById User.id (Manuscript.submittedBy manuscript) (users st) with
    | None => (json 500 "Server error initializing payment", st, [])
    | Some submittedBy =>
      if negb (Nat.eqb (User.id submittedBy) (caller_id caller))
         && negb (caller_role caller =? "admin")
      then (json 403 "Access denied. You can only pay for your own manuscripts.",
            st, [])
      else if negb (Js.equals (Manuscript.status manuscript) "accepted")
      then (json 400 "Payment can only be made for accepted manuscripts", st, [])
      else
        match findOne (already_paid manuscriptId) (payments st) with
        | Some existingPayment =>
          (mkResponse 400
             "Payment has already been completed for this manuscript"
             (Payment.paymentReference existingPayment), st, [])
        | None =>
          let publicationFee := 5000000%Z in
          let amount := publicationFee in
          let platformFee := round_tenth amount in
          let vendorReceives := (amount - platformFee)%Z in
          match caller_email caller with
          | None =>
            (json 400 "User email not found. Please log in again.", st, [])
          | Some userEmail =>
            if userEmail =? "" then
              (json 400 "User email not found. Please log in again.", st, [])
            else
              let payment :=
                Payment.mk (next_oid st) manuscriptId (caller_id caller)
                  amount "NGN" None None "pending" None None None None
                  (Payment.mkMetadata publicationFee platformFee
                                      vendorReceives "publication_fee")
                  None None in
              let request :=
                mkInitRequest userEmail amount "NGN"
                  (Payment.paymentReference payment) manuscriptId
                  (caller_id caller) in
              match paystack request with
              | None =>
                (json 500 "Failed to initialize payment with Paystack", st,
                 [request])
              | Some data =>
                let payment' :=
                  Payment.mk (Payment.id payment) manuscriptId
                    (caller_id caller) amount "NGN"
                    (Payment.paymentReference payment)
                    (Some (Payment.reference data)) "processing" None
                    (Some (Payment.authorization_url data))
                    (Some (Payment.access_code data))
                    (Some (Payment.initialized data))
                    (Payment.metadata payment) None None in
                match create_payment now token payment' st with
                | None =>
                  (json 500 "Failed to initialize payment with Paystack", st,
                   [request])
                | Some st1 =>
                  let saved := Payment.pre_save now token payment' in
                  match save_manuscript now manuscript
                          (Manuscript.set_paymentReference
                             (Payment.paymentReference saved) manuscript)
                          st1 with
                  | None =>
                    (json 500 "Failed to initialize payment with Paystack",
                     st1, [request])
                  | Some st2 => (json 200 "", st2, [request])
                  end
                end
              end
          end
        end
    end
  end.

Definition by_reference (reference : string) (p : Payment.t) : bool :=
  Js.opt_eqb (Payment.paymentReference p) (Some reference)
  || Js.opt_eqb (Payment.paystackReference p) (Some reference).

(** POST /verify/:reference (lines 168-263). [gateway] is what
    [GET /transaction/verify/:reference] answered ([None]: the call
    throws). *)
Definition verify (now : Date) (token : string)
  (gateway : option Payment.VerifyData) (caller : Caller)
  (reference : string) (st : Store) : Response * Store :=
  match findOne (by_reference reference) (payments st) with
  | None => (json 404 "Payment record not found", st)
  | Some payment =>
    if negb (Nat.eqb (Payment.user payment) (caller_id caller))
       && negb (caller_role caller =? "admin")
    then (json 403 "Access denied", st)
    else
      match gateway with
      | None => (json 500 "Error verifying payment with Paystack", st)
      | Some paymentData =>
        if Payment.gw_status paymentData =? "success" then
          let payment' :=
            Payment.mk (Payment.id payment) (Payment.manuscript payment)
              (Payment.user payment) (Payment.amount payment)
              (Payment.currency payment) (Payment.paymentReference payment)
              (Payment.paystackReference payment) "completed"
              (Some (Payment.gw_id paymentData))
              (Payment.authorizationUrl payment) (Payment.accessCode payment)
              (Some (Payment.verified paymentData)) (Payment.metadata payment)
              (Some now) (Payment.failureReason payment) in
          match save_payment now token payment' st with
          | None => (json 500 "Error verifying payment with Paystack", st)
          | Some st1 =>
            let saved := Payment.pre_save now token payment' in
            (* populate('manuscript') *)
            match findById Manuscript.id (Payment.manuscript payment)
                           (manuscripts st) with
            | None => (json 500 "Error verifying payment with Paystack", st1)
            | Some manuscript =>
              let m' :=
                Manuscript.set_paymentReference
                  (Payment.paymentReference saved)
                  (Manuscript.set_paymentCompleted true manuscript) in
              match save_manuscript now manuscript m' st1 with
              | None => (json 500 "Error verifying payment with Paystack", st1)
              | Some st2 => (json 200 "Payment verified successfully", st2)
              end
            end
          end
        else
          let payment' :=
            Payment.mk (Payment.id payment) (Payment.manuscript payment)
              (Payment.user payment) (Payment.amount payment)
              (Payment.currency payment) (Payment.paymentReference payment)
              (Payment.paystackReference payment) "failed"
              (Payment.transactionId payment)
              (Payment.authorizationUrl payment) (Payment.accessCode payment)
              (Payment.paystackData payment) (Payment.metadata payment)
              (Payment.paidAt payment)
              (Some (Js.or_else (Payment.gateway_response paymentData)
                                "Payment was not successful")) in
          match save_payment now token payment' st with
          | None => (json 500 "Error verifying payment with Paystack", st)
          | Some st1 => (json 400 "Payment verification failed", st1)
          end
      end
  end.

(** The parsed webhook payload, as far as the handler reads it. *)
Record EventMetadata := mkEventMetadata {
  ev_manuscriptId : option string
}.

Record EventData := mkEventData {
  ev_metadata : option EventMetadata;
  ev_reference : option string
}.

Record Event := mkEvent {
  ev_event : option string;
  ev_data : option EventData
}.

(** [req.body] as the handler finds it: the raw bytes [express.raw]
    delivers, or an object already produced by the [express.json()] that
    server.js mounts in front of every route. *)
Inductive Body :=
| raw (bytes : string)
| parsed.

Section Webhook.
(** [crypto.createHmac('sha512', key).update(body).digest('hex')] *)
Variable hmac_sha512_hex : string -> string -> string.
(** [JSON.parse]; [None]: it throws. *)
Variable JSON_parse : string -> option Event.

(** POST /webhook (lines 379-418) *)
Definition webhook (PAYSTACK_SECRET_KEY : option string) (body : Body)
  (x_paystack_signature : option string) (st : Store) : Response * Store :=
  let paystackSecret :=
    Js.or_else PAYSTACK_SECRET_KEY "sk_test_your_secret_key" in
  match body with
  | parsed =>
    (* [update] refuses a plain object and throws *)
    (json 500 "Webhook processing failed", st)
  | raw bytes =>
    let hash := hmac_sha512_hex paystackSecret bytes in
    if negb (Js.opt_eqb (Some hash) x_paystack_signature)
    then (json 400 "Invalid signature", st)
    else
      match JSON_parse bytes with
      | None => (json 500 "Webhook processing failed", st)
      | Some event =>
        if Js.opt_eqb (ev_event event) (Some "charge.success") then
          match ev_data event with
          | None => (json 500 "Webhook processing failed", st)
          | Some data =>
            match ev_metadata data with
            | None => (json 500 "Webhook processing failed", st)
            | Some metadata =>
              (* manuscriptId and reference are read and logged; the
                 update of the manuscript is inside a comment *)
              (json 200 "OK", st)
            end
          end
        else (json 200 "OK", st)
      end
  end.
End Webhook.

End Payments.

(** ** routes/manuscripts (src/routes/manuscripts.js), the status route *)
Module Manuscripts.

Definition validStatuses : list string :=
  [ "draft"; "submitted"; "under-review"; "revision-requested"; "revised";
    "accepted"; "rejected"; "published"; "withdrawn" ].

(** PUT /:id/status (lines 427-486) *)
Definition update_status (now : Date) (caller : Caller) (id : ObjectId)
  (status : option string) (st : Store) : Response * Store :=
  if negb (authorize ["editor"; "admin"] caller) then (forbidden, st) else
  match status with
  | None => (json 400 "Invalid status provided", st)
  | Some status_ =>
    if negb (Js.elem status_ validStatuses)
    then (json 400 "Invalid status provided", st)
    else
      match findById Manuscript.id id (manuscripts st) with
      | None => (json 404 "Manuscript not found", st)
      | Some manuscript =>
        let m1 := Manuscript.set_status (Js.str status_) manuscript in
        let m2 := Manuscript.set_lastModified now m1 in
        let m3 :=
          if (status_ =? "submitted")
             && match Manuscript.submissionDate m2 with
                | None => true
                | Some _ => false
                end
          then Manuscript.set_submissionDate now m2
          else m2 in
        match save_manuscript now manuscript m3 st with
        | Some st' =>
          (json 200 "Manuscript status updated successfully", st')
        | None => (json 500 "Server error updating manuscript status", st)
        end
      end
  end.

End Manuscripts.

(** ** Specification vocabulary *)

(** The response a handler gives when it carried out the request. *)
Definition succeeded (r : Response) : Prop := res_status r = 200.

(** The status a stored manuscript has, if the manuscript exists. *)
Definition status_of (mid : ObjectId) (st : Store) : option Js.value :=
  option_map Manuscript.status (findById Manuscript.id mid (manuscripts st)).

(** The scores of the criteria that carry one. *)
Definition present_scores (e : Review.Evaluation) : list Q :=
  flat_map (fun c => match Review.score c with Some q => [q] | None => [] end)
           (Review.criteria e).

Definition total (l : list Q) : Q := fold_right Qplus 0%Q l.

(** [overallScore] is the arithmetic mean of the present scores, and is
    absent when no criterion is scored. *)
Definition score_ok (r : Review.t) : Prop :=
  match present_scores (Review.evaluation r) with
  | [] => Review.overallScore r = None
  | l => exists q, Review.overallScore r = Some q
                   /\ (q == total l / inject_Z (Z.of_nat (length l)))%Q
  end.

(** The (manuscript, reviewer) pair a Review is for. *)
Definition pair_of (r : Review.t) : ObjectId * ObjectId :=
  (Review.manuscript r, Review.reviewer r).

(** The mirror entries manuscript [mid] holds for reviewer [rid]. *)
Definition mirror_entries (mid rid : ObjectId) (st : Store)
  : option (list Manuscript.Assignment) :=
  option_map
    (fun m => filter (fun a => Nat.eqb (Manuscript.reviewer a) rid)
                     (Manuscript.reviewAssignments m))
    (findById Manuscript.id mid (manuscripts st)).

(** The decision of a request is one of the four the editor may take. *)
Definition known_decision (body : Editorial.DecisionBody) : bool :=
  match Editorial.decision body with
  | Some d => Js.elem d Manuscript.decision_enum
  | None => false
  end.

(** make-decision went through and left manuscript [mid] stored without a
    status. *)
Definition saves_unset_status (now : Date) (caller : Caller) (mid : ObjectId)
  (body : Editorial.DecisionBody) (st : Store) : Prop :=
  succeeded (fst (Editorial.make_decision now caller mid body st))
  /\ status_of mid (snd (Editorial.make_decision now caller mid body st))
     = Some Js.undefined.



(** What a verification that the gateway confirms makes of a Payment. *)
Definition completed_at (now : Date) (data : Payment.VerifyData)
  (p : Payment.t) : Payment.t :=
  Payment.mk (Payment.id p) (Payment.manuscript p) (Payment.user p)
    (Payment.amount p) (Payment.currency p) (Payment.paymentReference p)
    (Payment.paystackReference p) "completed" (Some (Payment.gw_id data))
    (Payment.authorizationUrl p) (Payment.accessCode p)
    (Some (Payment.verified data)) (Payment.metadata p) (Some now)
    (Payment.failureReason p).

(** What it makes of the manuscript the Payment is for. *)
Definition marked_paid (now : Date) (reference : option string)
  (m : Manuscript.t) : Manuscript.t :=
  Manuscript.set_lastModified now
    (Manuscript.set_paymentReference reference
       (Manuscript.set_paymentCompleted true m)).

(** The store a confirmed verification leaves. *)
Definition verified_store (now : Date) (data : Payment.VerifyData)
  (p : Payment.t) (m : Manuscript.t) (st : Store) : Store :=
  with_manuscripts
    (updateById Manuscript.id (marked_paid now (Payment.paymentReference p) m)
                (manuscripts st))
    (with_payments (updateById Payment.id (completed_at now data p)
                               (payments st)) st).

(** A request that left the reviews collection alone. *)
Definition quiet (st st' : Store) : Prop :=
  reviews st' = reviews st /\ next_oid st <= next_oid st'.


(** One request served. Handlers outside the editorial, review and payment
    routes (manuscript CRUD, users, journals, plagiarism) never write the
    reviews collection and never rewind the id generator. *)
Inductive step : Store -> Store -> Prop :=
| step_assign now caller body st :
    step st (snd (Reviews.assign now caller body st))
| step_accept now caller rid st :
    step st (snd (Reviews.accept now caller rid st))
| step_decline caller rid st :
    step st (snd (Reviews.decline caller rid st))
| step_submit now caller rid body st :
    step st (snd (Reviews.submit now caller rid body st))
| step_submit_evaluation now caller rid body st :
    step st (snd (Reviews.submit_evaluation now caller rid body st))
| step_make_decision now caller mid body st :
    step st (snd (Editorial.make_decision now caller mid body st))
| step_publish now caller mid body st :
    step st (snd (Editorial.publish now caller mid body st))
| step_submit_back now caller mid body st :
    step st (snd (Editorial.submit_back now caller mid body st))
| step_initiate now token paystack caller mid st :
    step st (snd (fst (Payments.initiate now token paystack caller mid st)))
| step_verify now token gateway caller reference st :
    step st (snd (Payments.verify now token gateway caller reference st))
| step_webhook hmac parse key body signature st :
    step st (snd (Payments.webhook hmac parse key body signature st))
| step_other st st' :
    reviews st' = reviews st -> next_oid st <= next_oid st' -> step st st'.

(** The stores the system can be in, starting with no Review assigned. *)
Inductive reachable : Store -> Prop :=
| reachable_start st : reviews st = [] -> reachable st
| reachable_step st st' : reachable st -> step st st' -> reachable st'.

(** What holds of the reviews collection in every reachable store. *)
Record reviews_wf (st : Store) : Prop := mk_reviews_wf {
  wf_ids_below : forall r, In r (reviews st) -> Review.id r < next_oid st;
  wf_ids : NoDup (map Review.id (reviews st));
  wf_pairs : NoDup (map pair_of (reviews st));
  wf_score : forall r, In r (reviews st) -> score_ok r;
  wf_unscored : forall r, In r (reviews st) ->
      Review.status r <> "completed" ->
      present_scores (Review.evaluation r) = []
}.

(** Two stores that differ at most in the time stamps a verification
    writes ([paidAt] of payments, [lastModified] of manuscripts). *)
Definition without_paidAt (p : Payment.t) : Payment.t :=
  Payment.mk (Payment.id p) (Payment.manuscript p) (Payment.user p)
    (Payment.amount p) (Payment.currency p) (Payment.paymentReference p)
    (Payment.paystackReference p) (Payment.status p) (Payment.transactionId p)
    (Payment.authorizationUrl p) (Payment.accessCode p) (Payment.paystackData p)
    (Payment.metadata p) None (Payment.failureReason p).

Definition same_but_times (a b : Store) : Prop :=
  map without_paidAt (payments a) = map without_paidAt (payments b)
  /\ map (Manuscript.set_lastModified 0%Z) (manuscripts a)
     = map (Manuscript.set_lastModified 0%Z) (manuscripts b)
  /\ reviews a = reviews b
  /\ users a = users b
  /\ next_oid a = next_oid b.

(** ** Sample data *)
Module Sample.

Definition editor : Caller := mkCaller 100 "editor" (Some "editor@example.org").
Definition author : Caller := mkCaller 1 "author" (Some "author@example.org").
Definition reviewer : Caller := mkCaller 2 "reviewer" (Some "r@example.org").

Definition people : list User.t :=
  [ User.mk 1 "author@example.org" "author" [];
    User.mk 2 "r@example.org" "reviewer" [20];
    User.mk 100 "editor@example.org" "editor" [] ].

(** Manuscript 10, submitted by user 1. *)
Definition manuscript (status : string) (paid : bool)
  (assignments : list Manuscript.Assignment) : Manuscript.t :=
  Manuscript.mk 10 1 (Js.str status) None None None paid None (Some 0%Z) 0%Z
                assignments [] [].

(** Review 20 of manuscript 10 by user 2. *)
Definition review (status : string) : Review.t :=
  Review.mk 20 10 2 100 0%Z 1000%Z None status None Review.no_evaluation
            None None None None None None [].

(** Payment 40 for manuscript 10 by user 1, reference PAY_123. *)
Definition payment (status : string) (paidAt : option Date) : Payment.t :=
  Payment.mk 40 10 1 5000000%Z "NGN" (Some "PAY_123") (Some "T_987") status
             None None None None
             (Payment.mkMetadata 5000000 500000 4500000 "publication_fee")
             paidAt None.

Definition store (m : Manuscript.t) (rs : list Review.t)
  (ps : list Payment.t) : Store :=
  mkStore [m] rs ps people 50.

(** Under review, one reviewer assigned who has not answered yet. *)
Definition assigned : Store :=
  store (manuscript "under-review" false
           [Manuscript.mkAssignment 2 0%Z 1000%Z "pending"])
        [review "pending"] [].

Definition accept_body : Editorial.DecisionBody :=
  Editorial.mkDecisionBody (Some "accept") None None None None.

Definition decide (d : string) : Editorial.DecisionBody :=
  Editorial.mkDecisionBody (Some d) None None None None.

Definition no_details : Editorial.PublishBody :=
  Editorial.mkPublishBody None None None None.

Definition success : Payment.VerifyData :=
  Payment.mkVerifyData "success" "4099260516" (Some "Successful").

(** A stand-in keyed hash for running the webhook on sample input. *)
Definition toy_hmac (key body : string) : string := key ++ ":" ++ body.

Definition charge_success : Payments.Event :=
  Payments.mkEvent (Some "charge.success")
    (Some (Payments.mkEventData
             (Some (Payments.mkEventMetadata (Some "10")))
             (Some "PAY_123"))).

Definition toy_parse (body : string) : option Payments.Event :=
  if body =? "charge" then Some charge_success else None.


(** Accepted and paid for with payment PAY_123. *)
Definition paid : Store :=
  store (manuscript "accepted" true []) [] [payment "completed" (Some 1%Z)].

(** Accepted, payment PAY_123 initialised but not yet verified. *)
Definition awaiting_payment : Store :=
  store (manuscript "accepted" false []) [] [payment "processing" None].

(** A submitted manuscript, no reviewer assigned yet. *)
Definition unassigned : Store := store (manuscript "submitted" false []) [] [].

Definition to_reviewer : Reviews.AssignBody :=
  Reviews.mkAssignBody (Some 10) [2] None.

(** The editor assigns reviewer 2 (Review 50) ... *)
Definition after_assign : Store :=
  snd (Reviews.assign 1%Z editor to_reviewer unassigned).

(** ... who accepts ... *)
Definition after_accept : Store :=
  snd (Reviews.accept 2%Z reviewer 50 after_assign).

Definition scores_4_5 : Reviews.SubmitBody :=
  Reviews.mkSubmitBody (Some "accept")
    (Some (Review.mkEvaluation
             (Review.mkCriterion (Some 4%Q) None) Review.blank Review.blank
             (Review.mkCriterion (Some 5%Q) (Some "clear")) Review.blank))
    None (Some "sound") (Some "short") (Some "none") None None.

(** ... and submits originality 4 and clarity 5. *)
Definition scored : Store :=
  snd (Reviews.submit 3%Z reviewer 50 scores_4_5 after_accept).

End Sample.

(** ** Further vocabulary *)

(** [manuscript.editorNotes] replaced by [l]. *)
Definition set_editorNotes (l : list Manuscript.Note) (m : Manuscript.t)
  : Manuscript.t :=
  Manuscript.mk (Manuscript.id m) (Manuscript.submittedBy m)
    (Manuscript.status m) (Manuscript.editorDecision m)
    (Manuscript.revisionDeadline m) (Manuscript.publicationDetails m)
    (Manuscript.paymentCompleted m) (Manuscript.paymentReference m)
    (Manuscript.submissionDate m) (Manuscript.lastModified m)
    (Manuscript.reviewAssignments m) (Manuscript.reviews m) l.


(** The Reviews of a manuscript. *)
Definition reviews_of (mid : ObjectId) (st : Store) : list Review.t :=
  filter (fun r => Nat.eqb (Review.manuscript r) mid) (reviews st).

(** The mirror of a manuscript has as many entries as the manuscript has
    Reviews. *)
Definition mirror_in_step (m : Manuscript.t) (st : Store) : Prop :=
  length (Manuscript.reviewAssignments m)
  = length (reviews_of (Manuscript.id m) st).

(** The Review stored under an id. *)
Definition review_at (rid : ObjectId) (st : Store) : option Review.t :=
  findById Review.id rid (reviews st).

(** The manuscript stored under an id. *)
Definition manuscript_at (mid : ObjectId) (st : Store) : option Manuscript.t :=
  findById Manuscript.id mid (manuscripts st).

(** [User.findById(x)] finds somebody. *)
Definition known_user (st : Store) (x : ObjectId) : bool :=
  match findById User.id x (users st) with
  | Some _ => true
  | None => false
  end.

(** The Payment stored under an id. *)
Definition payment_at (pid : ObjectId) (st : Store) : option Payment.t :=
  findById Payment.id pid (payments st).

(** The caller paid, or is an administrator. *)
Definition payer_or_admin (caller : Caller) (p : Payment.t) : Prop :=
  Payment.user p = caller_id caller \/ caller_role caller = "admin".

(** ** Further sample data *)
Module Cases.

Definition send_for_review : Editorial.InitialReviewBody :=
  Editorial.mkInitialReviewBody (Some "send-for-review") None None.

(** A decision initial-review does not know. *)
Definition approve : Editorial.InitialReviewBody :=
  Editorial.mkInitialReviewBody (Some "approve") None None.

(** The first Review of a store. *)
Definition first_review (st : Store) : Review.t :=
  hd (Sample.review "pending") (reviews st).

(** Recommendation, two scores and comments for the second submit route. *)
Definition short_form : Reviews.EvaluationBody :=
  Reviews.mkEvaluationBody (Some "accept") (Some 4%Q) None None (Some 5%Q)
    (Some "fine") None.

(** Nobody has id 77. *)
Definition to_nobody : Reviews.AssignBody :=
  Reviews.mkAssignBody (Some 10) [77] None.

(** The gateway reports an abandoned transaction. *)
Definition abandoned : Payment.VerifyData :=
  Payment.mkVerifyData "abandoned" "4099260517" None.

(** What the decision queue shows the editor first once Review 50 is in. *)
Definition listed : Manuscript.t * Editorial.ReviewSummary :=
  hd (Sample.manuscript "draft" false [], Editorial.mkReviewSummary 0 0 [])
     (snd (Editorial.pending_decisions Sample.editor Sample.scored)).


End Cases.

(** * Properties *)

(** ** Collections *)
Section CollectionFacts.
Context {D : Type} (oid : D -> ObjectId).

Lemma findById_id (i : ObjectId) (c : list D) (d : D) :
  findById oid i c = Some d -> oid d = i /\ In d c.
Proof.
  unfold findById. intros H. apply find_some in H.
  destruct H as [Hin Heq]. apply Nat.eqb_eq in Heq. auto.
Qed.

Lemma findById_update (i : ObjectId) (u : D -> D) (c : list D) :
  (forall d, oid (u d) = oid d) ->
  findById oid i (findByIdAndUpdate oid i u c)
  = option_map u (findById oid i c).
Proof.
  intros Hu. unfold findById, findByIdAndUpdate.
  induction c as [|d c IH]; simpl; [reflexivity|].
  destruct (Nat.eqb (oid d) i) eqn:E; simpl.
  - rewrite Hu, E. reflexivity.
  - rewrite E. exact IH.
Qed.

Lemma findById_update_other (i j : ObjectId) (u : D -> D) (c : list D) :
  (forall d, oid (u d) = oid d) -> i <> j ->
  findById oid i (findByIdAndUpdate oid j u c) = findById oid i c.
Proof.
  intros Hu Hij. unfold findById, findByIdAndUpdate.
  induction c as [|d c IH]; simpl; [reflexivity|].
  destruct (Nat.eqb (oid d) j) eqn:E; simpl.
  - rewrite Hu. apply Nat.eqb_eq in E.
    destruct (Nat.eqb (oid d) i) eqn:E'.
    + apply Nat.eqb_eq in E'. congruence.
    + exact IH.
  - destruct (Nat.eqb (oid d) i); [reflexivity|exact IH].
Qed.

Lemma findById_saved (d : D) (c : list D) :
  findById oid (oid d) (updateById oid d c)
  = option_map (fun _ => d) (findById oid (oid d) c).
Proof.
  unfold findById, updateById.
  induction c as [|x c IH]; simpl; [reflexivity|].
  destruct (Nat.eqb (oid x) (oid d)) eqn:E; simpl.
  - rewrite Nat.eqb_refl. reflexivity.
  - rewrite E. exact IH.
Qed.

Lemma updateById_twice (d d' : D) (c : list D) :
  oid d' = oid d ->
  updateById oid d' (updateById oid d c) = updateById oid d' c.
Proof.
  intros Hid. unfold updateById. rewrite map_map.
  apply map_ext. intros x. rewrite Hid.
  destruct (Nat.eqb (oid x) (oid d)) eqn:E.
  - rewrite Nat.eqb_refl. reflexivity.
  - rewrite E. reflexivity.
Qed.

Lemma updateById_ids (d : D) (c : list D) :
  map oid (updateById oid d c) = map oid c.
Proof.
  unfold updateById. rewrite map_map. apply map_ext.
  intros x. destruct (Nat.eqb (oid x) (oid d)) eqn:E; [|reflexivity].
  apply Nat.eqb_eq in E. auto.
Qed.

Lemma updateById_In (d x : D) (c : list D) :
  In x (updateById oid d c) -> x = d \/ In x c.
Proof.
  unfold updateById. rewrite in_map_iff. intros [y [Hy Hin]].
  destruct (Nat.eqb (oid y) (oid d)); subst; auto.
Qed.

(** In a collection with unique ids a document is determined by its id. *)
Lemma unique_by_id (c : list D) (a b : D) :
  NoDup (map oid c) -> In a c -> In b c -> oid a = oid b -> a = b.
Proof.
  induction c as [|x c IH]; simpl; [tauto|].
  intros Hnd [Ha|Ha] [Hb|Hb] Hid; subst; auto.
  - inversion Hnd; subst. exfalso. apply H1. rewrite Hid.
    apply in_map. exact Hb.
  - inversion Hnd; subst. exfalso. apply H1. rewrite <- Hid.
    apply in_map. exact Ha.
  - inversion Hnd; subst. auto.
Qed.

(** Rewriting a document keeps every projection that the new version
    shares with the stored one. *)
Lemma updateById_keeps {K : Type} (key : D -> K) (d0 d : D) (c : list D) :
  NoDup (map oid c) -> In d0 c -> oid d = oid d0 -> key d = key d0 ->
  map key (updateById oid d c) = map key c.
Proof.
  intros Hnd Hin Hid Hkey. unfold updateById. rewrite map_map.
  apply map_ext_in. intros x Hx.
  destruct (Nat.eqb (oid x) (oid d)) eqn:E; [|reflexivity].
  apply Nat.eqb_eq in E.
  assert (x = d0) by (apply (unique_by_id c); congruence).
  subst. exact Hkey.
Qed.

Lemma find_after_update (q : D -> bool) (d0 d : D) (c : list D) :
  find q c = Some d0 -> oid d = oid d0 -> q d = true ->
  find q (updateById oid d c) = Some d.
Proof.
  intros Hfind Hid Hq. unfold updateById.
  induction c as [|x c IH]; simpl in *; [discriminate|].
  destruct (Nat.eqb (oid x) (oid d)) eqn:E.
  - rewrite Hq. reflexivity.
  - destruct (q x) eqn:Qx.
    + inversion Hfind; subst. rewrite Hid, Nat.eqb_refl in E. discriminate.
    + apply IH. exact Hfind.
Qed.
End CollectionFacts.

(** ** Editorial decisions *)

(** The gate of make-decision lets an editor through exactly when no Review
    of the manuscript carries the status ['pending'] or ['accepted']. *)
Lemma pendingReviews_zero (mid : ObjectId) (st : Store) :
  Editorial.pendingReviews mid st = 0
  <-> forall r, In r (reviews st) -> Review.manuscript r = mid ->
        Review.status r <> "pending" /\ Review.status r <> "accepted".
Proof.
  unfold Editorial.pendingReviews, countDocuments.
  rewrite length_zero_iff_nil. split.
  - intros Hnil r Hin Hm.
    assert (Hq : Nat.eqb (Review.manuscript r) mid
                 && Js.elem (Review.status r) ["pending"; "accepted"] = false).
    { destruct (_ && _) eqn:E; [|reflexivity].
      assert (Hr : In r (filter (fun r => Nat.eqb (Review.manuscript r) mid
                 && Js.elem (Review.status r) ["pending"; "accepted"])
                 (reviews st))) by (apply filter_In; auto).
      rewrite Hnil in Hr. destruct Hr. }
    apply Nat.eqb_eq in Hm. rewrite Hm in Hq. simpl in Hq.
    split; intros Hs; rewrite Hs in Hq; discriminate.
  - intros H. induction (reviews st) as [|r l IH]; simpl; [reflexivity|].
    destruct (Nat.eqb (Review.manuscript r) mid) eqn:Em; simpl.
    + apply Nat.eqb_eq in Em.
      destruct (H r (or_introl eq_refl) Em) as [Hp Ha].
      apply String.eqb_neq in Hp, Ha. rewrite Hp, Ha. simpl.
      apply IH. intros r' Hin. apply H. right. exact Hin.
    + apply IH. intros r' Hin. apply H. right. exact Hin.
Qed.

(** No status a Review can be stored with is ['accepted']: the second value
    the gate looks for never occurs. *)
Lemma accepted_is_no_review_status (r : Review.t) :
  Review.validate r = true -> Review.status r <> "accepted".
Proof.
  unfold Review.validate. intros H Hs. rewrite Hs in H. discriminate.
Qed.

(** A decision outside the enum of [editorDecision.decision] is refused by
    the schema when the manuscript is saved. *)
Lemma save_refuses_unknown_decision (now : Date) (orig m : Manuscript.t)
  (d : string) (by_ : ObjectId) (at_ : Date) (notes : option string)
  (st : Store) :
  Js.elem d Manuscript.decision_enum = false ->
  save_manuscript now orig
    (Manuscript.set_editorDecision (Manuscript.mkEditorDecision d by_ at_ notes) m)
    st = None.
Proof.
  intros Hd. unfold save_manuscript, Manuscript.validate.
  cbn [Manuscript.editorDecision Manuscript.set_editorDecision
       Manuscript.decision].
  rewrite Hd, andb_false_r. reflexivity.
Qed.

Lemma statusMap_unknown (d : string) :
  Js.elem d Manuscript.decision_enum = false ->
  Js.elem d Js.object_prototype_keys = false ->
  Js.lookup Editorial.statusMap d = Js.undefined.
Proof.
  intros Hd Hp. unfold Manuscript.decision_enum, Js.elem in Hd. simpl in Hd.
  repeat (apply orb_false_elim in Hd; destruct Hd as [? Hd]).
  unfold Editorial.statusMap. cbn [Js.lookup].
  repeat match goal with H : (d =? _) = false |- _ => rewrite H; clear H end.
  rewrite Hp. reflexivity.
Qed.

(** Whatever the request, a decision that is not one of the four leaves the
    store as it was and is not answered with 200. *)
Lemma make_decision_unknown (now : Date) (caller : Caller) (mid : ObjectId)
  (body : Editorial.DecisionBody) (st : Store) :
  known_decision body = false ->
  snd (Editorial.make_decision now caller mid body st) = st
  /\ res_status (fst (Editorial.make_decision now caller mid body st)) <> 200.
Proof.
  unfold known_decision, Editorial.make_decision. intros Hk.
  destruct (authorize _ caller); simpl; [|split; [reflexivity|discriminate]].
  destruct (findById _ mid _) as [m|]; [|split; [reflexivity|discriminate]].
  destruct (Nat.ltb 0 _); [split; [reflexivity|discriminate]|].
  destruct (Editorial.decision body) as [d|];
    [|split; [reflexivity|discriminate]].
  rewrite save_refuses_unknown_decision by exact Hk.
  split; [reflexivity|discriminate].
Qed.

Lemma manuscript_pre_save_status (now : Date) (orig m : Manuscript.t) :
  Manuscript.status (Manuscript.pre_save now orig m) = Manuscript.status m.
Proof. unfold Manuscript.pre_save. destruct (_ && _); reflexivity. Qed.

Lemma manuscript_pre_save_id (now : Date) (orig m : Manuscript.t) :
  Manuscript.id (Manuscript.pre_save now orig m) = Manuscript.id m.
Proof. unfold Manuscript.pre_save. destruct (_ && _); reflexivity. Qed.

(** A manuscript that was saved is stored with the status it was given. *)
Lemma status_of_saved (now : Date) (orig m : Manuscript.t) (st st' : Store) :
  save_manuscript now orig m st = Some st' ->
  findById Manuscript.id (Manuscript.id m) (manuscripts st) <> None ->
  status_of (Manuscript.id m) st' = Some (Manuscript.status m).
Proof.
  unfold save_manuscript, status_of.
  destruct (Manuscript.validate m); [|discriminate].
  intros H Hfound. inversion H; subst; clear H.
  cbn [manuscripts with_manuscripts].
  rewrite <- (manuscript_pre_save_id now orig m) at 1.
  rewrite findById_saved, manuscript_pre_save_id.
  destruct (findById Manuscript.id (Manuscript.id m) (manuscripts st));
    [|congruence].
  cbn [option_map]. rewrite manuscript_pre_save_status. reflexivity.
Qed.

Lemma note_when_id now by_ prefix text m :
  Manuscript.id (Editorial.note_when now by_ prefix text m) = Manuscript.id m.
Proof.
  unfold Editorial.note_when. destruct text as [s|]; [|reflexivity].
  destruct (s =? ""); reflexivity.
Qed.

Lemma known_decisions (d : string) :
  Js.elem d Manuscript.decision_enum = true ->
  d = "accept" \/ d = "minor-revisions" \/ d = "major-revisions"
  \/ d = "reject".
Proof.
  unfold Manuscript.decision_enum, Js.elem. simpl.
  rewrite !orb_true_iff, !String.eqb_eq. intuition discriminate.
Qed.

(** What make-decision does with one of the four decisions: an editor gets
    it through for every manuscript that exists and has no Review in status
    pending or 'accepted', whatever the manuscript's current status and
    whatever the status of its other Reviews; the manuscript takes the
    status the map gives. *)
Lemma make_decision_goes_through (now : Date) (caller : Caller)
  (mid : ObjectId) (body : Editorial.DecisionBody) (st : Store)
  (m : Manuscript.t) (d : string) :
  authorize ["editor"; "admin"] caller = true ->
  findById Manuscript.id mid (manuscripts st) = Some m ->
  Editorial.pendingReviews mid st = 0 ->
  Editorial.decision body = Some d ->
  Js.elem d Manuscript.decision_enum = true ->
  succeeded (fst (Editorial.make_decision now caller mid body st))
  /\ status_of mid (snd (Editorial.make_decision now caller mid body st))
     = Some (Js.lookup Editorial.statusMap d).
Proof.
  intros Hauth Hm Hpending Hd Hk.
  destruct (findById_id Manuscript.id _ _ _ Hm) as [Hid _].
  unfold succeeded, Editorial.make_decision.
  rewrite Hauth, Hm, Hpending, Hd. cbn [negb Nat.ltb Nat.leb].
  match goal with
  | |- context [save_manuscript now m ?x st] => set (m7 := x)
  end.
  assert (Hid7 : Manuscript.id m7 = mid).
  { subst m7. cbn [Manuscript.id Manuscript.set_editorDecision
                   Manuscript.set_status].
    destruct (Js.includes d "revisions");
      [destruct (Editorial.revisionDeadline body)|];
      cbn [Manuscript.id Manuscript.set_revisionDeadline Manuscript.push_note];
      rewrite !note_when_id; exact Hid. }
  assert (Hst7 : Manuscript.status m7 = Js.lookup Editorial.statusMap d)
    by reflexivity.
  assert (Hv : Manuscript.validate m7 = true).
  { unfold Manuscript.validate. rewrite Hst7.
    change (Manuscript.editorDecision m7)
      with (Some (Manuscript.mkEditorDecision d (caller_id caller) now
                    (Editorial.editorNotes body))).
    cbn [Manuscript.decision]. rewrite Hk, andb_true_r.
    destruct (known_decisions d Hk) as [E|[E|[E|E]]]; subst d; reflexivity. }
  destruct (save_manuscript now m m7 st) as [st'|] eqn:Hsave.
  - cbn [fst snd]. split; [reflexivity|].
    rewrite <- Hid7, <- Hst7. apply (status_of_saved now m m7 st st' Hsave).
    rewrite Hid7, Hm. discriminate.
  - unfold save_manuscript in Hsave. rewrite Hv in Hsave. discriminate.
Qed.

(** What publish looks at: the role and the status, nothing else. *)
Lemma publish_goes_through (now : Date) (caller : Caller) (mid : ObjectId)
  (body : Editorial.PublishBody) (st : Store) (m : Manuscript.t) :
  authorize ["editor"; "admin"] caller = true ->
  findById Manuscript.id mid (manuscripts st) = Some m ->
  Manuscript.status m = Js.str "accepted" ->
  Manuscript.validate m = true ->
  succeeded (fst (Editorial.publish now caller mid body st))
  /\ status_of mid (snd (Editorial.publish now caller mid body st))
     = Some (Js.str "published").
Proof.
  intros Hauth Hm Hs Hv.
  destruct (findById_id Manuscript.id _ _ _ Hm) as [Hid _].
  unfold succeeded, Editorial.publish. rewrite Hauth, Hm, Hs.
  cbn [negb Js.equals String.eqb Ascii.eqb Bool.eqb].
  match goal with
  | |- context [save_manuscript now m ?x st] => set (m2 := x)
  end.
  assert (Hv2 : Manuscript.validate m2 = true).
  { unfold Manuscript.validate in *. subst m2.
    cbn [Manuscript.status Manuscript.editorDecision
         Manuscript.set_publicationDetails Manuscript.set_status].
    apply andb_true_iff in Hv. destruct Hv as [_ Hv]. rewrite Hv. reflexivity. }
  destruct (save_manuscript now m m2 st) as [st'|] eqn:Hsave.
  - cbn [fst snd]. split; [reflexivity|].
    rewrite <- Hid.
    change (Manuscript.id m) with (Manuscript.id m2).
    change (Js.str "published") with (Manuscript.status m2).
    apply (status_of_saved now m m2 st st' Hsave).
    change (Manuscript.id m2) with (Manuscript.id m).
    rewrite Hid, Hm. discriminate.
  - unfold save_manuscript in Hsave. rewrite Hv2 in Hsave. discriminate.
Qed.

(** C1 (the code departs from the specification): a reviewer who accepted
    the assignment has a Review in status in-progress; make-decision counts only
    the statuses pending and 'accepted', so it lets the editor accept the
    manuscript although that Review is not completed. Before the reviewer
    answered, the same request was refused. *)
Theorem make_decision_with_review_in_progress :
  let st1 := snd (Reviews.accept 5%Z Sample.reviewer 20 Sample.assigned) in
  let result :=
    Editorial.make_decision 9%Z Sample.editor 10 Sample.accept_body st1 in
  fst (Editorial.make_decision 9%Z Sample.editor 10 Sample.accept_body
         Sample.assigned)
    = json 400 "Cannot make decision while reviews are still pending"
  /\ map Review.status (reviews st1) = ["in-progress"]
  /\ succeeded (fst result)
  /\ status_of 10 (snd result) = Some (Js.str "accepted").
Proof. vm_compute. repeat split. Qed.

(** C2 (the code departs from the specification): make-decision never looks
    at the current status. Whatever status manuscript 10 has (draft, published,
    ...), with no Review pending the decision accept goes through and the
    manuscript becomes accepted. *)
Theorem make_decision_from_any_status :
  forall current : string,
    let st := Sample.store (Sample.manuscript current false []) [] [] in
    let result :=
      Editorial.make_decision 9%Z Sample.editor 10 Sample.accept_body st in
    succeeded (fst result)
    /\ status_of 10 (snd result) = Some (Js.str "accepted").
Proof.
  intros current. unfold succeeded, status_of.
  unfold Editorial.make_decision, save_manuscript, Manuscript.pre_save. cbn.
  destruct (current =? "accepted"); split; reflexivity.
Qed.

(** C3 (the code departs from the specification): an accepted manuscript
    whose payment was never completed (no Payment at all, [paymentCompleted]
    false) is published; a manuscript that is not accepted is refused and
    left alone. *)
Theorem publish_without_payment :
  let unpaid := Sample.store (Sample.manuscript "accepted" false []) [] [] in
  let result := Editorial.publish 9%Z Sample.editor 10 Sample.no_details unpaid in
  let review_ := Sample.store (Sample.manuscript "under-review" true []) [] [] in
  succeeded (fst result)
  /\ status_of 10 (snd result) = Some (Js.str "published")
  /\ Editorial.publish 9%Z Sample.editor 10 Sample.no_details review_
     = (json 400 "Only accepted manuscripts can be published", review_).
Proof. vm_compute. repeat split. Qed.

(** C9 (the code departs from the specification): submit-back assigns the
    status 'submitted-back', which the Manuscript schema does not list; the save is
    refused, so the request never succeeds and nothing is stored. *)
Theorem submit_back_never_succeeds :
  forall (now : Date) (caller : Caller) (mid : ObjectId)
         (body : Editorial.SubmitBackBody) (st : Store),
    ~ succeeded (fst (Editorial.submit_back now caller mid body st))
    /\ snd (Editorial.submit_back now caller mid body st) = st.
Proof.
  intros now caller mid body st. unfold succeeded, Editorial.submit_back.
  destruct (authorize _ caller); simpl; [|split; [discriminate|reflexivity]].
  destruct (findById _ mid _) as [m|]; [|split; [discriminate|reflexivity]].
  assert (Hsave : forall m', save_manuscript now m
            (match Editorial.sb_revisionDeadline body with
             | Some d => Manuscript.set_revisionDeadline d
                           (Manuscript.set_status (Js.str "submitted-back") m')
             | None => Manuscript.set_revisionDeadline (now + days 30)%Z
                           (Manuscript.set_status (Js.str "submitted-back") m')
             end) st = None).
  { intros m'. destruct (Editorial.sb_revisionDeadline body); reflexivity. }
  rewrite Hsave. split; [discriminate|reflexivity].
Qed.

(** C10 as stated fails: no decision outside the four makes make-decision
    store a manuscript without status. *)
Lemma unknown_decision_is_never_saved :
  ~ exists now caller mid body st,
      known_decision body = false
      /\ saves_unset_status now caller mid body st.
Proof.
  intros (now & caller & mid & body & st & Hk & Hok & _).
  destruct (make_decision_unknown now caller mid body st Hk) as [_ Hne].
  exact (Hne Hok).
Qed.

(** C10 (amended): for a decision outside the four, the handler itself
    validates nothing and the status map yields no status (for any string
    that is not a property inherited by the map); the schema then refuses
    the save because of [editorDecision.decision], so the editor gets the
    500 of the handler's catch and the store is left as it was. *)
Theorem make_decision_unknown_decision :
  forall (now : Date) (caller : Caller) (mid : ObjectId)
         (body : Editorial.DecisionBody) (st : Store) (d : string),
    Editorial.decision body = Some d ->
    Js.elem d Manuscript.decision_enum = false ->
    (Js.elem d Js.object_prototype_keys = false ->
     Js.lookup Editorial.statusMap d = Js.undefined)
    /\ snd (Editorial.make_decision now caller mid body st) = st
    /\ ~ succeeded (fst (Editorial.make_decision now caller mid body st))
    /\ (authorize ["editor"; "admin"] caller = true ->
        findById Manuscript.id mid (manuscripts st) <> None ->
        Editorial.pendingReviews mid st = 0 ->
        fst (Editorial.make_decision now caller mid body st)
        = json 500 "Server error processing editorial decision").
Proof.
  intros now caller mid body st d Hd Hk.
  assert (Hk' : known_decision body = false)
    by (unfold known_decision; rewrite Hd; exact Hk).
  destruct (make_decision_unknown now caller mid body st Hk') as [Hst Hne].
  split; [apply statusMap_unknown; exact Hk|].
  split; [exact Hst|]. split; [exact Hne|].
  intros Hauth Hfound Hpending. unfold Editorial.make_decision.
  rewrite Hauth. simpl.
  destruct (findById _ mid _) as [m|]; [|congruence].
  rewrite Hpending. simpl. rewrite Hd.
  rewrite save_refuses_unknown_decision by exact Hk. reflexivity.
Qed.

Lemma make_decision_unknown_decision_witness :
  Js.lookup Editorial.statusMap "approve" = Js.undefined
  /\ Editorial.make_decision 9%Z Sample.editor 10 (Sample.decide "approve")
       (Sample.store (Sample.manuscript "under-review" false []) [] [])
     = (json 500 "Server error processing editorial decision",
        Sample.store (Sample.manuscript "under-review" false []) [] []).
Proof.
  destruct (make_decision_unknown_decision 9%Z Sample.editor 10
              (Sample.decide "approve")
              (Sample.store (Sample.manuscript "under-review" false []) [] [])
              "approve" eq_refl eq_refl) as (Hmap & Hst & _ & Hres).
  split; [exact (Hmap eq_refl)|].
  rewrite (surjective_pairing (Editorial.make_decision _ _ _ _ _)).
  rewrite Hst. rewrite Hres; [reflexivity|reflexivity|discriminate|reflexivity].
Defined.

(** ** Payment initiation *)


Lemma equals_spec (v : Js.value) (s : string) :
  Js.equals v s = true <-> v = Js.str s.
Proof.
  destruct v; simpl; split; intros H; try discriminate.
  - apply String.eqb_eq in H. congruence.
  - inversion H. apply String.eqb_refl.
Qed.





(** ** Webhook and verification *)

(** The webhook writes nothing, whatever it is sent. *)
Lemma webhook_keeps_store
  (hmac : string -> string -> string)
  (parse : string -> option Payments.Event) (key : option string)
  (body : Payments.Body) (signature : option string) (st : Store) :
  snd (Payments.webhook hmac parse key body signature st) = st.
Proof.
  unfold Payments.webhook.
  repeat match goal with
         | |- context [match ?x with _ => _ end] => destruct x
         end; reflexivity.
Qed.

(** A request whose signature is not the keyed hash of its raw body is
    turned away with 400 before the body is parsed. *)
Lemma webhook_rejects_bad_signature
  (hmac : string -> string -> string)
  (parse : string -> option Payments.Event) (key : option string)
  (bytes : string) (signature : option string) (st : Store) :
  signature <> Some (hmac (Js.or_else key "sk_test_your_secret_key") bytes) ->
  Payments.webhook hmac parse key (Payments.raw bytes) signature st
  = (json 400 "Invalid signature", st).
Proof.
  intros Hsig. unfold Payments.webhook.
  destruct (Js.opt_eqb _ signature) eqn:E; [|reflexivity].
  exfalso. apply Hsig. destruct signature as [s|]; simpl in E;
    [|discriminate].
  apply String.eqb_eq in E. congruence.
Qed.

(** C7 (the code departs from the specification): a correctly signed
    charge.success event for the initialised payment PAY_123 is answered
    200 and leaves the Payment in status processing and the manuscript
    unpaid, where verify with the same reference completes both; the
    webhook never writes to the store. A wrongly signed request is refused
    with 400. *)
Theorem webhook_completes_nothing :
  let st := Sample.awaiting_payment in
  let signature := Sample.toy_hmac "sk_test_your_secret_key" "charge" in
  let delivered :=
    Payments.webhook Sample.toy_hmac Sample.toy_parse None
      (Payments.raw "charge") (Some signature) st in
  let checked :=
    Payments.verify 9%Z "K3J9" (Some Sample.success) Sample.author "PAY_123" st in
  Sample.toy_parse "charge" = Some Sample.charge_success
  /\ delivered = (json 200 "OK", st)
  /\ map Payment.status (payments (snd delivered)) = ["processing"]
  /\ map Manuscript.paymentCompleted (manuscripts (snd delivered)) = [false]
  /\ succeeded (fst checked)
  /\ map Payment.status (payments (snd checked)) = ["completed"]
  /\ map Manuscript.paymentCompleted (manuscripts (snd checked)) = [true]
  /\ Payments.webhook Sample.toy_hmac Sample.toy_parse None
       (Payments.raw "charge") (Some "forged") st
     = (json 400 "Invalid signature", st)
  /\ (forall hmac parse key body sig st0,
        snd (Payments.webhook hmac parse key body sig st0) = st0).
Proof.
  repeat split; try (vm_compute; reflexivity).
  intros. apply webhook_keeps_store.
Qed.

(** C8 as stated fails: verifying PAY_123 at time 1000 and again at time
    2000 moves [paidAt] from 1000 to 2000. *)
Lemma verify_again_advances_paidAt :
  let once :=
    snd (Payments.verify 1000%Z "K3J9" (Some Sample.success) Sample.author
           "PAY_123" Sample.awaiting_payment) in
  let twice :=
    snd (Payments.verify 2000%Z "K3J9" (Some Sample.success) Sample.author
           "PAY_123" once) in
  map Payment.paidAt (payments once) = [Some 1000%Z]
  /\ map Payment.paidAt (payments twice) = [Some 2000%Z]
  /\ map Payment.paidAt (payments twice) <> map Payment.paidAt (payments once).
Proof. vm_compute. repeat split. discriminate. Qed.

Lemma value_eqb_refl (v : Js.value) : Manuscript.value_eqb v v = true.
Proof. destruct v; simpl; auto using String.eqb_refl. Qed.

(** A confirmed verification answers 200 exactly along one path of the
    handler; this is what it has read and what it leaves. *)
Lemma verify_succeeded (now : Date) (token : string)
  (data : Payment.VerifyData) (caller : Caller) (reference : string)
  (st : Store) :
  succeeded (fst (Payments.verify now token (Some data) caller reference st)) ->
  exists p m,
    findOne (Payments.by_reference reference) (payments st) = Some p
    /\ negb (Nat.eqb (Payment.user p) (caller_id caller))
       && negb (caller_role caller =? "admin") = false
    /\ (Payment.gw_status data =? "success") = true
    /\ Js.truthy (Payment.paymentReference p) = true
    /\ findById Manuscript.id (Payment.manuscript p) (manuscripts st) = Some m
    /\ Manuscript.validate m = true
    /\ snd (Payments.verify now token (Some data) caller reference st)
       = verified_store now data p m st.
Proof.
  unfold succeeded, Payments.verify.
  destruct (findOne _ (payments st)) as [p|] eqn:Hp; [|discriminate].
  destruct (negb _ && negb _) eqn:Hauth; [discriminate|].
  destruct (Payment.gw_status data =? "success") eqn:Hgw.
  - unfold save_payment.
    destruct (Payment.validate _) eqn:Hv; [|discriminate].
    assert (Href : Js.truthy (Payment.paymentReference p) = true).
    { unfold Payment.validate in Hv. cbn in Hv.
      rewrite andb_true_r in Hv. exact Hv. }
    destruct (findById Manuscript.id _ (manuscripts st)) as [m|] eqn:Hm;
      [|discriminate].
    unfold save_manuscript.
    destruct (Manuscript.validate _) eqn:Hmv; [|discriminate].
    intros _. exists p, m. repeat split; auto.
    unfold verified_store, marked_paid, Manuscript.pre_save, Payment.pre_save.
    cbn [Payment.paymentReference Manuscript.status
         Manuscript.set_paymentReference Manuscript.set_paymentCompleted].
    rewrite Href, value_eqb_refl. reflexivity.
  - unfold save_payment. destruct (Payment.validate _); discriminate.
Qed.

Lemma verify_confirms (now : Date) (token : string)
  (data : Payment.VerifyData) (caller : Caller) (reference : string)
  (st : Store) (p : Payment.t) (m : Manuscript.t) :
  findOne (Payments.by_reference reference) (payments st) = Some p ->
  negb (Nat.eqb (Payment.user p) (caller_id caller))
  && negb (caller_role caller =? "admin") = false ->
  (Payment.gw_status data =? "success") = true ->
  Js.truthy (Payment.paymentReference p) = true ->
  findById Manuscript.id (Payment.manuscript p) (manuscripts st) = Some m ->
  Manuscript.validate m = true ->
  Payments.verify now token (Some data) caller reference st
  = (json 200 "Payment verified successfully", verified_store now data p m st).
Proof.
  intros Hp Hauth Hgw Href Hm Hmv. unfold Payments.verify.
  rewrite Hp, Hauth, Hgw. unfold save_payment, Payment.validate.
  cbn [Payment.paymentReference Payment.status].
  rewrite Href. cbn [Js.elem Payment.status_enum existsb andb orb String.eqb
                     Ascii.eqb Bool.eqb].
  rewrite Hm. unfold save_manuscript.
  change (Manuscript.validate
            (Manuscript.set_paymentReference _
               (Manuscript.set_paymentCompleted true m)))
    with (Manuscript.validate m).
  rewrite Hmv.
  unfold verified_store, marked_paid, Manuscript.pre_save, Payment.pre_save.
  cbn [Payment.paymentReference Manuscript.status
       Manuscript.set_paymentReference Manuscript.set_paymentCompleted].
  rewrite Href, value_eqb_refl. reflexivity.
Qed.

Lemma verified_store_again (now1 now2 : Date) (data : Payment.VerifyData)
  (p : Payment.t) (m : Manuscript.t) (st : Store) :
  same_but_times
    (verified_store now1 data p m st)
    (verified_store now2 data (completed_at now1 data p)
       (marked_paid now1 (Payment.paymentReference p) m)
       (verified_store now1 data p m st)).
Proof.
  unfold same_but_times, verified_store, with_manuscripts, with_payments.
  cbn [payments manuscripts reviews users next_oid].
  repeat split.
  - rewrite updateById_twice by reflexivity.
    unfold updateById. rewrite !map_map. apply map_ext. intros x.
    cbn [Payment.id completed_at].
    destruct (Nat.eqb (Payment.id x) (Payment.id p)); reflexivity.
  - rewrite updateById_twice by reflexivity.
    unfold updateById. rewrite !map_map. apply map_ext. intros x.
    cbn [Manuscript.id marked_paid Manuscript.set_lastModified
         Manuscript.set_paymentReference Manuscript.set_paymentCompleted].
    destruct (Nat.eqb (Manuscript.id x) (Manuscript.id m)); reflexivity.
Qed.

(** C8 (amended): once a verification of a reference has succeeded,
    verifying the same reference again with the gateway still reporting
    success succeeds again and leaves the Payment completed and every stored
    field as it was, apart from the time stamps, which move to the time of
    the latest call ([paidAt] of the Payment, [lastModified] of the
    manuscript); nothing is appended. A repeated webhook delivery leaves the
    store exactly as the first delivery left it. *)
Theorem verify_again_same_but_times :
  forall (now1 now2 : Date) (token1 token2 : string)
         (data : Payment.VerifyData) (caller : Caller) (reference : string)
         (st : Store),
    succeeded (fst (Payments.verify now1 token1 (Some data) caller reference st)) ->
    let once :=
      snd (Payments.verify now1 token1 (Some data) caller reference st) in
    let again := Payments.verify now2 token2 (Some data) caller reference once in
    succeeded (fst again)
    /\ same_but_times once (snd again)
    /\ (exists p,
          findOne (Payments.by_reference reference) (payments (snd again))
          = Some p
          /\ Payment.status p = "completed" /\ Payment.paidAt p = Some now2)
    /\ (forall hmac parse key body signature st0,
          snd (Payments.webhook hmac parse key body signature
                 (snd (Payments.webhook hmac parse key body signature st0)))
          = snd (Payments.webhook hmac parse key body signature st0)).
Proof.
  intros now1 now2 token1 token2 data caller reference st Hok once again.
  destruct (verify_succeeded _ _ _ _ _ _ Hok)
    as (p & m & Hp & Hauth & Hgw & Href & Hm & Hmv & Hst).
  assert (Hq : Payments.by_reference reference p = true)
    by (apply find_some in Hp; tauto).
  destruct (findById_id Manuscript.id _ _ _ Hm) as [Hid _].
  set (p1 := completed_at now1 data p).
  set (m1 := marked_paid now1 (Payment.paymentReference p) m).
  assert (Hp1 : findOne (Payments.by_reference reference) (payments once)
                = Some p1).
  { subst once. rewrite Hst.
    apply (find_after_update Payment.id _ p); auto. }
  assert (Hm1 : findById Manuscript.id (Payment.manuscript p1)
                  (manuscripts once) = Some m1).
  { subst once. rewrite Hst. unfold verified_store, with_manuscripts.
    cbn [manuscripts]. fold m1.
    change (Payment.manuscript p1) with (Payment.manuscript p).
    rewrite <- Hid. change (Manuscript.id m) with (Manuscript.id m1).
    rewrite findById_saved.
    change (Manuscript.id m1) with (Manuscript.id m).
    rewrite Hid, Hm. reflexivity. }
  assert (Hagain : again
                   = (json 200 "Payment verified successfully",
                      verified_store now2 data p1 m1 once)).
  { subst again. apply verify_confirms; auto. }
  rewrite Hagain. cbn [fst snd]. split; [reflexivity|].
  split.
  { subst once. rewrite Hst. apply verified_store_again. }
  split.
  { exists (completed_at now2 data p1). split; [|split; reflexivity].
    unfold verified_store, with_manuscripts, with_payments. cbn [payments].
    apply (find_after_update Payment.id _ p1); auto. }
  intros. rewrite !webhook_keeps_store. reflexivity.
Qed.

Lemma verify_again_same_but_times_witness :
  succeeded
    (fst (Payments.verify 2000%Z "K3J9" (Some Sample.success) Sample.author
            "PAY_123"
            (snd (Payments.verify 1000%Z "K3J9" (Some Sample.success)
                    Sample.author "PAY_123" Sample.awaiting_payment)))).
Proof.
  apply (verify_again_same_but_times 1000%Z 2000%Z "K3J9" "K3J9"
           Sample.success Sample.author "PAY_123" Sample.awaiting_payment).
  reflexivity.
Defined.

(** ** Review scores *)

Lemma fold_left_total (l : list Q) (a : Q) :
  (fold_left Qplus l a == a + total l)%Q.
Proof.
  revert a. induction l as [|x l IH]; intros a; simpl.
  - ring.
  - rewrite IH. ring.
Qed.

Lemma average_is_mean (l : list Q) :
  (Review.average l == total l / inject_Z (Z.of_nat (length l)))%Q.
Proof.
  unfold Review.average. rewrite fold_left_total. 
  apply Qdiv_comp; [ring|reflexivity].
Qed.

(** A score the validators let through is at least 1, hence truthy. *)
Lemma pushed_when_valid (c : Review.Criterion) :
  Review.in_scale (Review.score c) = true ->
  Review.pushed c
  = match Review.score c with Some q => [q] | None => [] end.
Proof.
  unfold Review.in_scale, Review.pushed.
  destruct (Review.score c) as [q|]; [|reflexivity].
  intros H. apply andb_true_iff in H. destruct H as [H1 _].
  apply Qle_bool_iff in H1.
  destruct (Qeq_bool q 0) eqn:E; [|reflexivity].
  apply Qeq_bool_iff in E. rewrite E in H1.
  exfalso. revert H1. apply Qlt_not_le. reflexivity.
Qed.

Lemma scores_when_valid (r : Review.t) :
  Review.validate r = true ->
  Review.scores (Review.evaluation r) = present_scores (Review.evaluation r).
Proof.
  unfold Review.validate. intros H.
  do 5 (apply andb_true_iff in H; destruct H as [H _]).
  apply andb_true_iff in H. destruct H as [_ H].
  unfold Review.scores, present_scores.
  induction (Review.criteria (Review.evaluation r)) as [|c l IH];
    simpl in *; [reflexivity|].
  apply andb_true_iff in H. destruct H as [Hc Hl].
  rewrite pushed_when_valid by exact Hc. rewrite IH by exact Hl. reflexivity.
Qed.

Lemma pre_save_id (now : Date) (orig r : Review.t) :
  Review.id (Review.pre_save now orig r) = Review.id r.
Proof.
  unfold Review.pre_save.
  destruct (Review.scores _); destruct (_ && _); reflexivity.
Qed.

Lemma pre_save_pair (now : Date) (orig r : Review.t) :
  pair_of (Review.pre_save now orig r) = pair_of r.
Proof.
  unfold Review.pre_save.
  destruct (Review.scores _); destruct (_ && _); reflexivity.
Qed.

Lemma pre_save_evaluation (now : Date) (orig r : Review.t) :
  Review.evaluation (Review.pre_save now orig r) = Review.evaluation r.
Proof.
  unfold Review.pre_save.
  destruct (Review.scores _); destruct (_ && _); reflexivity.
Qed.

Lemma pre_save_overallScore (now : Date) (orig r : Review.t) :
  Review.overallScore (Review.pre_save now orig r)
  = match Review.scores (Review.evaluation r) with
    | [] => Review.overallScore r
    | l => Some (Review.average l)
    end.
Proof.
  unfold Review.pre_save.
  destruct (Review.scores _); destruct (_ && _); reflexivity.
Qed.

Lemma pre_save_status (now : Date) (orig r : Review.t) :
  Review.status (Review.pre_save now orig r) = Review.status r
  \/ Review.status (Review.pre_save now orig r) = "completed".
Proof.
  unfold Review.pre_save.
  destruct (Review.scores _); destruct (_ && _); auto.
Qed.

(** The hook leaves the mean of the present scores in [overallScore],
    provided a review without scores came in without an [overallScore]. *)
Lemma pre_save_score_ok (now : Date) (orig r : Review.t) :
  Review.validate r = true ->
  (present_scores (Review.evaluation r) = [] -> Review.overallScore r = None) ->
  score_ok (Review.pre_save now orig r).
Proof.
  intros Hv Hnone. unfold score_ok.
  rewrite pre_save_evaluation, pre_save_overallScore.
  rewrite (scores_when_valid r Hv).
  destruct (present_scores (Review.evaluation r)) as [|q l] eqn:E.
  - apply Hnone. reflexivity.
  - exists (Review.average (q :: l)). split; [reflexivity|].
    apply average_is_mean.
Qed.

(** ** The reviews collection *)

Lemma quiet_refl (st : Store) : quiet st st.
Proof. split; auto. Qed.

Lemma quiet_trans (a b c : Store) : quiet a b -> quiet b c -> quiet a c.
Proof. intros [H1 H2] [H3 H4]. split; [congruence|lia]. Qed.

Lemma with_manuscripts_quiet (l : list Manuscript.t) (st : Store) :
  quiet st (with_manuscripts l st).
Proof. split; auto. Qed.

Lemma with_users_quiet (l : list User.t) (st : Store) :
  quiet st (with_users l st).
Proof. split; auto. Qed.

Lemma save_manuscript_quiet (now : Date) (orig m : Manuscript.t)
  (st st' : Store) :
  save_manuscript now orig m st = Some st' -> quiet st st'.
Proof.
  unfold save_manuscript. destruct (Manuscript.validate m); [|discriminate].
  intros H; inversion H; subst. apply with_manuscripts_quiet.
Qed.

Lemma save_payment_quiet (now : Date) (token : string) (p : Payment.t)
  (st st' : Store) :
  save_payment now token p st = Some st' -> quiet st st'.
Proof.
  unfold save_payment. destruct (Payment.validate p); [|discriminate].
  intros H; inversion H; subst. split; auto.
Qed.

Lemma create_payment_quiet (now : Date) (token : string) (p : Payment.t)
  (st st' : Store) :
  create_payment now token p st = Some st' -> quiet st st'.
Proof.
  unfold create_payment. destruct (Payment.validate p); [|discriminate].
  intros H; inversion H; subst. split; simpl; auto.
Qed.

Create HintDb quiet.
#[local] Hint Resolve quiet_refl with_manuscripts_quiet with_users_quiet
  save_manuscript_quiet save_payment_quiet create_payment_quiet : quiet.

Ltac split_handler :=
  repeat match goal with
         | |- context [match ?x with _ => _ end] => destruct x eqn:?
         end;
  cbn [fst snd].

Lemma make_decision_quiet now caller mid body st :
  quiet st (snd (Editorial.make_decision now caller mid body st)).
Proof. unfold Editorial.make_decision. split_handler; eauto with quiet. Qed.

Lemma publish_quiet now caller mid body st :
  quiet st (snd (Editorial.publish now caller mid body st)).
Proof. unfold Editorial.publish. split_handler; eauto with quiet. Qed.

Lemma submit_back_quiet now caller mid body st :
  quiet st (snd (Editorial.submit_back now caller mid body st)).
Proof. unfold Editorial.submit_back. split_handler; eauto with quiet. Qed.

Lemma initiate_quiet now token paystack caller mid st :
  quiet st (snd (fst (Payments.initiate now token paystack caller mid st))).
Proof.
  unfold Payments.initiate. split_handler; eauto with quiet.
  match goal with
  | H1 : create_payment _ _ _ _ = Some ?b,
    H2 : save_manuscript _ _ _ ?b = Some _ |- _ =>
    exact (quiet_trans _ _ _ (create_payment_quiet _ _ _ _ _ H1)
                       (save_manuscript_quiet _ _ _ _ _ H2))
  end.
Qed.

Lemma verify_quiet now token gateway caller reference st :
  quiet st (snd (Payments.verify now token gateway caller reference st)).
Proof.
  unfold Payments.verify. split_handler; eauto with quiet.
  match goal with
  | H1 : save_payment _ _ _ _ = Some ?b,
    H2 : save_manuscript _ _ _ ?b = Some _ |- _ =>
    exact (quiet_trans _ _ _ (save_payment_quiet _ _ _ _ _ H1)
                       (save_manuscript_quiet _ _ _ _ _ H2))
  end.
Qed.

Lemma wf_quiet (st st' : Store) :
  quiet st st' -> reviews_wf st -> reviews_wf st'.
Proof.
  intros [Hr Hn] [H1 H2 H3 H4 H5].
  constructor; rewrite Hr; auto.
  intros r Hin. specialize (H1 r Hin). lia.
Qed.

Lemma NoDup_snoc {A : Type} (l : list A) (a : A) :
  NoDup l -> ~ In a l -> NoDup (l ++ [a]).
Proof.
  intros Hnd Hin. induction Hnd as [|x l Hx Hnd IH]; simpl.
  - constructor; [tauto|constructor].
  - constructor.
    + rewrite in_app_iff. simpl. intros [H|[H|[]]]; [tauto|].
      subst. apply Hin. left. reflexivity.
    + apply IH. intros H. apply Hin. right. exact H.
Qed.

Lemma NoDup_map_filter {A B : Type} (f : A -> B) (q : A -> bool) (l : list A) :
  NoDup (map f l) -> NoDup (map f (filter q l)).
Proof.
  induction l as [|x l IH]; simpl; intros H; [constructor|].
  inversion H; subst. destruct (q x); simpl; auto.
  constructor; auto.
  intros Hin. apply H2. apply in_map_iff in Hin.
  destruct Hin as (y & Hy & Hin). apply filter_In in Hin.
  rewrite <- Hy. apply in_map. tauto.
Qed.

(** Saving a loaded Review that kept its id and its pair. *)
Lemma wf_save_review (now : Date) (orig r : Review.t) (st st' : Store) :
  reviews_wf st ->
  In orig (reviews st) ->
  Review.id r = Review.id orig ->
  pair_of r = pair_of orig ->
  (present_scores (Review.evaluation r) = [] -> Review.overallScore r = None) ->
  (Review.status r <> "completed" ->
   present_scores (Review.evaluation r) = []) ->
  save_review now orig r st = Some st' ->
  reviews_wf st'.
Proof.
  intros [H1 H2 H3 H4 H5] Hin Hid Hpair Hnone Hunscored.
  unfold save_review. destruct (Review.validate r) eqn:Hv; [|discriminate].
  intros H; inversion H; subst; clear H.
  constructor; cbn [reviews next_oid with_reviews].
  - intros x Hx. apply updateById_In in Hx. destruct Hx as [Hx|Hx]; auto.
    subst. rewrite pre_save_id, Hid. auto.
  - rewrite updateById_ids. exact H2.
  - rewrite (updateById_keeps Review.id pair_of orig); auto.
    + rewrite pre_save_id. exact Hid.
    + rewrite pre_save_pair. exact Hpair.
  - intros x Hx. apply updateById_In in Hx. destruct Hx as [Hx|Hx]; auto.
    subst. apply pre_save_score_ok; auto.
  - intros x Hx Hs. apply updateById_In in Hx. destruct Hx as [Hx|Hx]; auto.
    subst. rewrite pre_save_evaluation. apply Hunscored.
    destruct (pre_save_status now orig r) as [E|E]; congruence.
Qed.

(** Deleting a Review. *)
Lemma wf_delete (i : ObjectId) (st : Store) :
  reviews_wf st ->
  reviews_wf (with_reviews (deleteById Review.id i (reviews st)) st).
Proof.
  intros [H1 H2 H3 H4 H5].
  constructor; cbn [reviews next_oid with_reviews]; unfold deleteById.
  - intros x Hx. apply filter_In in Hx. apply H1. tauto.
  - apply NoDup_map_filter. exact H2.
  - apply NoDup_map_filter. exact H3.
  - intros x Hx. apply filter_In in Hx. apply H4. tauto.
  - intros x Hx. apply filter_In in Hx. apply H5. tauto.
Qed.

(** The Review that [new Review({manuscript, reviewer, assignedBy, dueDate})]
    builds. *)
Lemma fresh_review_saved (now due : Date) (i mid rid by_ : ObjectId)
  (st : Store) :
  create_review now
    (Review.mk i mid rid by_ now due None "pending" None Review.no_evaluation
               None None None None None None []) st
  = Some (mkStore (manuscripts st)
            (insert (Review.mk i mid rid by_ now due None "pending" None
                       Review.no_evaluation None None None None None None [])
                    (reviews st))
            (payments st) (users st) (S (next_oid st))).
Proof. reflexivity. Qed.

Lemma pair_query_spec (mid rid : ObjectId) (r : Review.t) :
  Reviews.pair_query mid rid r = true <-> pair_of r = (mid, rid).
Proof.
  unfold Reviews.pair_query, pair_of.
  rewrite andb_true_iff, !Nat.eqb_eq. split.
  - intros [H1 H2]. congruence.
  - intros H. inversion H. auto.
Qed.

(** Inserting the first Review of a pair. *)
Lemma wf_insert_fresh (now due : Date) (mid rid by_ : ObjectId) (st : Store) :
  reviews_wf st ->
  findOne (Reviews.pair_query mid rid) (reviews st) = None ->
  reviews_wf
    (mkStore (manuscripts st)
       (insert (Review.mk (next_oid st) mid rid by_ now due None "pending"
                  None Review.no_evaluation None None None None None None [])
               (reviews st))
       (payments st) (users st) (S (next_oid st))).
Proof.
  intros [H1 H2 H3 H4 H5] Hnone.
  constructor; cbn [reviews next_oid]; unfold insert.
  - intros x Hx. apply in_app_iff in Hx. destruct Hx as [Hx|[Hx|[]]].
    + specialize (H1 x Hx). lia.
    + subst. simpl. lia.
  - rewrite map_app. apply NoDup_snoc; auto. simpl.
    intros Hin. apply in_map_iff in Hin. destruct Hin as (y & Hy & Hin).
    specialize (H1 y Hin). lia.
  - rewrite map_app. apply NoDup_snoc; auto. simpl.
    intros Hin. apply in_map_iff in Hin. destruct Hin as (y & Hy & Hin).
    apply (find_none _ _ Hnone) in Hin.
    assert (Reviews.pair_query mid rid y = true)
      by (apply pair_query_spec; exact Hy).
    congruence.
  - intros x Hx. apply in_app_iff in Hx. destruct Hx as [Hx|[Hx|[]]]; auto.
    subst. reflexivity.
  - intros x Hx Hs. apply in_app_iff in Hx. destruct Hx as [Hx|[Hx|[]]]; auto.
    subst. reflexivity.
Qed.

Lemma score_none (r : Review.t) :
  score_ok r -> present_scores (Review.evaluation r) = [] ->
  Review.overallScore r = None.
Proof. unfold score_ok. intros H E. rewrite E in H. exact H. Qed.

Lemma accept_wf now caller rid st :
  reviews_wf st -> reviews_wf (snd (Reviews.accept now caller rid st)).
Proof.
  intros Hwf. unfold Reviews.accept.
  destruct (findById Review.id rid (reviews st)) as [review|] eqn:Hf;
    [|exact Hwf].
  apply findById_id in Hf. destruct Hf as [_ Hin].
  destruct (negb (Nat.eqb _ _)); [exact Hwf|].
  destruct (negb (Review.status review =? "pending")) eqn:Hs; [exact Hwf|].
  apply negb_false_iff, String.eqb_eq in Hs.
  assert (Hnone : present_scores (Review.evaluation review) = []).
  { apply (wf_unscored st Hwf review Hin). rewrite Hs. discriminate. }
  destruct (save_review _ _ _ _) as [st1|] eqn:Hsave; [|exact Hwf].
  cbn [snd]. eapply wf_quiet; [apply with_manuscripts_quiet|].
  refine (wf_save_review now review _ st st1 Hwf Hin _ _ _ _ Hsave);
    try reflexivity.
  - intros _. change (Review.overallScore review = None).
    apply score_none; [apply (wf_score st Hwf); exact Hin|exact Hnone].
  - intros _. exact Hnone.
Qed.

Lemma decline_wf caller rid st :
  reviews_wf st -> reviews_wf (snd (Reviews.decline caller rid st)).
Proof.
  intros Hwf. unfold Reviews.decline.
  destruct (findById Review.id rid (reviews st)) as [review|]; [|exact Hwf].
  destruct (negb (Nat.eqb _ _)); [exact Hwf|].
  destruct (negb (Review.status review =? "pending")); [exact Hwf|].
  cbn [snd]. eapply wf_quiet; [apply with_users_quiet|].
  eapply wf_quiet; [apply with_manuscripts_quiet|].
  apply wf_delete. exact Hwf.
Qed.

(** A Review that is not completed carries no [overallScore] yet. *)
Lemma open_review_unscored (st : Store) (review : Review.t) :
  reviews_wf st -> In review (reviews st) ->
  (Review.status review =? "completed") = false ->
  Review.overallScore review = None.
Proof.
  intros Hwf Hin Hs. apply String.eqb_neq in Hs.
  apply score_none.
  - apply (wf_score st Hwf); auto.
  - apply (wf_unscored st Hwf); auto.
Qed.

Lemma submit_wf now caller rid body st :
  reviews_wf st -> reviews_wf (snd (Reviews.submit now caller rid body st)).
Proof.
  intros Hwf. unfold Reviews.submit.
  destruct (Reviews.evaluation body) as [ev|]; [|exact Hwf].
  destruct (negb _); [exact Hwf|].
  destruct (findById Review.id rid (reviews st)) as [review|] eqn:Hf;
    [|exact Hwf].
  apply findById_id in Hf. destruct Hf as [_ Hin].
  destruct (negb (Nat.eqb _ _)); [exact Hwf|].
  destruct (Review.status review =? "completed") eqn:Hs; [exact Hwf|].
  destruct (save_review _ _ _ _) as [st1|] eqn:Hsave; [|exact Hwf].
  cbn [snd]. eapply wf_quiet; [apply with_manuscripts_quiet|].
  eapply wf_quiet; [apply with_manuscripts_quiet|].
  refine (wf_save_review now review _ st st1 Hwf Hin _ _ _ _ Hsave);
    try reflexivity.
  - intros _. cbn [Review.overallScore].
    apply (open_review_unscored st); auto.
  - cbn [Review.status]. congruence.
Qed.

Lemma submit_evaluation_wf now caller rid body st :
  reviews_wf st ->
  reviews_wf (snd (Reviews.submit_evaluation now caller rid body st)).
Proof.
  intros Hwf. unfold Reviews.submit_evaluation.
  destruct (negb _); [exact Hwf|].
  destruct (findById Review.id rid (reviews st)) as [review|] eqn:Hf;
    [|exact Hwf].
  apply findById_id in Hf. destruct Hf as [_ Hin].
  destruct (negb (Nat.eqb _ _)); [exact Hwf|].
  destruct (Review.status review =? "completed") eqn:Hs; [exact Hwf|].
  destruct (save_review _ _ _ _) as [st1|] eqn:Hsave; [|exact Hwf].
  assert (Hwf1 : reviews_wf st1).
  { refine (wf_save_review now review _ st st1 Hwf Hin _ _ _ _ Hsave);
      try reflexivity.
    - intros _. cbn [Review.overallScore].
      apply (open_review_unscored st); auto.
    - cbn [Review.status]. congruence. }
  destruct (findById Manuscript.id _ (manuscripts st1)); [|exact Hwf1].
  destruct (Nat.eqb _ _); [|exact Hwf1].
  destruct (save_manuscript _ _ _ _) as [st2|] eqn:Hm; [|exact Hwf1].
  cbn [snd]. eapply wf_quiet; [eapply save_manuscript_quiet; eauto|].
  exact Hwf1.
Qed.

Lemma assign_one_wf now caller mid due st assigned rid :
  reviews_wf st ->
  match Reviews.assign_one now caller mid due st assigned rid with
  | Reviews.completed_ st' _ => reviews_wf st'
  | Reviews.threw st' => reviews_wf st'
  end.
Proof.
  intros Hwf. unfold Reviews.assign_one.
  destruct (findById User.id rid (users st)); [|exact Hwf].
  destruct (findOne _ (reviews st)) eqn:Hnone; [exact Hwf|].
  rewrite fresh_review_saved.
  eapply wf_quiet; [apply with_users_quiet|].
  eapply wf_quiet; [apply with_manuscripts_quiet|].
  apply wf_insert_fresh; auto.
Qed.

Lemma assign_loop_wf now caller mid due ids :
  forall st assigned,
    reviews_wf st ->
    match Reviews.assign_loop now caller mid due st assigned ids with
    | Reviews.completed_ st' _ => reviews_wf st'
    | Reviews.threw st' => reviews_wf st'
    end.
Proof.
  induction ids as [|rid ids IH]; intros st assigned Hwf; simpl; [exact Hwf|].
  pose proof (assign_one_wf now caller mid due st assigned rid Hwf) as H1.
  destruct (Reviews.assign_one _ _ _ _ _ _ _); [apply IH|]; exact H1.
Qed.

Lemma assign_wf now caller body st :
  reviews_wf st -> reviews_wf (snd (Reviews.assign now caller body st)).
Proof.
  intros Hwf. unfold Reviews.assign, Reviews.assign_run.
  destruct (negb _); [exact Hwf|].
  destruct (Reviews.manuscriptId body) as [mid|]; [|exact Hwf].
  destruct (Reviews.reviewerIds body) as [|rid ids]; [exact Hwf|].
  destruct (findById Manuscript.id mid (manuscripts st)); [|exact Hwf].
  match goal with
  | |- context [Reviews.assign_loop ?a ?b ?c ?d ?e ?f ?g] =>
    pose proof (assign_loop_wf a b c d g e f Hwf) as Hloop;
    destruct (Reviews.assign_loop a b c d e f g) as [st' assigned|st']
  end; cbn [fst snd]; [|exact Hloop].
  destruct assigned; [exact Hloop|].
  eapply wf_quiet; [apply with_manuscripts_quiet|exact Hloop].
Qed.

Lemma step_wf (st st' : Store) : step st st' -> reviews_wf st -> reviews_wf st'.
Proof.
  intros Hstep Hwf. destruct Hstep.
  - apply assign_wf; auto.
  - apply accept_wf; auto.
  - apply decline_wf; auto.
  - apply submit_wf; auto.
  - apply submit_evaluation_wf; auto.
  - eapply wf_quiet; [apply make_decision_quiet|auto].
  - eapply wf_quiet; [apply publish_quiet|auto].
  - eapply wf_quiet; [apply submit_back_quiet|auto].
  - eapply wf_quiet; [apply initiate_quiet|auto].
  - eapply wf_quiet; [apply verify_quiet|auto].
  - rewrite webhook_keeps_store. exact Hwf.
  - eapply wf_quiet; [split; eauto|auto].
Qed.

Lemma reachable_wf (st : Store) : reachable st -> reviews_wf st.
Proof.
  induction 1 as [st Hnil|st st' _ IH Hstep].
  - constructor; rewrite Hnil; simpl; try constructor; tauto.
  - eapply step_wf; eauto.
Qed.



(** ** Assignment *)











(** * Further properties *)

(** ** Saving manuscripts *)

Lemma In_findById {D : Type} (oid : D -> ObjectId) (c : list D) (d : D) :
  In d c -> findById oid (oid d) c <> None.
Proof.
  unfold findById. intros Hin H.
  apply (find_none _ _ H) in Hin. rewrite Nat.eqb_refl in Hin. discriminate.
Qed.

(** What a successful save leaves: the document after the hook under its
    id, every other collection as it was. *)
Lemma saved_manuscript (now : Date) (orig m : Manuscript.t) (st st' : Store) :
  save_manuscript now orig m st = Some st' ->
  manuscript_at (Manuscript.id m) st <> None ->
  manuscript_at (Manuscript.id m) st' = Some (Manuscript.pre_save now orig m)
  /\ reviews st' = reviews st /\ payments st' = payments st
  /\ users st' = users st /\ next_oid st' = next_oid st.
Proof.
  unfold save_manuscript, manuscript_at.
  destruct (Manuscript.validate m); [|discriminate].
  intros H Hfound. inversion H; subst; clear H.
  cbn [manuscripts reviews payments users next_oid with_manuscripts].
  repeat split.
  rewrite <- (manuscript_pre_save_id now orig m) at 1.
  rewrite findById_saved, manuscript_pre_save_id.
  destruct (findById Manuscript.id (Manuscript.id m) (manuscripts st));
    [reflexivity|congruence].
Qed.

(** The hook only stamps [lastModified] unless the status has just become
    'submitted'. *)
Lemma pre_save_plain (now : Date) (orig m : Manuscript.t) :
  Js.equals (Manuscript.status m) "submitted" = false ->
  Manuscript.pre_save now orig m = Manuscript.set_lastModified now m.
Proof.
  intros H. unfold Manuscript.pre_save. rewrite H.
  rewrite andb_false_r. reflexivity.
Qed.



(** Two manuscripts with the same fields are the same. *)
Lemma manuscript_ext (a b : Manuscript.t) :
  Manuscript.id a = Manuscript.id b ->
  Manuscript.submittedBy a = Manuscript.submittedBy b ->
  Manuscript.status a = Manuscript.status b ->
  Manuscript.editorDecision a = Manuscript.editorDecision b ->
  Manuscript.revisionDeadline a = Manuscript.revisionDeadline b ->
  Manuscript.publicationDetails a = Manuscript.publicationDetails b ->
  Manuscript.paymentCompleted a = Manuscript.paymentCompleted b ->
  Manuscript.paymentReference a = Manuscript.paymentReference b ->
  Manuscript.submissionDate a = Manuscript.submissionDate b ->
  Manuscript.lastModified a = Manuscript.lastModified b ->
  Manuscript.reviewAssignments a = Manuscript.reviewAssignments b ->
  Manuscript.reviews a = Manuscript.reviews b ->
  Manuscript.editorNotes a = Manuscript.editorNotes b ->
  a = b.
Proof. destruct a, b. simpl. intros. subst. reflexivity. Qed.

Ltac manuscript_fields :=
  cbn [Manuscript.id Manuscript.submittedBy Manuscript.status
       Manuscript.editorDecision Manuscript.revisionDeadline
       Manuscript.publicationDetails Manuscript.paymentCompleted
       Manuscript.paymentReference Manuscript.submissionDate
       Manuscript.lastModified Manuscript.reviewAssignments
       Manuscript.reviews Manuscript.editorNotes
       Manuscript.set_lastModified Manuscript.set_editorDecision
       Manuscript.set_status Manuscript.set_revisionDeadline
       Manuscript.set_publicationDetails Manuscript.set_submissionDate
       Manuscript.set_paymentCompleted Manuscript.set_paymentReference
       Manuscript.push_note set_editorNotes].


(** ** Editorial decisions, continued *)


(** X1. For a decision the schema knows, make-decision answers 200 exactly
    when the caller is an editor or admin, the manuscript exists and no
    Review of it has status 'pending' or 'accepted'; nothing else is asked,
    neither of the manuscript's status nor of the number of Reviews. *)
Theorem make_decision_succeeds_iff :
  forall (now : Date) (caller : Caller) (mid : ObjectId)
         (body : Editorial.DecisionBody) (st : Store) (d : string),
    Editorial.decision body = Some d ->
    Js.elem d Manuscript.decision_enum = true ->
    (succeeded (fst (Editorial.make_decision now caller mid body st))
     <-> authorize ["editor"; "admin"] caller = true
         /\ manuscript_at mid st <> None
         /\ forall r, In r (reviews st) -> Review.manuscript r = mid ->
              Review.status r <> "pending" /\ Review.status r <> "accepted").
Proof.
  intros now caller mid body st d Hd Hk. rewrite <- pendingReviews_zero.
  split.
  - unfold succeeded, Editorial.make_decision, manuscript_at.
    destruct (authorize _ caller); [|discriminate].
    destruct (findById Manuscript.id mid (manuscripts st)); [|discriminate].
    destruct (Editorial.pendingReviews mid st); [|discriminate].
    intros _. repeat split. discriminate.
  - intros (Hauth & Hm & Hp). unfold manuscript_at in Hm.
    destruct (findById Manuscript.id mid (manuscripts st)) as [m|] eqn:E;
      [|congruence].
    apply (make_decision_goes_through now caller mid body st m d); auto.
Qed.

Lemma make_decision_succeeds_iff_witness :
  succeeded (fst (Editorial.make_decision 5%Z Sample.editor 10
                    Sample.accept_body Sample.unassigned)).
Proof.
  apply (make_decision_succeeds_iff 5%Z Sample.editor 10 Sample.accept_body
           Sample.unassigned "accept" eq_refl eq_refl).
  split; [reflexivity|]. split; [vm_compute; discriminate|].
  intros r [].
Defined.


(** X3. make-decision, publish, initial-review and the status route write
    nothing unless they answer 200. *)
Theorem editorial_requests_are_atomic :
  forall (now : Date) (caller : Caller) (mid : ObjectId) (st : Store),
    (forall body,
       succeeded (fst (Editorial.make_decision now caller mid body st))
       \/ snd (Editorial.make_decision now caller mid body st) = st)
    /\ (forall body,
          succeeded (fst (Editorial.publish now caller mid body st))
          \/ snd (Editorial.publish now caller mid body st) = st)
    /\ (forall body,
          succeeded (fst (Editorial.initial_review now caller mid body st))
          \/ snd (Editorial.initial_review now caller mid body st) = st)
    /\ (forall status,
          succeeded (fst (Manuscripts.update_status now caller mid status st))
          \/ snd (Manuscripts.update_status now caller mid status st) = st).
Proof.
  intros now caller mid st. repeat split; intros x.
  - unfold Editorial.make_decision.
    split_handler; ((right; reflexivity) || (left; reflexivity)).
  - unfold Editorial.publish.
    split_handler; ((right; reflexivity) || (left; reflexivity)).
  - unfold Editorial.initial_review.
    split_handler; ((right; reflexivity) || (left; reflexivity)).
  - unfold Manuscripts.update_status.
    split_handler; ((right; reflexivity) || (left; reflexivity)).
Qed.

Lemma stored_decision_valid (m : Manuscript.t) :
  Manuscript.validate m = true ->
  match Manuscript.editorDecision m with
  | Some d => Js.elem (Manuscript.decision d) Manuscript.decision_enum
  | None => true
  end = true.
Proof.
  unfold Manuscript.validate. intros H.
  apply andb_true_iff in H. tauto.
Qed.



(** ** Initial review *)



(** X6. initial-review does not check its decision: any other value (or
    none) is answered 200 "Manuscript rejected" and the manuscript is saved
    without a status, which the enum validator lets through. *)
Theorem initial_review_unknown_decision :
  forall (now : Date) (caller : Caller) (mid : ObjectId)
         (body : Editorial.InitialReviewBody) (st : Store) (m : Manuscript.t),
    authorize ["editor"; "admin"] caller = true ->
    manuscript_at mid st = Some m ->
    Manuscript.status m = Js.str "submitted" ->
    Manuscript.validate m = true ->
    Editorial.ir_decision body <> Some "send-for-review" ->
    Editorial.ir_decision body <> Some "desk-reject" ->
    fst (Editorial.initial_review now caller mid body st)
    = json 200 "Manuscript rejected"
    /\ manuscript_at mid (snd (Editorial.initial_review now caller mid body st))
       = Some (Manuscript.set_lastModified now
                 (Manuscript.set_status Js.undefined m)).
Proof.
  intros now caller mid body st m Hauth Hm Hs Hv Hn1 Hn2.
  unfold manuscript_at in Hm.
  destruct (findById_id Manuscript.id _ _ _ Hm) as [Hid _].
  assert (E1 : Js.opt_eqb (Editorial.ir_decision body) (Some "send-for-review")
               = false).
  { destruct (Editorial.ir_decision body) as [d|]; [|reflexivity].
    simpl. apply String.eqb_neq. congruence. }
  assert (E2 : Js.opt_eqb (Editorial.ir_decision body) (Some "desk-reject")
               = false).
  { destruct (Editorial.ir_decision body) as [d|]; [|reflexivity].
    simpl. apply String.eqb_neq. congruence. }
  unfold Editorial.initial_review. rewrite Hauth, Hm, Hs, E1, E2.
  cbn [negb Js.equals String.eqb Ascii.eqb Bool.eqb].
  set (m4 := Manuscript.set_status Js.undefined m).
  assert (Hv4 : Manuscript.validate m4 = true).
  { unfold Manuscript.validate. subst m4. manuscript_fields.
    rewrite (stored_decision_valid m Hv). reflexivity. }
  destruct (save_manuscript now m m4 st) as [st'|] eqn:Hsave.
  2:{ unfold save_manuscript in Hsave. rewrite Hv4 in Hsave. discriminate. }
  cbn [fst snd]. split; [reflexivity|].
  destruct (saved_manuscript now m m4 st st' Hsave) as (Hat & _).
  { unfold manuscript_at. change (Manuscript.id m4) with (Manuscript.id m).
    rewrite Hid, Hm. discriminate. }
  change (Manuscript.id m4) with (Manuscript.id m) in Hat.
  rewrite Hid in Hat. rewrite Hat, pre_save_plain by reflexivity. reflexivity.
Qed.

Lemma initial_review_unknown_decision_witness :
  fst (Editorial.initial_review 4%Z Sample.editor 10 Cases.approve
         Sample.unassigned)
  = json 200 "Manuscript rejected"
  /\ status_of 10 (snd (Editorial.initial_review 4%Z Sample.editor 10
                          Cases.approve Sample.unassigned))
     = Some Js.undefined.
Proof.
  destruct (initial_review_unknown_decision 4%Z Sample.editor 10 Cases.approve
              Sample.unassigned (Sample.manuscript "submitted" false [])
              eq_refl eq_refl eq_refl eq_refl)
    as (H1 & H2); [discriminate|discriminate|].
  split; [exact H1|].
  unfold status_of. unfold manuscript_at in H2. rewrite H2. reflexivity.
Defined.

Lemma initial_review_leaves_status now caller mid body st :
  succeeded (fst (Editorial.initial_review now caller mid body st)) ->
  exists m',
    manuscript_at mid (snd (Editorial.initial_review now caller mid body st))
    = Some m'
    /\ Js.equals (Manuscript.status m') "submitted" = false.
Proof.
  unfold succeeded, Editorial.initial_review.
  destruct (authorize _ caller); [|discriminate]. cbn [negb].
  destruct (findById Manuscript.id mid (manuscripts st)) as [m|] eqn:Hm;
    [|discriminate].
  destruct (findById_id Manuscript.id _ _ _ Hm) as [Hid _].
  destruct (Js.equals (Manuscript.status m) "submitted"); [|discriminate].
  cbn [negb].
  assert (Hgen : forall m4 (res : Response),
            Manuscript.id m4 = mid ->
            Js.equals (Manuscript.status m4) "submitted" = false ->
            succeeded
              (fst (match save_manuscript now m m4 st with
                    | Some st' => (res, st')
                    | None =>
                      (json 500 "Server error processing initial review", st)
                    end)) ->
            exists m',
              manuscript_at mid
                (snd (match save_manuscript now m m4 st with
                      | Some st' => (res, st')
                      | None =>
                        (json 500 "Server error processing initial review", st)
                      end)) = Some m'
              /\ Js.equals (Manuscript.status m') "submitted" = false).
  { intros m4 res Hid4 Hns.
    destruct (save_manuscript now m m4 st) as [st'|] eqn:Hsave;
      [|discriminate].
    intros _. cbn [snd].
    destruct (saved_manuscript now m m4 st st' Hsave) as (Hat & _).
    { unfold manuscript_at. rewrite Hid4, Hm. discriminate. }
    rewrite Hid4 in Hat. eexists. split; [exact Hat|].
    rewrite manuscript_pre_save_status. exact Hns. }
  destruct (Js.opt_eqb (Editorial.ir_decision body) (Some "send-for-review"));
    [|destruct (Js.opt_eqb (Editorial.ir_decision body) (Some "desk-reject"))];
    apply Hgen; try reflexivity;
    cbn [Manuscript.id Manuscript.set_status];
    try (destruct (_ && _); cbn [Manuscript.id Manuscript.push_note];
         rewrite !note_when_id; exact Hid).
  exact Hid.
Qed.

(** X7. After an initial-review that went through, the manuscript is no
    longer 'submitted': a second initial-review is refused with 400 and
    writes nothing, whoever asks and whatever is asked. *)
Theorem initial_review_once :
  forall (now now' : Date) (caller caller' : Caller) (mid : ObjectId)
         (body body' : Editorial.InitialReviewBody) (st : Store),
    succeeded (fst (Editorial.initial_review now caller mid body st)) ->
    authorize ["editor"; "admin"] caller' = true ->
    Editorial.initial_review now' caller' mid body'
      (snd (Editorial.initial_review now caller mid body st))
    = (json 400 "Manuscript must be in submitted status for initial review",
       snd (Editorial.initial_review now caller mid body st)).
Proof.
  intros now now' caller caller' mid body body' st Hok Hauth.
  destruct (initial_review_leaves_status now caller mid body st Hok)
    as (m' & Hat & Hns).
  unfold manuscript_at in Hat.
  unfold Editorial.initial_review at 1. rewrite Hauth, Hat, Hns. reflexivity.
Qed.

Lemma initial_review_once_witness :
  Editorial.initial_review 5%Z Sample.editor 10 Cases.send_for_review
    (snd (Editorial.initial_review 4%Z Sample.editor 10 Cases.send_for_review
            Sample.unassigned))
  = (json 400 "Manuscript must be in submitted status for initial review",
     snd (Editorial.initial_review 4%Z Sample.editor 10 Cases.send_for_review
            Sample.unassigned)).
Proof.
  apply (initial_review_once 4%Z 5%Z Sample.editor Sample.editor 10
           Cases.send_for_review Cases.send_for_review Sample.unassigned);
    reflexivity.
Defined.

(** ** The status route *)

Lemma valid_status_in_enum (s : string) :
  Js.elem s Manuscripts.validStatuses = true ->
  Js.elem s Manuscript.status_enum = true.
Proof.
  unfold Manuscripts.validStatuses, Manuscript.status_enum, Js.elem. simpl.
  rewrite !orb_true_iff. intuition auto.
Qed.

(** X8. The status route puts a manuscript into any of its nine statuses
    from any status: it stores the status, stamps lastModified, sets the
    submission date when the new status is 'submitted' and none was set, and
    changes nothing else. No review, decision or payment is looked at. *)
Theorem update_status_records :
  forall (now : Date) (caller : Caller) (mid : ObjectId) (s : string)
         (st : Store) (m : Manuscript.t),
    authorize ["editor"; "admin"] caller = true ->
    Js.elem s Manuscripts.validStatuses = true ->
    manuscript_at mid st = Some m ->
    Manuscript.validate m = true ->
    succeeded (fst (Manuscripts.update_status now caller mid (Some s) st))
    /\ manuscript_at mid
         (snd (Manuscripts.update_status now caller mid (Some s) st))
       = Some
           (Manuscript.mk (Manuscript.id m) (Manuscript.submittedBy m)
              (Js.str s) (Manuscript.editorDecision m)
              (Manuscript.revisionDeadline m) (Manuscript.publicationDetails m)
              (Manuscript.paymentCompleted m) (Manuscript.paymentReference m)
              (match Manuscript.submissionDate m with
               | Some x => Some x
               | None => if s =? "submitted" then Some now else None
               end)
              now (Manuscript.reviewAssignments m) (Manuscript.reviews m)
              (Manuscript.editorNotes m)).
Proof.
  intros now caller mid s st m Hauth Hs Hm Hv. unfold manuscript_at in Hm.
  destruct (findById_id Manuscript.id _ _ _ Hm) as [Hid _].
  assert (Hsaved : forall m3,
             Manuscript.id m3 = mid ->
             Manuscript.status m3 = Js.str s ->
             Manuscript.editorDecision m3 = Manuscript.editorDecision m ->
             exists st',
               save_manuscript now m m3 st = Some st'
               /\ manuscript_at mid st' = Some (Manuscript.pre_save now m m3)).
  { intros m3 Hid3 Hst3 Hed3.
    assert (Hv3 : Manuscript.validate m3 = true).
    { unfold Manuscript.validate. rewrite Hst3, Hed3.
      cbn [Manuscript.enum_ok].
      rewrite (valid_status_in_enum s Hs), (stored_decision_valid m Hv).
      reflexivity. }
    destruct (save_manuscript now m m3 st) as [st'|] eqn:Hsave.
    2:{ unfold save_manuscript in Hsave. rewrite Hv3 in Hsave. discriminate. }
    exists st'. split; [reflexivity|].
    destruct (saved_manuscript now m m3 st st' Hsave) as (Hat & _).
    { unfold manuscript_at. rewrite Hid3, Hm. discriminate. }
    rewrite Hid3 in Hat. exact Hat. }
  unfold Manuscripts.update_status, succeeded. rewrite Hauth, Hs, Hm.
  cbn [negb].
  change (Manuscript.submissionDate
            (Manuscript.set_lastModified now
               (Manuscript.set_status (Js.str s) m)))
    with (Manuscript.submissionDate m).
  destruct (s =? "submitted") eqn:E;
    destruct (Manuscript.submissionDate m) eqn:D; cbn [andb];
    match goal with
    | |- context [save_manuscript now m ?x st] =>
      destruct (Hsaved x) as (st' & Hsave & Hat);
        [exact Hid|reflexivity|reflexivity|]
    end;
    rewrite Hsave; cbn [fst snd]; (split; [reflexivity|]);
    rewrite Hat; f_equal; unfold Manuscript.pre_save;
    manuscript_fields; cbn [Js.equals]; rewrite ?E, ?D, ?andb_false_r;
    cbn [andb]; apply manuscript_ext; try reflexivity; exact D.
Qed.

Lemma update_status_records_witness :
  status_of 10 (snd (Manuscripts.update_status 5%Z Sample.editor 10
                       (Some "published") Sample.unassigned))
  = Some (Js.str "published").
Proof.
  destruct (update_status_records 5%Z Sample.editor 10 "published"
              Sample.unassigned (Sample.manuscript "submitted" false [])
              eq_refl eq_refl eq_refl eq_refl) as (_ & H).
  unfold status_of. unfold manuscript_at in H. rewrite H. reflexivity.
Defined.

(** X9. The statuses the status route takes are those of the schema's enum
    except 'awaiting-reviewer-assignment': for an editor or admin the answer
    is 400 "Invalid status provided" exactly for a status outside the enum
    and for that one. *)
Theorem status_route_statuses :
  forall (now : Date) (caller : Caller) (mid : ObjectId) (s : string)
         (st : Store),
    authorize ["editor"; "admin"] caller = true ->
    (fst (Manuscripts.update_status now caller mid (Some s) st)
     = json 400 "Invalid status provided"
     <-> Js.elem s Manuscript.status_enum = false
         \/ s = "awaiting-reviewer-assignment").
Proof.
  intros now caller mid s st Hauth.
  unfold Manuscripts.update_status. rewrite Hauth. cbn [negb].
  assert (Hlists : Js.elem s Manuscripts.validStatuses = false
                   <-> Js.elem s Manuscript.status_enum = false
                       \/ s = "awaiting-reviewer-assignment").
  { unfold Manuscripts.validStatuses, Manuscript.status_enum, Js.elem.
    cbn [existsb].
    destruct (String.eqb_spec s "awaiting-reviewer-assignment") as [E|E].
    - subst s. split; [auto|reflexivity].
    - rewrite !orb_false_r. cbn [orb].
      split; [intros H; left|intros [H|H]; [|contradiction]];
        repeat match goal with
               | H : _ || _ = false |- _ =>
                 apply orb_false_iff in H; destruct H
               end;
        repeat match goal with
               | H : ?x = false |- context [?x] => rewrite H
               end; reflexivity. }
  destruct (Js.elem s Manuscripts.validStatuses) eqn:E; cbn [negb].
  - split.
    + destruct (findById Manuscript.id mid (manuscripts st)); [|discriminate].
      destruct (save_manuscript _ _ _ _); discriminate.
    + intros H. apply Hlists in H. discriminate.
  - split; [intros _; apply Hlists|]; reflexivity.
Qed.

Lemma status_route_statuses_witness :
  fst (Manuscripts.update_status 5%Z Sample.editor 10
         (Some "awaiting-reviewer-assignment") Sample.unassigned)
  = json 400 "Invalid status provided".
Proof.
  apply (status_route_statuses 5%Z Sample.editor 10
           "awaiting-reviewer-assignment" Sample.unassigned eq_refl).
  right. reflexivity.
Defined.


(** ** Reviews, continued *)

Lemma NoDup_map_inj_in {A B : Type} (f : A -> B) (l : list A) (a b : A) :
  NoDup (map f l) -> In a l -> In b l -> f a = f b -> a = b.
Proof.
  induction l as [|x l IH]; simpl; [tauto|].
  intros Hnd [Ha|Ha] [Hb|Hb] Hf; subst; auto; inversion Hnd; subst.
  - exfalso. apply H1. rewrite Hf. apply in_map. exact Hb.
  - exfalso. apply H1. rewrite <- Hf. apply in_map. exact Ha.
  - auto.
Qed.

(** Rewriting one document leaves every other document where it is. *)
Lemma updateById_other {D : Type} (oid : D -> ObjectId) (c : list D)
  (orig new r : D) :
  NoDup (map oid c) -> In orig c -> In r c -> r <> orig ->
  oid new = oid orig ->
  In r (updateById oid new c).
Proof.
  intros Hnd Ho Hr Hne Hid. unfold updateById. apply in_map_iff.
  exists r. split; [|exact Hr].
  destruct (Nat.eqb (oid r) (oid new)) eqn:E; [|reflexivity].
  apply Nat.eqb_eq in E. exfalso. apply Hne.
  apply (NoDup_map_inj_in oid c); congruence.
Qed.

Lemma save_review_other (now : Date) (orig new r : Review.t) (st st' : Store) :
  NoDup (map Review.id (reviews st)) ->
  In orig (reviews st) -> In r (reviews st) -> r <> orig ->
  Review.id new = Review.id orig ->
  save_review now orig new st = Some st' ->
  In r (reviews st').
Proof.
  intros Hnd Ho Hr Hne Hid. unfold save_review.
  destruct (Review.validate new); [|discriminate].
  intros H; inversion H; subst; clear H. cbn [reviews with_reviews].
  apply (updateById_other Review.id _ orig); auto.
  rewrite pre_save_id. exact Hid.
Qed.

Lemma assign_one_grows now caller mid due st assigned x r :
  In r (reviews st) ->
  match Reviews.assign_one now caller mid due st assigned x with
  | Reviews.completed_ st' _ => In r (reviews st')
  | Reviews.threw st' => In r (reviews st')
  end.
Proof.
  intros Hin. unfold Reviews.assign_one.
  destruct (findById User.id x (users st)); [|exact Hin].
  destruct (findOne _ (reviews st)); [exact Hin|].
  rewrite fresh_review_saved. cbn [reviews with_users with_manuscripts].
  unfold insert. apply in_app_iff. left. exact Hin.
Qed.

Lemma assign_loop_grows now caller mid due ids r :
  forall st assigned,
    In r (reviews st) ->
    match Reviews.assign_loop now caller mid due st assigned ids with
    | Reviews.completed_ st' _ => In r (reviews st')
    | Reviews.threw st' => In r (reviews st')
    end.
Proof.
  induction ids as [|x ids IH]; intros st assigned Hin; simpl; [exact Hin|].
  pose proof (assign_one_grows now caller mid due st assigned x r Hin) as H1.
  destruct (Reviews.assign_one _ _ _ _ _ _ _); [apply IH|]; exact H1.
Qed.

Lemma quiet_keeps_review (st st' : Store) (r : Review.t) :
  quiet st st' -> In r (reviews st) -> In r (reviews st').
Proof. intros [H _] Hin. rewrite H. exact Hin. Qed.

(** X10. A completed Review is final: in every reachable store, whatever
    request is served next, a Review with status 'completed' is still in the
    collection, unchanged. *)
Theorem completed_review_is_final :
  forall (st st' : Store) (r : Review.t),
    reachable st ->
    step st st' ->
    In r (reviews st) ->
    Review.status r = "completed" ->
    In r (reviews st').
Proof.
  intros st st' r Hreach Hstep Hin Hdone.
  pose proof (wf_ids st (reachable_wf st Hreach)) as Hnd.
  destruct Hstep.
  - (* assign *)
    unfold Reviews.assign, Reviews.assign_run.
    destruct (negb _); [exact Hin|].
    destruct (Reviews.manuscriptId body) as [mid|]; [|exact Hin].
    destruct (Reviews.reviewerIds body) as [|x ids]; [exact Hin|].
    destruct (findById Manuscript.id mid (manuscripts st)); [|exact Hin].
    match goal with
    | |- context [Reviews.assign_loop ?a ?b ?c ?d ?e ?f ?g] =>
      pose proof (assign_loop_grows a b c d g r e f Hin) as Hloop;
      destruct (Reviews.assign_loop a b c d e f g) as [s1 assigned|s1]
    end; cbn [fst snd]; [|exact Hloop].
    destruct assigned; exact Hloop.
  - (* accept *)
    unfold Reviews.accept.
    destruct (findById Review.id rid (reviews st)) as [review|] eqn:Hf;
      [|exact Hin].
    destruct (findById_id Review.id _ _ _ Hf) as [_ Hrev].
    destruct (negb (Nat.eqb _ _)); [exact Hin|].
    destruct (negb (Review.status review =? "pending")) eqn:Hs; [exact Hin|].
    apply negb_false_iff, String.eqb_eq in Hs.
    destruct (save_review _ _ _ _) as [st1|] eqn:Hsave; [|exact Hin].
    cbn [snd reviews with_manuscripts].
    refine (save_review_other now review _ r st st1 Hnd Hrev Hin _ _ Hsave);
      [|reflexivity].
    intros E. subst. rewrite Hdone in Hs. discriminate.
  - (* decline *)
    unfold Reviews.decline.
    destruct (findById Review.id rid (reviews st)) as [review|] eqn:Hf;
      [|exact Hin].
    destruct (findById_id Review.id _ _ _ Hf) as [Hid Hrev].
    destruct (negb (Nat.eqb _ _)); [exact Hin|].
    destruct (negb (Review.status review =? "pending")) eqn:Hs; [exact Hin|].
    apply negb_false_iff, String.eqb_eq in Hs.
    cbn [snd reviews with_users with_manuscripts with_reviews].
    unfold deleteById. apply filter_In. split; [exact Hin|].
    apply negb_true_iff, Nat.eqb_neq. intros E.
    assert (r = review)
      by (apply (NoDup_map_inj_in Review.id (reviews st)); congruence).
    subst. rewrite Hdone in Hs. discriminate.
  - (* submit *)
    unfold Reviews.submit.
    destruct (Reviews.evaluation body); [|exact Hin].
    destruct (negb _); [exact Hin|].
    destruct (findById Review.id rid (reviews st)) as [review|] eqn:Hf;
      [|exact Hin].
    destruct (findById_id Review.id _ _ _ Hf) as [_ Hrev].
    destruct (negb (Nat.eqb _ _)); [exact Hin|].
    destruct (Review.status review =? "completed") eqn:Hs; [exact Hin|].
    apply String.eqb_neq in Hs.
    destruct (save_review _ _ _ _) as [st1|] eqn:Hsave; [|exact Hin].
    cbn [snd reviews with_manuscripts].
    refine (save_review_other now review _ r st st1 Hnd Hrev Hin _ _ Hsave);
      [|reflexivity].
    intros E. subst. contradiction.
  - (* submit_evaluation *)
    unfold Reviews.submit_evaluation.
    destruct (negb _); [exact Hin|].
    destruct (findById Review.id rid (reviews st)) as [review|] eqn:Hf;
      [|exact Hin].
    destruct (findById_id Review.id _ _ _ Hf) as [_ Hrev].
    destruct (negb (Nat.eqb _ _)); [exact Hin|].
    destruct (Review.status review =? "completed") eqn:Hs; [exact Hin|].
    apply String.eqb_neq in Hs.
    destruct (save_review _ _ _ _) as [st1|] eqn:Hsave; [|exact Hin].
    assert (H1 : In r (reviews st1)).
    { refine (save_review_other now review _ r st st1 Hnd Hrev Hin _ _ Hsave);
        [|reflexivity].
      intros E. subst. contradiction. }
    destruct (findById Manuscript.id _ (manuscripts st1)); [|exact H1].
    destruct (Nat.eqb _ _); [|exact H1].
    destruct (save_manuscript _ _ _ _) as [st2|] eqn:Hm; [|exact H1].
    cbn [snd].
    apply (quiet_keeps_review st1 st2); [|exact H1].
    eapply save_manuscript_quiet; eauto.
  - apply (quiet_keeps_review st); [apply make_decision_quiet|exact Hin].
  - apply (quiet_keeps_review st); [apply publish_quiet|exact Hin].
  - apply (quiet_keeps_review st); [apply submit_back_quiet|exact Hin].
  - apply (quiet_keeps_review st); [apply initiate_quiet|exact Hin].
  - apply (quiet_keeps_review st); [apply verify_quiet|exact Hin].
  - rewrite webhook_keeps_store. exact Hin.
  - apply (quiet_keeps_review st); [split; auto|exact Hin].
Qed.

Lemma completed_review_is_final_witness :
  In (Cases.first_review Sample.scored)
     (reviews (snd (Reviews.accept 9%Z Sample.reviewer 50 Sample.scored))).
Proof.
  apply (completed_review_is_final Sample.scored _
           (Cases.first_review Sample.scored)).
  - apply reachable_step with Sample.after_accept; [|apply step_submit].
    apply reachable_step with Sample.after_assign; [|apply step_accept].
    apply reachable_step with Sample.unassigned; [|apply step_assign].
    apply reachable_start. reflexivity.
  - apply step_accept.
  - vm_compute. left. reflexivity.
  - reflexivity.
Defined.

Lemma opt_eqb_refl (a : option string) : Js.opt_eqb a a = true.
Proof. destruct a; simpl; auto using String.eqb_refl. Qed.

(** The hook completes a Review only if it is pending and its
    recommendation has just changed. *)
Lemma pre_save_keeps_state (now : Date) (orig r : Review.t) :
  Review.recommendation r = Review.recommendation orig
  \/ Review.status r <> "pending" ->
  Review.status (Review.pre_save now orig r) = Review.status r
  /\ Review.submittedDate (Review.pre_save now orig r) = Review.submittedDate r
  /\ Review.recommendation (Review.pre_save now orig r)
     = Review.recommendation r.
Proof.
  intros H. unfold Review.pre_save.
  assert (Hc : forall r1,
             Review.recommendation r1 = Review.recommendation r ->
             Review.status r1 = Review.status r ->
             negb (Js.opt_eqb (Review.recommendation orig)
                              (Review.recommendation r1))
             && Js.truthy (Review.recommendation r1)
             && (Review.status r1 =? "pending") = false).
  { intros r1 E1 E2. rewrite E1, E2. destruct H as [H|H].
    - rewrite H, opt_eqb_refl. reflexivity.
    - apply String.eqb_neq in H. rewrite H. apply andb_false_r. }
  destruct (Review.scores (Review.evaluation r)); rewrite Hc; auto.
Qed.

(** What a successful save of a loaded Review leaves. *)
Lemma saved_review (now : Date) (orig new : Review.t) (st st' : Store) :
  save_review now orig new st = Some st' ->
  review_at (Review.id new) st <> None ->
  review_at (Review.id new) st' = Some (Review.pre_save now orig new)
  /\ manuscripts st' = manuscripts st /\ payments st' = payments st
  /\ users st' = users st /\ next_oid st' = next_oid st.
Proof.
  unfold save_review, review_at.
  destruct (Review.validate new); [|discriminate].
  intros H Hfound. inversion H; subst; clear H.
  cbn [manuscripts reviews payments users next_oid with_reviews].
  repeat split.
  rewrite <- (pre_save_id now orig new) at 1.
  rewrite findById_saved, pre_save_id.
  destruct (findById Review.id (Review.id new) (reviews st));
    [reflexivity|congruence].
Qed.

(** X11. accept answers 200 only to the reviewer of a pending Review and
    stores it as 'in-progress' for the same manuscript and reviewer; after
    that the same reviewer can neither accept again nor decline: both are
    refused with 400 and write nothing. *)
Theorem accept_once :
  forall (now : Date) (caller : Caller) (rid : ObjectId) (st : Store),
    succeeded (fst (Reviews.accept now caller rid st)) ->
    (exists review r',
       review_at rid st = Some review
       /\ Review.status review = "pending"
       /\ Review.reviewer review = caller_id caller
       /\ review_at rid (snd (Reviews.accept now caller rid st)) = Some r'
       /\ Review.status r' = "in-progress"
       /\ pair_of r' = pair_of review)
    /\ (forall now',
          Reviews.accept now' caller rid (snd (Reviews.accept now caller rid st))
          = (json 400 "Review assignment cannot be accepted in current status",
             snd (Reviews.accept now caller rid st)))
    /\ Reviews.decline caller rid (snd (Reviews.accept now caller rid st))
       = (json 400 "Review assignment cannot be declined in current status",
          snd (Reviews.accept now caller rid st)).
Proof.
  intros now caller rid st Hok.
  destruct (Reviews.accept now caller rid st) as [res st'] eqn:Hacc.
  cbn [fst snd] in *. unfold succeeded in Hok. unfold Reviews.accept in Hacc.
  destruct (findById Review.id rid (reviews st)) as [review|] eqn:Hf;
    [|inversion Hacc; subst; discriminate].
  destruct (findById_id Review.id _ _ _ Hf) as [Hid _].
  destruct (negb (Nat.eqb _ _)) eqn:Hrev;
    [inversion Hacc; subst; discriminate|].
  destruct (negb (Review.status review =? "pending")) eqn:Hs;
    [inversion Hacc; subst; discriminate|].
  apply negb_false_iff, String.eqb_eq in Hs.
  destruct (save_review _ _ _ _) as [st1|] eqn:Hsave;
    [|inversion Hacc; subst; discriminate].
  injection Hacc as Hres Hst'.
  destruct (saved_review now review _ st st1 Hsave) as (Hat & _).
  { unfold review_at. cbn [Review.id Review.set_status]. rewrite Hid, Hf.
    discriminate. }
  cbn [Review.id Review.set_status] in Hat. rewrite Hid in Hat.
  destruct (pre_save_keeps_state now review
              (Review.set_status "in-progress" review) (or_introl eq_refl))
    as (Hst & _ & _).
  set (r' := Review.pre_save now review
               (Review.set_status "in-progress" review)) in *.
  assert (Hpair : pair_of r' = pair_of review)
    by (subst r'; rewrite pre_save_pair; reflexivity).
  assert (Hlook : findById Review.id rid (reviews st') = Some r')
    by (rewrite <- Hst'; exact Hat).
  assert (Hrev' : negb (Nat.eqb (Review.reviewer r') (caller_id caller))
                  = false).
  { inversion Hpair as [[Hm Hr]]. rewrite Hr. exact Hrev. }
  split; [|split].
  - exists review, r'. repeat split; auto.
    apply negb_false_iff, Nat.eqb_eq in Hrev. exact Hrev.
  - intros now'. unfold Reviews.accept. rewrite Hlook, Hrev', Hst.
    reflexivity.
  - unfold Reviews.decline. rewrite Hlook, Hrev', Hst. reflexivity.
Qed.

Lemma accept_once_witness :
  Reviews.decline Sample.reviewer 50 Sample.after_accept
  = (json 400 "Review assignment cannot be declined in current status",
     Sample.after_accept).
Proof.
  exact (proj2 (proj2 (accept_once 2%Z Sample.reviewer 50 Sample.after_assign
                         eq_refl))).
Defined.

Lemma filter_pulled (rid : ObjectId) (l : list Manuscript.Assignment) :
  filter (fun a => Nat.eqb (Manuscript.reviewer a) rid)
         (filter (fun a => negb (Nat.eqb (Manuscript.reviewer a) rid)) l)
  = [].
Proof.
  induction l as [|a l IH]; simpl; [reflexivity|].
  destruct (Nat.eqb (Manuscript.reviewer a) rid) eqn:E; simpl; auto.
  rewrite E. exact IH.
Qed.

(** X12. decline answers 200 only for a pending Review; it deletes the
    Review and every mirror entry of the reviewer on the manuscript, so that
    (pairs being unique) assign finds no Review for the pair any more, and a
    second decline is answered 404. *)
Theorem decline_frees_the_pair :
  forall (caller : Caller) (rid : ObjectId) (st : Store),
    succeeded (fst (Reviews.decline caller rid st)) ->
    exists review,
      review_at rid st = Some review
      /\ Review.status review = "pending"
      /\ review_at rid (snd (Reviews.decline caller rid st)) = None
      /\ mirror_entries (Review.manuscript review) (Review.reviewer review)
           (snd (Reviews.decline caller rid st))
         = option_map (fun _ => [])
             (mirror_entries (Review.manuscript review)
                (Review.reviewer review) st)
      /\ (NoDup (map pair_of (reviews st)) ->
          findOne (Reviews.pair_query (Review.manuscript review)
                                      (Review.reviewer review))
                  (reviews (snd (Reviews.decline caller rid st))) = None)
      /\ fst (Reviews.decline caller rid (snd (Reviews.decline caller rid st)))
         = json 404 "Review assignment not found".
Proof.
  intros caller rid st Hok.
  destruct (Reviews.decline caller rid st) as [res st'] eqn:Hdec.
  cbn [fst snd] in *. unfold succeeded in Hok. unfold Reviews.decline in Hdec.
  destruct (findById Review.id rid (reviews st)) as [review|] eqn:Hf;
    [|inversion Hdec; subst; discriminate].
  destruct (findById_id Review.id _ _ _ Hf) as [Hid Hin].
  destruct (negb (Nat.eqb _ _));
    [inversion Hdec; subst; discriminate|].
  destruct (negb (Review.status review =? "pending")) eqn:Hs;
    [inversion Hdec; subst; discriminate|].
  apply negb_false_iff, String.eqb_eq in Hs.
  injection Hdec as Hres Hst'.
  assert (Hrs : reviews st' = deleteById Review.id rid (reviews st))
    by (rewrite <- Hst'; reflexivity).
  assert (Hgone : findById Review.id rid (reviews st') = None).
  { rewrite Hrs. unfold findById, deleteById.
    destruct (find _ (filter _ _)) as [x|] eqn:F; [|reflexivity].
    apply find_some in F. destruct F as [F1 F2].
    apply filter_In in F1. destruct F1 as [_ F1].
    rewrite F2 in F1. discriminate. }
  exists review. split; [exact Hf|]. split; [exact Hs|].
  split; [exact Hgone|]. split; [|split].
  - unfold mirror_entries. rewrite <- Hst'.
    cbn [manuscripts with_users with_manuscripts with_reviews].
    rewrite findById_update by reflexivity.
    destruct (findById Manuscript.id _ (manuscripts st)); [|reflexivity].
    cbn [option_map Reviews.pull_assignment Manuscript.reviewAssignments
         Manuscript.set_reviewAssignments].
    rewrite filter_pulled. reflexivity.
  - intros Hnd. rewrite Hrs.
    unfold findOne, deleteById.
    destruct (find _ (filter _ _)) as [x|] eqn:F; [|reflexivity].
    apply find_some in F. destruct F as [F1 F2].
    apply filter_In in F1. destruct F1 as [F0 F1].
    apply pair_query_spec in F2.
    assert (x = review)
      by (apply (NoDup_map_inj_in pair_of (reviews st)); auto).
    subst x. rewrite Hid, Nat.eqb_refl in F1. discriminate.
  - unfold Reviews.decline. rewrite Hgone; reflexivity.
Qed.

Lemma decline_frees_the_pair_witness :
  review_at 50 (snd (Reviews.decline Sample.reviewer 50 Sample.after_assign))
  = None.
Proof.
  destruct (decline_frees_the_pair Sample.reviewer 50 Sample.after_assign
              eq_refl) as (review & _ & _ & H & _).
  exact H.
Defined.

(** X13. A Review submitted through PUT /:id/submit is stored completed,
    with the submission time and the recommendation of the request, and from
    then on the reviewer's requests on it are refused: both submit routes
    with 400 and the store untouched, accept and decline with 400. *)
Theorem submit_is_final :
  forall (now : Date) (caller : Caller) (rid : ObjectId)
         (body : Reviews.SubmitBody) (st : Store),
    succeeded (fst (Reviews.submit now caller rid body st)) ->
    (exists r',
       review_at rid (snd (Reviews.submit now caller rid body st)) = Some r'
       /\ Review.status r' = "completed"
       /\ Review.submittedDate r' = Some now
       /\ Review.recommendation r' = Reviews.recommendation body
       /\ Review.reviewer r' = caller_id caller)
    /\ (forall now' body',
          res_status (fst (Reviews.submit now' caller rid body'
                             (snd (Reviews.submit now caller rid body st))))
          = 400
          /\ snd (Reviews.submit now' caller rid body'
                    (snd (Reviews.submit now caller rid body st)))
             = snd (Reviews.submit now caller rid body st))
    /\ (forall now' body',
          res_status (fst (Reviews.submit_evaluation now' caller rid body'
                             (snd (Reviews.submit now caller rid body st))))
          = 400
          /\ snd (Reviews.submit_evaluation now' caller rid body'
                    (snd (Reviews.submit now caller rid body st)))
             = snd (Reviews.submit now caller rid body st))
    /\ (forall now',
          Reviews.accept now' caller rid
            (snd (Reviews.submit now caller rid body st))
          = (json 400 "Review assignment cannot be accepted in current status",
             snd (Reviews.submit now caller rid body st)))
    /\ Reviews.decline caller rid (snd (Reviews.submit now caller rid body st))
       = (json 400 "Review assignment cannot be declined in current status",
          snd (Reviews.submit now caller rid body st)).
Proof.
  intros now caller rid body st Hok.
  assert (Hex : exists r',
             review_at rid (snd (Reviews.submit now caller rid body st))
             = Some r'
             /\ Review.status r' = "completed"
             /\ Review.submittedDate r' = Some now
             /\ Review.recommendation r' = Reviews.recommendation body
             /\ Review.reviewer r' = caller_id caller).
  { revert Hok. unfold succeeded, Reviews.submit.
    destruct (Reviews.evaluation body) as [ev|]; [|discriminate].
    destruct (negb _); [discriminate|].
    destruct (findById Review.id rid (reviews st)) as [review|] eqn:Hf;
      [|discriminate].
    destruct (findById_id Review.id _ _ _ Hf) as [Hid _].
    destruct (negb (Nat.eqb _ _)) eqn:Hrev; [discriminate|].
    destruct (Review.status review =? "completed"); [discriminate|].
    destruct (save_review _ _ _ _) as [st1|] eqn:Hsave; [|discriminate].
    intros _. cbn [fst snd].
    destruct (saved_review now review _ st st1 Hsave) as (Hat & _).
    { unfold review_at. cbn [Review.id]. rewrite Hid, Hf. discriminate. }
    cbn [Review.id] in Hat. rewrite Hid in Hat.
    match type of Hat with
    | _ = Some (Review.pre_save now review ?x) =>
      destruct (pre_save_keeps_state now review x) as (H1 & H2 & H3);
        [right; cbn [Review.status]; discriminate|];
      pose proof (f_equal snd (pre_save_pair now review x)) as Hr
    end.
    eexists. split; [exact Hat|]. cbn [Review.status Review.submittedDate
      Review.recommendation] in H1, H2, H3.
    cbn [pair_of snd Review.reviewer] in Hr.
    apply negb_false_iff, Nat.eqb_eq in Hrev.
    repeat split; congruence. }
  split; [exact Hex|].
  destruct Hex as (r' & Hat & Hst & _ & _ & Hrev).
  unfold review_at in Hat.
  set (st' := snd (Reviews.submit now caller rid body st)) in *.
  assert (Hsame : negb (Nat.eqb (Review.reviewer r') (caller_id caller))
                  = false)
    by (rewrite Hrev, Nat.eqb_refl; reflexivity).
  repeat split.
  - unfold Reviews.submit.
    destruct (Reviews.evaluation body'); [|reflexivity].
    destruct (negb (_ && Js.truthy (Reviews.specificComments body')));
      [reflexivity|].
    rewrite Hat, Hsame, Hst. reflexivity.
  - unfold Reviews.submit.
    destruct (Reviews.evaluation body'); [|reflexivity].
    destruct (negb (_ && Js.truthy (Reviews.specificComments body')));
      [reflexivity|].
    rewrite Hat, Hsame, Hst. reflexivity.
  - unfold Reviews.submit_evaluation.
    destruct (negb (_ && Js.truthy (Reviews.e_comments body')));
      [reflexivity|].
    rewrite Hat, Hsame, Hst. reflexivity.
  - unfold Reviews.submit_evaluation.
    destruct (negb (_ && Js.truthy (Reviews.e_comments body')));
      [reflexivity|].
    rewrite Hat, Hsame, Hst. reflexivity.
  - intros now'. unfold Reviews.accept. rewrite Hat, Hsame, Hst. reflexivity.
  - unfold Reviews.decline. rewrite Hat, Hsame, Hst. reflexivity.
Qed.

Lemma submit_is_final_witness :
  Reviews.decline Sample.reviewer 50 Sample.scored
  = (json 400 "Review assignment cannot be declined in current status",
     Sample.scored).
Proof.
  exact (proj2 (proj2 (proj2 (proj2
           (submit_is_final 3%Z Sample.reviewer 50 Sample.scores_4_5
              Sample.after_accept eq_refl))))).
Defined.

(** ** The second submit route *)

Lemma reviewed_is_no_status (m : Manuscript.t) :
  Manuscript.validate (Manuscript.set_status (Js.str "reviewed") m) = false.
Proof. reflexivity. Qed.

(** X14. POST /:reviewId/submit never changes a manuscript: the status
    'reviewed' it assigns when all Reviews are in is outside the schema's
    enum, so that save is always refused. *)
Theorem submit_evaluation_keeps_manuscripts :
  forall (now : Date) (caller : Caller) (rid : ObjectId)
         (body : Reviews.EvaluationBody) (st : Store),
    manuscripts (snd (Reviews.submit_evaluation now caller rid body st))
    = manuscripts st.
Proof.
  intros now caller rid body st. unfold Reviews.submit_evaluation.
  destruct (negb (_ && Js.truthy (Reviews.e_comments body))); [reflexivity|].
  destruct (findById Review.id rid (reviews st)) as [review|];
    [|reflexivity].
  destruct (negb (Nat.eqb _ _)); [reflexivity|].
  destruct (Review.status review =? "completed"); [reflexivity|].
  destruct (save_review _ _ _ _) as [st1|] eqn:Hsave; [|reflexivity].
  assert (H1 : manuscripts st1 = manuscripts st).
  { unfold save_review in Hsave.
    destruct (Review.validate _); [|discriminate].
    inversion Hsave. reflexivity. }
  destruct (findById Manuscript.id _ (manuscripts st1)); [|exact H1].
  destruct (Nat.eqb _ _); [|exact H1].
  unfold save_manuscript. rewrite reviewed_is_no_status. exact H1.
Qed.

Lemma filter_all {A : Type} (f : A -> bool) (l : list A) :
  (forall x, In x l -> f x = true) -> filter f l = l.
Proof.
  induction l as [|a l IH]; simpl; intros H; [reflexivity|].
  rewrite (H a) by auto. f_equal. apply IH. auto.
Qed.

Lemma updateById_In_inv {D : Type} (oid : D -> ObjectId) (new x : D)
  (c : list D) :
  In x (updateById oid new c) -> x = new \/ (In x c /\ oid x <> oid new).
Proof.
  unfold updateById. intros H. apply in_map_iff in H.
  destruct H as (y & Hy & Hin).
  destruct (Nat.eqb (oid y) (oid new)) eqn:E.
  - left. auto.
  - right. subst x. split; [exact Hin|]. apply Nat.eqb_neq. exact E.
Qed.

(** X15. The reviewer who completes the last open Review of a manuscript
    through POST /:reviewId/submit is answered 500 "Server error submitting
    review" although the Review has been stored completed, with the
    recommendation and the submission time. *)
Theorem submit_evaluation_last_review :
  forall (now : Date) (caller : Caller) (rid : ObjectId)
         (body : Reviews.EvaluationBody) (st : Store)
         (review r' : Review.t),
    review_at rid st = Some review ->
    Review.status review <> "completed" ->
    review_at rid (snd (Reviews.submit_evaluation now caller rid body st))
    = Some r' ->
    Review.status r' = "completed" ->
    manuscript_at (Review.manuscript review) st <> None ->
    (forall r, In r (reviews st) ->
               Review.manuscript r = Review.manuscript review ->
               Review.id r <> rid -> Review.status r = "completed") ->
    fst (Reviews.submit_evaluation now caller rid body st)
    = json 500 "Server error submitting review"
    /\ Review.recommendation r' = Reviews.e_recommendation body
    /\ Review.submittedDate r' = Some now.
Proof.
  intros now caller rid body st review r' Hat Hopen Hat' Hdone Hm Hall.
  unfold review_at in Hat, Hat'. unfold manuscript_at in Hm.
  destruct (findById_id Review.id _ _ _ Hat) as [Hid _]. subst rid.
  assert (Hstay : findById Review.id (Review.id review) (reviews st)
                  <> Some r').
  { rewrite Hat. intros E. inversion E. subst. contradiction. }
  revert Hat'. unfold Reviews.submit_evaluation.
  destruct (negb (_ && Js.truthy (Reviews.e_comments body)));
    [intros E; contradiction|].
  rewrite Hat.
  destruct (negb (Nat.eqb _ _)); [intros E; contradiction|].
  destruct (Review.status review =? "completed"); [intros E; contradiction|].
  destruct (save_review _ _ _ _) as [st1|] eqn:Hsave;
    [|intros E; contradiction].
  destruct (saved_review now review _ st st1 Hsave) as (Hnew & Hms & _).
  { unfold review_at. cbn [Review.id]. rewrite Hat. discriminate. }
  cbn [Review.id] in Hnew. unfold review_at in Hnew.
  match type of Hnew with
  | _ = Some (Review.pre_save now review ?x) =>
    destruct (pre_save_keeps_state now review x) as (H1 & H2 & H3);
      [right; cbn [Review.status]; discriminate|];
    pose proof (f_equal fst (pre_save_pair now review x)) as Hpm;
    pose proof (pre_save_id now review x) as Hpid
  end.
  cbn [Review.status Review.submittedDate Review.recommendation] in H1, H2, H3.
  cbn [pair_of fst Review.manuscript] in Hpm. cbn [Review.id] in Hpid.
  rewrite Hms.
  destruct (findById Manuscript.id _ (manuscripts st)) as [m|]; [|congruence].
  assert (Hfull :
    filter (fun r => Review.status r =? "completed")
           (filter (fun r => Nat.eqb (Review.manuscript r)
                                     (Review.manuscript review))
                   (reviews st1))
    = filter (fun r => Nat.eqb (Review.manuscript r)
                               (Review.manuscript review))
             (reviews st1)).
  { apply filter_all. intros x Hx. apply filter_In in Hx.
    destruct Hx as [Hx Hxm]. apply Nat.eqb_eq in Hxm.
    apply String.eqb_eq.
    unfold save_review in Hsave.
    destruct (Review.validate _); [|discriminate].
    inversion Hsave; subst st1; clear Hsave.
    cbn [reviews with_reviews] in Hx.
    apply updateById_In_inv in Hx. destruct Hx as [Hx|[Hx Hne]].
    - subst x. exact H1.
    - apply Hall; auto. rewrite Hpid in Hne. exact Hne. }
  rewrite Hfull, Nat.eqb_refl.
  unfold save_manuscript. rewrite reviewed_is_no_status. cbn [fst snd].
  rewrite Hnew. intros E. inversion E; subst r'; clear E.
  auto.
Qed.

Lemma submit_evaluation_last_review_witness :
  fst (Reviews.submit_evaluation 3%Z Sample.reviewer 50 Cases.short_form
         Sample.after_accept)
  = json 500 "Server error submitting review".
Proof.
  apply (submit_evaluation_last_review 3%Z Sample.reviewer 50 Cases.short_form
           Sample.after_accept (Cases.first_review Sample.after_accept)
           (Cases.first_review
              (snd (Reviews.submit_evaluation 3%Z Sample.reviewer 50
                      Cases.short_form Sample.after_accept)))).
  - reflexivity.
  - vm_compute. discriminate.
  - reflexivity.
  - reflexivity.
  - vm_compute. discriminate.
  - intros r Hin _ Hne. vm_compute in Hin. destruct Hin as [E|[]].
    subst r. exfalso. apply Hne. reflexivity.
Defined.

(** ** Assignment, continued *)

Lemma known_user_update (st : Store) (l : list Manuscript.t) (j : ObjectId)
  (u : User.t -> User.t) (rs : list Review.t) (n : ObjectId) (x : ObjectId) :
  (forall d, User.id (u d) = User.id d) ->
  known_user
    (mkStore l rs (payments st) (findByIdAndUpdate User.id j u (users st)) n) x
  = known_user st x.
Proof.
  intros Hu. unfold known_user. cbn [users].
  destruct (Nat.eq_dec x j) as [E|E].
  - subst. rewrite findById_update by exact Hu.
    destruct (findById User.id j (users st)); reflexivity.
  - rewrite findById_update_other by auto. reflexivity.
Qed.

(** One turn of the loop: it never throws, collects one Review for a known
    reviewer and none for an unknown one, and touches nothing of the
    manuscript but its mirror. *)
Lemma assign_one_run now caller mid due st assigned x m0 l :
  manuscript_at mid st = Some (Manuscript.set_reviewAssignments l m0) ->
  exists st' assigned' l',
    Reviews.assign_one now caller mid due st assigned x
    = Reviews.completed_ st' assigned'
    /\ length assigned'
       = length assigned + (if known_user st x then 1 else 0)
    /\ (known_user st x = false -> st' = st /\ assigned' = assigned)
    /\ (forall u, known_user st' u = known_user st u)
    /\ manuscript_at mid st'
       = Some (Manuscript.set_reviewAssignments l' m0).
Proof.
  intros Hm. unfold Reviews.assign_one, known_user at 1 2.
  destruct (findById User.id x (users st)) as [u|].
  2:{ exists st, assigned, l. repeat split; auto. }
  destruct (findOne _ (reviews st)) as [e|].
  { exists st, (assigned ++ [e])%list, l.
    rewrite length_app. repeat split; auto; discriminate. }
  rewrite fresh_review_saved.
  eexists _, _, (l ++ [Manuscript.mkAssignment x now due "pending"])%list.
  split; [reflexivity|]. rewrite length_app. split; [reflexivity|].
  split; [discriminate|]. split.
  - intros v. unfold with_users, with_manuscripts.
    cbn [manuscripts reviews payments users next_oid].
    apply (known_user_update st). reflexivity.
  - unfold manuscript_at in *.
    cbn [manuscripts with_users with_manuscripts].
    rewrite findById_update by reflexivity. rewrite Hm. reflexivity.
Qed.

Lemma assign_loop_run now caller mid due m0 ids :
  forall st assigned l,
    manuscript_at mid st = Some (Manuscript.set_reviewAssignments l m0) ->
    exists st' assigned' l',
      Reviews.assign_loop now caller mid due st assigned ids
      = Reviews.completed_ st' assigned'
      /\ length assigned'
         = length assigned + length (filter (known_user st) ids)
      /\ (existsb (known_user st) ids = false ->
          st' = st /\ assigned' = assigned)
      /\ manuscript_at mid st'
         = Some (Manuscript.set_reviewAssignments l' m0).
Proof.
  induction ids as [|x ids IH]; intros st assigned l Hm.
  - exists st, assigned, l. simpl. repeat split; auto.
  - destruct (assign_one_run now caller mid due st assigned x m0 l Hm)
      as (st1 & a1 & l1 & Hone & Hlen & Hnone & Hknown & Hm1).
    destruct (IH st1 a1 l1 Hm1) as (st2 & a2 & l2 & Hloop & Hlen2 & Hnone2 & Hm2).
    exists st2, a2, l2. cbn [Reviews.assign_loop]. rewrite Hone.
    split; [exact Hloop|].
    assert (Hf : filter (known_user st1) ids = filter (known_user st) ids)
      by (apply filter_ext; exact Hknown).
    assert (He : existsb (known_user st1) ids = existsb (known_user st) ids).
    { clear - Hknown. induction ids as [|y ids IH]; simpl; [reflexivity|].
      rewrite Hknown, IH. reflexivity. }
    split; [|split; [|exact Hm2]].
    + rewrite Hlen2, Hlen, Hf. cbn [filter].
      destruct (known_user st x); cbn [length]; lia.
    + cbn [existsb]. intros H. apply orb_false_iff in H.
      destruct H as [Hx Hrest].
      destruct (Hnone Hx) as [E1 E2]. subst st1 a1.
      apply Hnone2. exact Hrest.
Qed.

Lemma set_reviewAssignments_same (m : Manuscript.t) :
  Manuscript.set_reviewAssignments (Manuscript.reviewAssignments m) m = m.
Proof. destruct m. reflexivity. Qed.

(** X16. Reviewer ids that belong to no user are skipped in silence: when
    none of the ids is known, assign answers 200 "0 reviewer(s) assigned
    successfully" and leaves the store as it was. *)
Theorem assign_unknown_reviewers :
  forall (now : Date) (caller : Caller) (body : Reviews.AssignBody)
         (st : Store) (mid : ObjectId),
    authorize ["editor"; "admin"] caller = true ->
    Reviews.manuscriptId body = Some mid ->
    manuscript_at mid st <> None ->
    Reviews.reviewerIds body <> [] ->
    existsb (known_user st) (Reviews.reviewerIds body) = false ->
    Reviews.assign_run now caller body st
    = (json 200 "0 reviewer(s) assigned successfully", st, []).
Proof.
  intros now caller body st mid Hauth Hmid Hm Hids Hnone.
  unfold Reviews.assign_run. rewrite Hauth, Hmid. cbn [negb].
  destruct (Reviews.reviewerIds body) as [|x ids] eqn:E; [congruence|].
  unfold manuscript_at in Hm.
  destruct (findById Manuscript.id mid (manuscripts st)) as [m|] eqn:Hf;
    [|congruence].
  match goal with
  | |- context [Reviews.assign_loop now caller mid ?due st [] (x :: ids)] =>
    destruct (assign_loop_run now caller mid due m (x :: ids) st []
                (Manuscript.reviewAssignments m))
      as (st' & a' & l' & Hloop & _ & Hsame & _)
  end.
  { unfold manuscript_at. rewrite set_reviewAssignments_same. exact Hf. }
  rewrite Hloop. destruct (Hsame Hnone) as [E1 E2]. subst. reflexivity.
Qed.

Lemma assign_unknown_reviewers_witness :
  Reviews.assign_run 1%Z Sample.editor Cases.to_nobody Sample.unassigned
  = (json 200 "0 reviewer(s) assigned successfully", Sample.unassigned, []).
Proof.
  apply (assign_unknown_reviewers 1%Z Sample.editor Cases.to_nobody
           Sample.unassigned 10); try reflexivity.
  - vm_compute. discriminate.
  - discriminate.
Defined.

(** X17. One known reviewer among the ids is enough: assign answers 200 with
    the number of known ids in its message and puts the manuscript 'under-
    review' whatever its status was, changing nothing else of it but the
    mirror. *)
Theorem assign_puts_under_review :
  forall (now : Date) (caller : Caller) (body : Reviews.AssignBody)
         (st : Store) (mid : ObjectId) (m : Manuscript.t),
    authorize ["editor"; "admin"] caller = true ->
    Reviews.manuscriptId body = Some mid ->
    manuscript_at mid st = Some m ->
    existsb (known_user st) (Reviews.reviewerIds body) = true ->
    fst (Reviews.assign now caller body st)
    = json 200 (Reviews.count_message
                  (length (filter (known_user st) (Reviews.reviewerIds body))))
    /\ exists l,
         manuscript_at mid (snd (Reviews.assign now caller body st))
         = Some (Manuscript.set_status (Js.str "under-review")
                   (Manuscript.set_reviewAssignments l m)).
Proof.
  intros now caller body st mid m Hauth Hmid Hm Hsome.
  unfold Reviews.assign, Reviews.assign_run. rewrite Hauth, Hmid.
  cbn [negb].
  destruct (Reviews.reviewerIds body) as [|x ids] eqn:E; [discriminate|].
  unfold manuscript_at in Hm. rewrite Hm.
  match goal with
  | |- context [Reviews.assign_loop now caller mid ?due st [] (x :: ids)] =>
    destruct (assign_loop_run now caller mid due m (x :: ids) st []
                (Manuscript.reviewAssignments m))
      as (st' & a' & l' & Hloop & Hlen & _ & Hm')
  end.
  { unfold manuscript_at. rewrite set_reviewAssignments_same. exact Hm. }
  rewrite Hloop. cbn [fst snd]. cbn [length Nat.add] in Hlen.
  rewrite <- Hlen.
  assert (Hpos : a' <> []).
  { intros Ea. subst a'. cbn [length] in Hlen.
    apply existsb_exists in Hsome. destruct Hsome as (y & Hy & Hk).
    assert (Hin : In y (filter (known_user st) (x :: ids)))
      by (apply filter_In; auto).
    destruct (filter (known_user st) (x :: ids)); [contradiction|].
    discriminate. }
  destruct a' as [|r a']; [congruence|].
  split; [reflexivity|].
  exists l'. unfold manuscript_at in *.
  cbn [manuscripts with_manuscripts].
  rewrite findById_update by reflexivity. rewrite Hm'. reflexivity.
Qed.

Lemma assign_puts_under_review_witness :
  status_of 10 (snd (Reviews.assign 1%Z Sample.editor Sample.to_reviewer
                       Sample.paid))
  = Some (Js.str "under-review").
Proof.
  destruct (assign_puts_under_review 1%Z Sample.editor Sample.to_reviewer
              Sample.paid 10 (Sample.manuscript "accepted" true [])
              eq_refl eq_refl eq_refl eq_refl) as (_ & l & H).
  unfold status_of. unfold manuscript_at in H. rewrite H. reflexivity.
Defined.

(** ** Payments, continued *)

(** X18. POST /initiate never answers 200 and never writes: the Payment it
    builds gets its paymentReference only in the pre-save hook, after the
    required validator has refused it. The gateway requests it sends carry
    no reference. *)
Theorem initiate_never_succeeds :
  forall (now : Date) (token : string)
         (paystack : Payments.InitRequest -> option Payment.InitData)
         (caller : Caller) (mid : ObjectId) (st : Store),
    ~ succeeded (fst (fst (Payments.initiate now token paystack caller mid st)))
    /\ snd (fst (Payments.initiate now token paystack caller mid st)) = st
    /\ Forall (fun q => Payments.req_reference q = None)
              (snd (Payments.initiate now token paystack caller mid st)).
Proof.
  intros now token paystack caller mid st.
  unfold Payments.initiate, succeeded.
  destruct (findById Manuscript.id mid (manuscripts st)) as [m|];
    [|repeat split; [discriminate|constructor]].
  destruct (findById User.id _ (users st)) as [u|];
    [|repeat split; [discriminate|constructor]].
  destruct (negb _ && negb _);
    [repeat split; [discriminate|constructor]|].
  destruct (negb (Js.equals _ _));
    [repeat split; [discriminate|constructor]|].
  destruct (findOne _ (payments st));
    [repeat split; [discriminate|constructor]|].
  destruct (caller_email caller) as [e|];
    [|repeat split; [discriminate|constructor]].
  destruct (e =? ""); [repeat split; [discriminate|constructor]|].
  cbn [Payment.paymentReference Payment.id Payment.metadata].
  destruct (paystack _) as [d|];
    [|repeat split; [discriminate|repeat constructor]].
  unfold create_payment, Payment.validate.
  cbn [Payment.paymentReference Js.truthy andb fst snd].
  repeat split; [discriminate|repeat constructor].
Qed.

Lemma payer_check (caller : Caller) (p : Payment.t) :
  negb (Nat.eqb (Payment.user p) (caller_id caller))
  && negb (caller_role caller =? "admin") = false
  <-> payer_or_admin caller p.
Proof.
  unfold payer_or_admin.
  destruct (Nat.eqb_spec (Payment.user p) (caller_id caller));
    destruct (String.eqb_spec (caller_role caller) "admin"); simpl;
    split; auto; try discriminate.
  intros [H|H]; contradiction.
Qed.

Lemma pre_save_with_reference (now : Date) (token : string) (p : Payment.t) :
  Js.truthy (Payment.paymentReference p) = true ->
  Payment.pre_save now token p = p.
Proof. intros H. unfold Payment.pre_save. rewrite H. reflexivity. Qed.

(** X19. When the gateway does not report 'success', verify answers 400 and
    stores the Payment as 'failed' with the gateway's reason (or "Payment
    was not successful"), whatever its status was, a completed Payment
    included; the manuscripts are left as they are. *)
Theorem verify_failure_records :
  forall (now : Date) (token : string) (data : Payment.VerifyData)
         (caller : Caller) (reference : string) (st : Store) (p : Payment.t),
    findOne (Payments.by_reference reference) (payments st) = Some p ->
    payer_or_admin caller p ->
    Payment.gw_status data <> "success" ->
    Js.truthy (Payment.paymentReference p) = true ->
    fst (Payments.verify now token (Some data) caller reference st)
    = json 400 "Payment verification failed"
    /\ payment_at (Payment.id p)
         (snd (Payments.verify now token (Some data) caller reference st))
       = Some (Payment.mk (Payment.id p) (Payment.manuscript p)
                 (Payment.user p) (Payment.amount p) (Payment.currency p)
                 (Payment.paymentReference p) (Payment.paystackReference p)
                 "failed" (Payment.transactionId p)
                 (Payment.authorizationUrl p) (Payment.accessCode p)
                 (Payment.paystackData p) (Payment.metadata p)
                 (Payment.paidAt p)
                 (Some (Js.or_else (Payment.gateway_response data)
                                   "Payment was not successful")))
    /\ manuscripts
         (snd (Payments.verify now token (Some data) caller reference st))
       = manuscripts st.
Proof.
  intros now token data caller reference st p Hp Hwho Hgw Href.
  apply payer_check in Hwho. apply String.eqb_neq in Hgw.
  unfold Payments.verify. rewrite Hp, Hwho, Hgw.
  unfold save_payment, Payment.validate.
  cbn [Payment.paymentReference Payment.status]. rewrite Href.
  cbn [andb Js.elem Payment.status_enum existsb orb String.eqb Ascii.eqb
       Bool.eqb fst snd].
  split; [reflexivity|]. split; [|reflexivity].
  unfold payment_at. cbn [payments with_payments].
  rewrite pre_save_with_reference by exact Href.
  match goal with
  | |- findById Payment.id _ (updateById Payment.id ?x _) = _ =>
    change (Payment.id p) with (Payment.id x) at 1;
    rewrite (findById_saved Payment.id x)
  end.
  cbn [Payment.id].
  unfold findOne in Hp. apply find_some in Hp. destruct Hp as [Hin _].
  destruct (findById Payment.id (Payment.id p) (payments st)) eqn:E;
    [reflexivity|].
  exfalso. exact (In_findById Payment.id _ _ Hin E).
Qed.

Lemma verify_failure_records_witness :
  fst (Payments.verify 9%Z "K3J9" (Some Cases.abandoned) Sample.author
         "PAY_123" Sample.paid)
  = json 400 "Payment verification failed"
  /\ option_map Payment.status
       (payment_at 40 (snd (Payments.verify 9%Z "K3J9" (Some Cases.abandoned)
                              Sample.author "PAY_123" Sample.paid)))
     = Some "failed"
  /\ option_map Manuscript.paymentCompleted
       (manuscript_at 10 (snd (Payments.verify 9%Z "K3J9"
                                 (Some Cases.abandoned) Sample.author
                                 "PAY_123" Sample.paid)))
     = Some true.
Proof.
  destruct (verify_failure_records 9%Z "K3J9" Cases.abandoned Sample.author
              "PAY_123" Sample.paid (Sample.payment "completed" (Some 1%Z))
              eq_refl (or_introl eq_refl))
    as (H1 & H2 & H3); [discriminate|reflexivity|].
  split; [exact H1|]. split.
  - cbn [Payment.id Sample.payment] in H2. rewrite H2. reflexivity.
  - unfold manuscript_at. rewrite H3. reflexivity.
Defined.

(** X20. verify changes the store only for the payer or an admin, on a
    Payment found by the reference that has a paymentReference, and only
    when the gateway answered. *)
Theorem verify_writes_for_payer_only :
  forall (now : Date) (token : string) (gateway : option Payment.VerifyData)
         (caller : Caller) (reference : string) (st : Store),
    snd (Payments.verify now token gateway caller reference st) <> st ->
    exists p data,
      findOne (Payments.by_reference reference) (payments st) = Some p
      /\ payer_or_admin caller p
      /\ gateway = Some data
      /\ Js.truthy (Payment.paymentReference p) = true.
Proof.
  intros now token gateway caller reference st.
  unfold Payments.verify.
  destruct (findOne _ (payments st)) as [p|] eqn:Hp;
    [|intros H; contradiction H; reflexivity].
  destruct (negb _ && negb _) eqn:Hwho;
    [intros H; contradiction H; reflexivity|].
  apply payer_check in Hwho.
  destruct gateway as [data|]; [|intros H; contradiction H; reflexivity].
  intros H. exists p, data. repeat split; auto.
  destruct (Js.truthy (Payment.paymentReference p)) eqn:Href; [reflexivity|].
  exfalso. apply H. unfold save_payment, Payment.validate.
  destruct (Payment.gw_status data =? "success");
    cbn [Payment.paymentReference]; rewrite Href; reflexivity.
Qed.

Lemma verify_writes_for_payer_only_witness :
  exists p data,
    findOne (Payments.by_reference "PAY_123")
            (payments Sample.awaiting_payment) = Some p
    /\ payer_or_admin Sample.author p
    /\ Some Sample.success = Some data
    /\ Js.truthy (Payment.paymentReference p) = true.
Proof.
  apply (verify_writes_for_payer_only 9%Z "K3J9" (Some Sample.success)
           Sample.author "PAY_123" Sample.awaiting_payment).
  intros H.
  apply (f_equal (fun st => map Payment.status (payments st))) in H.
  vm_compute in H. discriminate.
Defined.

(** X21. The webhook answers 200 only to a raw body that parses and whose
    x-paystack-signature is the keyed hash of exactly these bytes under the
    secret (or the built-in test key when none is configured). *)
Theorem webhook_accepts_only_signed :
  forall (hmac : string -> string -> string)
         (parse : string -> option Payments.Event) (key : option string)
         (body : Payments.Body) (signature : option string) (st : Store),
    succeeded (fst (Payments.webhook hmac parse key body signature st)) ->
    exists bytes event,
      body = Payments.raw bytes
      /\ signature
         = Some (hmac (Js.or_else key "sk_test_your_secret_key") bytes)
      /\ parse bytes = Some event.
Proof.
  intros hmac parse key body signature st.
  unfold succeeded, Payments.webhook.
  destruct body as [bytes|]; [|discriminate].
  destruct (Js.opt_eqb _ signature) eqn:E; [|discriminate].
  destruct (parse bytes) as [event|] eqn:Hparse; [|discriminate].
  intros _. exists bytes, event. repeat split; [|exact Hparse].
  destruct signature as [s|]; simpl in E; [|discriminate].
  apply String.eqb_eq in E. congruence.
Qed.

Lemma webhook_accepts_only_signed_witness :
  exists bytes event,
    Payments.raw "charge" = Payments.raw bytes
    /\ Some (Sample.toy_hmac "sk_test_your_secret_key" "charge")
       = Some (Sample.toy_hmac (Js.or_else None "sk_test_your_secret_key")
                 bytes)
    /\ Sample.toy_parse bytes = Some event.
Proof.
  apply (webhook_accepts_only_signed Sample.toy_hmac Sample.toy_parse None
           (Payments.raw "charge")
           (Some (Sample.toy_hmac "sk_test_your_secret_key" "charge"))
           Sample.awaiting_payment).
  reflexivity.
Defined.

(** ** Listings *)

Lemma insert_by_date_In (m x : Manuscript.t) (l : list Manuscript.t) :
  In x (Editorial.insert_by_date m l) <-> x = m \/ In x l.
Proof.
  induction l as [|y l IH]; simpl.
  - intuition auto.
  - destruct (Editorial.date_leb _ _); simpl; [intuition auto|].
    rewrite IH. intuition auto.
Qed.

Lemma sort_by_submissionDate_In (x : Manuscript.t) (l : list Manuscript.t) :
  In x (Editorial.sort_by_submissionDate l) <-> In x l.
Proof.
  unfold Editorial.sort_by_submissionDate.
  induction l as [|y l IH]; simpl; [tauto|].
  rewrite insert_by_date_In, IH. intuition auto.
Qed.

Lemma filter_both_le {A : Type} (f g : A -> bool) (l : list A) :
  length (filter (fun x => f x && g x) l) <= length (filter f l).
Proof.
  induction l as [|a l IH]; simpl; [lia|].
  destruct (f a), (g a); simpl; lia.
Qed.

(** If the conjunction finds as many as its first half, the second half
    holds wherever the first does. *)
Lemma filter_both_all {A : Type} (f g : A -> bool) (l : list A) :
  length (filter (fun x => f x && g x) l) = length (filter f l) ->
  forall x, In x l -> f x = true -> g x = true.
Proof.
  induction l as [|a l IH]; simpl; [tauto|].
  pose proof (filter_both_le f g l) as Hle.
  destruct (f a) eqn:Ef, (g a) eqn:Eg; simpl; intros Hlen x [Hx|Hx] Hf;
    subst; try congruence; try (apply IH; auto; lia); lia.
Qed.

(** X22. What pending-decisions lists: manuscripts of the store that are
    'under-review' and have at least one mirror entry and as many completed
    Reviews as mirror entries, with these Reviews as the summary. When the
    mirror has one entry per Review, a listed manuscript has no pending
    Review, so make-decision will not refuse it. *)
Theorem pending_decisions_ready :
  forall (caller : Caller) (st : Store) (m : Manuscript.t)
         (s : Editorial.ReviewSummary),
    In (m, s) (snd (Editorial.pending_decisions caller st)) ->
    authorize ["editor"; "admin"] caller = true
    /\ In m (manuscripts st)
    /\ Manuscript.status m = Js.str "under-review"
    /\ 0 < Editorial.totalReviews s
    /\ Editorial.totalReviews s = length (Manuscript.reviewAssignments m)
    /\ Editorial.completedReviews s = Editorial.totalReviews s
    /\ Editorial.summary_reviews s
       = Editorial.completed_reviews (Manuscript.id m) st
    /\ (mirror_in_step m st ->
        Editorial.pendingReviews (Manuscript.id m) st = 0).
Proof.
  intros caller st m s. unfold Editorial.pending_decisions.
  destruct (authorize _ caller); cbn [negb snd]; [|contradiction].
  intros Hin. apply in_flat_map in Hin. destruct Hin as (x & Hx & Hentry).
  apply sort_by_submissionDate_In, filter_In in Hx.
  destruct Hx as [Hx Hstatus]. apply equals_spec in Hstatus.
  unfold Editorial.ready_entry in Hentry.
  destruct (Nat.ltb 0 _ && Nat.eqb _ _) eqn:Hready; [|contradiction].
  destruct Hentry as [E|[]]. inversion E; subst; clear E.
  apply andb_true_iff in Hready. destruct Hready as [Hpos Hall].
  apply Nat.ltb_lt in Hpos. apply Nat.eqb_eq in Hall.
  cbn [Editorial.totalReviews Editorial.completedReviews
       Editorial.summary_reviews].
  repeat split; auto.
  intros Hstep. apply pendingReviews_zero. intros r Hr Hm.
  unfold mirror_in_step, reviews_of in Hstep.
  unfold Editorial.completed_reviews in Hall. rewrite Hstep in Hall.
  assert (Hdone : (Review.status r =? "completed") = true).
  { apply (filter_both_all
             (fun r => Nat.eqb (Review.manuscript r) (Manuscript.id m))
             (fun r => Review.status r =? "completed")
             (reviews st) Hall r Hr).
    apply Nat.eqb_eq. exact Hm. }
  apply String.eqb_eq in Hdone. rewrite Hdone. split; discriminate.
Qed.

Lemma pending_decisions_ready_witness :
  Editorial.pendingReviews (Manuscript.id (fst Cases.listed)) Sample.scored
  = 0.
Proof.
  destruct (pending_decisions_ready Sample.editor Sample.scored
              (fst Cases.listed) (snd Cases.listed))
    as (_ & _ & _ & _ & _ & _ & _ & H).
  - vm_compute. left. reflexivity.
  - apply H. reflexivity.
Defined.

Lemma filter_apart {A : Type} (f g : A -> bool) (l : list A) :
  (forall x, f x = true -> g x = false) ->
  length (filter f l) + length (filter g l) <= length l.
Proof.
  intros H. induction l as [|a l IH]; simpl; [lia|].
  destruct (f a) eqn:Ef.
  - rewrite (H a Ef). simpl. lia.
  - destruct (g a); simpl; lia.
Qed.

(** X23. The review statistics of editor-manuscripts: total is the number of
    Reviews of the manuscript, completed and pending together do not exceed
    it, pending is at most what make-decision counts as pending, and the
    average score is null exactly when no Review is completed. *)
Theorem reviewStats_counts :
  forall (mid : ObjectId) (st : Store),
    Editorial.completed (Editorial.reviewStats mid st)
    + Editorial.pending (Editorial.reviewStats mid st)
    <= Editorial.total (Editorial.reviewStats mid st)
    /\ Editorial.total (Editorial.reviewStats mid st)
       = length (reviews_of mid st)
    /\ Editorial.pending (Editorial.reviewStats mid st)
       <= Editorial.pendingReviews mid st
    /\ (Editorial.averageScore (Editorial.reviewStats mid st) = None
        <-> Editorial.completed (Editorial.reviewStats mid st) = 0).
Proof.
  intros mid st. unfold Editorial.reviewStats.
  cbn [Editorial.completed Editorial.pending Editorial.total
       Editorial.averageScore].
  split; [|split; [reflexivity|split]].
  - apply filter_apart. intros x Hx. apply String.eqb_eq in Hx.
    rewrite Hx. reflexivity.
  - unfold Editorial.pendingReviews, countDocuments.
    induction (reviews st) as [|r l IH]; [simpl; lia|].
    cbn [filter].
    destruct (Nat.eqb (Review.manuscript r) mid); cbn [andb filter];
      [|exact IH].
    destruct (Review.status r =? "pending") eqn:E.
    + apply String.eqb_eq in E. rewrite E.
      change (Js.elem "pending" ["pending"; "accepted"]) with true.
      cbn [length]. lia.
    + destruct (Js.elem (Review.status r) _); cbn [length]; lia.
  - destruct (length _) eqn:E; simpl; split; intros H;
      try reflexivity; discriminate.
Qed.

(** ** The scale of the overall score *)




